(** * Unproductive Site Blocker: the background policy engine

    A shallow embedding of the service worker of the extension (the
    hydrating revision of [background.js]: [ensureInit], the dwell timer,
    the usage ledger with its retention sweep, the rule enforcer and the
    event listeners), of the parts that differ in its first revision, of
    the handlers of the settings page and the popup, and of the first
    draft of the worker, followed by their properties.

    Conventions of the embedding.
    - JavaScript numbers that hold instants (milliseconds since the epoch),
      seconds and rule ids are integers in [Z]; the 32-bit wrap of [| 0] is
      written out.
    - Strings are [string]; [charCodeAt] is the code of the character.
    - The in-memory globals of the worker are the record [Mem]; the two
      storage areas and the dynamic rule table of the browser are explicit
      components of [World], threaded through every operation.
    - [Date.now()] is one reading per handler: an operation receives the
      instant at which it runs as the field [nowMs] of its [Env].
    - Listeners run one at a time, each to completion; every storage and
      rule-table call of the browser succeeds. *)

From Stdlib Require Import ZArith Lia List Bool Ascii String DecimalString.
From stdpp Require Import gmap strings list fin_maps.

Local Open Scope string_scope.
Local Open Scope Z_scope.

(** ** Constants *)

Definition ALARM_INTERVAL_MINUTES : Z := 1.
Definition DYNAMIC_RULE_ID_START : Z := 1000.
Definition USAGE_RETENTION_DAYS : Z := 7.

(** ** JavaScript primitives used by the worker *)

Module Js.

(** [x | 0]: ToInt32, the signed 32-bit wrap-around. *)
Definition toInt32 (x : Z) : Z := (x + 2 ^ 31) mod 2 ^ 32 - 2 ^ 31.

(** [a % b] on integers: the remainder takes the sign of the dividend. *)
Definition remainder (a b : Z) : Z := Z.rem a b.

(** [Math.round(x / d)] for an integer [x] and a positive integer [d]:
    the nearest integer, halves rounded towards plus infinity. *)
Definition roundDiv (x d : Z) : Z := (2 * x + d) / (2 * d).

Definition charCode (c : ascii) : Z := Z.of_N (N_of_ascii c).

(** The code units of a string, in order ([s.charCodeAt(i)] for each [i]). *)
Fixpoint charCodes (s : string) : list Z :=
  match s with
  | EmptyString => []
  | String c r => charCode c :: charCodes r
  end.

(** Truthiness of a nullable string and of a nullable number. *)
Definition truthyStr (o : option string) : bool :=
  match o with
  | Some s => negb (String.eqb s EmptyString)
  | None => false
  end.

Definition truthyNum (o : option Z) : bool :=
  match o with
  | Some z => negb (z =? 0)
  | None => false
  end.

(** [o || null] on a nullable string / number. *)
Definition orNullStr (o : option string) : option string :=
  if truthyStr o then o else None.

Definition orNullNum (o : option Z) : option Z :=
  if truthyNum o then o else None.

(** [s.startsWith(p)]. *)
Definition startsWith (s p : string) : bool := String.prefix p s.

Definition dropChars (n : nat) (s : string) : string :=
  String.substring n (String.length s - n) s.

(** [s.replace(p, e)] with a string pattern and the empty string [e]: the
    first occurrence of [p] is removed, the rest is kept. *)
Fixpoint removeFirst (p s : string) : string :=
  if String.prefix p s then dropChars (String.length p) s
  else match s with
       | EmptyString => EmptyString
       | String c r => String c (removeFirst p r)
       end.

(** [s.split(sep)] for a one-character separator; [cur] is the field
    read so far. *)
Fixpoint splitGo (sep : ascii) (cur : string) (s : string) : list string :=
  match s with
  | EmptyString => [cur]
  | String c r =>
      if Ascii.eqb c sep then cur :: splitGo sep EmptyString r
      else splitGo sep (cur ++ String c EmptyString) r
  end.

Definition split (sep : ascii) (s : string) : list string :=
  splitGo sep EmptyString s.

(** [arr.includes(x)] on an array of strings. *)
Definition includes (l : list string) (x : string) : bool :=
  existsb (String.eqb x) l.

(** [String(n)] for an integer. *)
Definition stringOfInt (z : Z) : string :=
  if z <? 0 then "-" ++ NilZero.string_of_uint (N.to_uint (Z.to_N (- z)))
  else NilZero.string_of_uint (N.to_uint (Z.to_N z)).

(** [s.padStart(2, "0")]. *)
Definition padStart2 (s : string) : string :=
  match String.length s with
  | O => "00"
  | S O => "0" ++ s
  | _ => s
  end.

(** A template-literal hole filled from [parts[i]]: an index past the end
    of the array reads [undefined], printed as the word. *)
Definition templateAt (parts : list string) (i : nat) : string :=
  nth i parts "undefined".

End Js.

(** ** Calendar arithmetic of [Date] *)

Module JsDate.

Definition msPerDay : Z := 86400000.

(** The proleptic Gregorian date of a day number (days since 1970-01-01),
    as [getFullYear], [getMonth() + 1] and [getDate] report it. *)
Definition civilFromDays (z0 : Z) : Z * Z * Z :=
  let z := z0 + 719468 in
  let era := z / 146097 in
  let doe := z - era * 146097 in
  let yoe := (doe - doe / 1460 + doe / 36524 - doe / 146096) / 365 in
  let y := yoe + era * 400 in
  let doy := doe - (365 * yoe + yoe / 4 - yoe / 100) in
  let mp := (5 * doy + 2) / 153 in
  let d := doy - (153 * mp + 2) / 5 + 1 in
  let m := if mp <? 10 then mp + 3 else mp - 9 in
  (if m <=? 2 then y + 1 else y, m, d).

(** The day number of a date; a day past the end of its month runs on into
    the next one, as [MakeDay] does. *)
Definition daysFromCivil (y0 m d : Z) : Z :=
  let y := if m <=? 2 then y0 - 1 else y0 in
  let era := y / 400 in
  let yoe := y - era * 400 in
  let doy := (153 * (if 2 <? m then m - 3 else m + 9) + 2) / 5 + d - 1 in
  let doe := yoe * 365 + yoe / 4 - yoe / 100 + doy in
  era * 146097 + doe - 719468.

Definition isDigit (c : ascii) : bool :=
  let n := Js.charCode c in (48 <=? n) && (n <=? 57).

Fixpoint allDigits (s : string) : bool :=
  match s with
  | EmptyString => true
  | String c r => isDigit c && allDigits r
  end.

Fixpoint digitsValue (acc : Z) (s : string) : Z :=
  match s with
  | EmptyString => acc
  | String c r => digitsValue (10 * acc + (Js.charCode c - 48)) r
  end.

(** [new Date(s)] on a string, as the time value or [None] for an Invalid
    Date (NaN).

    The date-only form [YYYY-MM-DD] of the ECMAScript date-time string
    format (four-digit years) is read as UTC midnight of that date; a day
    up to 31 is accepted in every month and runs on into the next one, as
    in V8. Every other string goes to the engine's fallback parser, of
    which one rule matters here: V8 rejects a string in which an unknown
    word follows a number, and the strings the sweep of the hydrating
    revision builds all end in the word [undefined]. The fallback is
    modelled as rejecting; the other strings V8 would accept there are
    outside the model. *)
Definition parse (s : string) : option Z :=
  match Js.split "-" s with
  | [y; m; d] =>
      if (String.length y =? 4)%nat && (String.length m =? 2)%nat
         && (String.length d =? 2)%nat
         && allDigits y && allDigits m && allDigits d
      then
        let mv := digitsValue 0 m in
        let dv := digitsValue 0 d in
        if (1 <=? mv) && (mv <=? 12) && (1 <=? dv) && (dv <=? 31)
        then Some (daysFromCivil (digitsValue 0 y) mv dv * msPerDay)
        else None
      else None
  | _ => None
  end.

(** [a < b] on two [Date] objects: false as soon as one is invalid. *)
Definition ltDate (a : option Z) (b : Z) : bool :=
  match a with
  | Some t => t <? b
  | None => false
  end.

End JsDate.

(** ** The clock of a handler *)

(** The instant at which a handler runs and the offset of local time from
    UTC in minutes (taken as fixed). *)
Record Env := mkEnv { nowMs : Z; tzOffsetMinutes : Z }.

Definition localDay (e : Env) : Z :=
  (nowMs e + tzOffsetMinutes e * 60000) / JsDate.msPerDay.

(** The local calendar day to which an instant belongs. *)
Definition dayOfInstant (e : Env) (t : Z) : Z :=
  (t + tzOffsetMinutes e * 60000) / JsDate.msPerDay.

Definition todayKey (e : Env) : string :=
  let '(yyyy, mm, dd) := JsDate.civilFromDays (localDay e) in
  "usage_" ++ Js.stringOfInt yyyy ++ "_"
  ++ Js.padStart2 (Js.stringOfInt mm) ++ "_"
  ++ Js.padStart2 (Js.stringOfInt dd).

(** ** Data model *)

(** One entry of [settings.restrictedDomains]. *)
Record DomainSettings := mkDomainSettings { dailyLimitMinutes : Z }.

(** The [settings] object. [restrictedDomains] is an object used as a map
    from domain to entry: it is kept as the list of its own properties in
    the order [Object.keys] enumerates them (a domain is looked up by its
    first entry); [None] is a missing (falsy) property. Property names
    inherited from [Object.prototype] are not domains. *)
Record Settings := mkSettings {
  restrictedDomains : option (list (string * DomainSettings))
}.

(** In-memory state of the worker: the four globals. *)
Record Mem := mkMem {
  settings : Settings;
  todayUsage : gmap string Z;
  activeDomain : option string;
  activeStart : option Z
}.

(** The globals as the script initialises them when the worker starts. *)
Definition freshMem : Mem :=
  mkMem (mkSettings (Some [])) ∅ None None.

(** Values held by [chrome.storage.local]: [null], a number, a string or
    a usage object (domain to seconds). *)
Inductive JsVal :=
  | JNull
  | JNum (z : Z)
  | JStr (s : string)
  | JUsage (u : gmap string Z).

Inductive ResourceType := main_frame | sub_frame.
Inductive ActionType := block.

(** A rule of [chrome.declarativeNetRequest]. *)
Record Rule := mkRule {
  ruleId : Z;
  priority : Z;
  action : ActionType;
  urlFilter : string;
  resourceTypes : list ResourceType
}.

(** Everything a handler reads or writes: the globals, the two storage
    areas ([chrome.storage.sync] holds the one key [settings]) and the table
    of dynamic rules. *)
Record World := mkWorld {
  mem : Mem;
  localStore : gmap string JsVal;
  syncSettings : option Settings;
  rules : list Rule
}.

Definition withMem (w : World) (m : Mem) : World :=
  mkWorld m (localStore w) (syncSettings w) (rules w).

Definition withLocal (w : World) (l : gmap string JsVal) : World :=
  mkWorld (mem w) l (syncSettings w) (rules w).

Definition withRules (w : World) (t : list Rule) : World :=
  mkWorld (mem w) (localStore w) (syncSettings w) t.

(** The worker process stopped and was started again: storage and rules
    survive, the globals are those of a fresh script. *)
Definition restartWorker (w : World) : World := withMem w freshMem.

(** ** Reading storage *)

Definition usageOfVal (v : option JsVal) : gmap string Z :=
  match v with
  | Some (JUsage u) => u
  | _ => ∅
  end.

Definition strOfVal (v : option JsVal) : option string :=
  match v with
  | Some (JStr s) => Some s
  | _ => None
  end.

Definition numOfVal (v : option JsVal) : option Z :=
  match v with
  | Some (JNum z) => Some z
  | _ => None
  end.

Definition valOfStr (o : option string) : JsVal :=
  match o with
  | Some s => JStr s
  | None => JNull
  end.

Definition valOfNum (o : option Z) : JsVal :=
  match o with
  | Some z => JNum z
  | None => JNull
  end.

(** ** Core state hydration *)

Definition ensureInit (e : Env) (w : World) : World :=
  let m := mem w in
  let settings' :=
    match syncSettings w with
    | Some s =>
        match restrictedDomains s with
        | Some _ => s
        | None => settings m
        end
    | None => settings m
    end in
  let key := todayKey e in
  let l := localStore w in
  withMem w
    (mkMem settings'
       (usageOfVal (l !! key))
       (Js.orNullStr (strOfVal (l !! "activeDomain")))
       (Js.orNullNum (numOfVal (l !! "activeStart")))).

(** ** Helpers *)

Definition stripWww (hostname : string) : string :=
  if Js.startsWith hostname "www." then Js.dropChars 4 hostname else hostname.

Definition getTrackedDomains (m : Mem) : list string :=
  map fst (default [] (restrictedDomains (settings m))).

Fixpoint lookupEntry (d : string) (l : list (string * DomainSettings))
  : option DomainSettings :=
  match l with
  | [] => None
  | (k, v) :: r => if String.eqb k d then Some v else lookupEntry d r
  end.

(** A limit in seconds; [None] is [Infinity]. *)
Definition getLimitSeconds (m : Mem) (domain : string) : option Z :=
  match lookupEntry domain (default [] (restrictedDomains (settings m))) with
  | Some entry => Some (dailyLimitMinutes entry * 60)
  | None => None
  end.

(** [todayUsage[domain] || 0]. *)
Definition usageOf (u : gmap string Z) (domain : string) : Z :=
  default 0 (u !! domain).

(** ** Usage and timers *)

Definition elapsedSeconds (now start : Z) : Z := Js.roundDiv (now - start) 1000.

Definition flushActiveTimer (now : Z) (m : Mem) : Mem :=
  match activeDomain m, activeStart m with
  | Some d, Some start =>
      if Js.truthyStr (Some d) && Js.truthyNum (Some start) then
        let elapsed := elapsedSeconds now start in
        if 0 <? elapsed then
          mkMem (settings m)
                (<[d := usageOf (todayUsage m) d + elapsed]> (todayUsage m))
                (activeDomain m)
                (Some now)
        else m
      else m
  | _, _ => m
  end.

Definition persistUsage (e : Env) (w : World) : World :=
  let m := flushActiveTimer (nowMs e) (mem w) in
  let key := todayKey e in
  mkWorld m
    (<["activeStart" := valOfNum (activeStart m)]>
       (<["activeDomain" := valOfStr (activeDomain m)]>
          (<[key := JUsage (todayUsage m)]> (localStore w))))
    (syncSettings w) (rules w).

(** The date the sweep reads out of a storage key, for a key that passed
    the [usage_] prefix test and split into three fields: the template
    [`${parts[1]}-${parts[2]}-${parts[3]}`]. *)
Definition sweepDateString (parts : list string) : string :=
  Js.templateAt parts 1 ++ "-" ++ Js.templateAt parts 2 ++ "-"
  ++ Js.templateAt parts 3.

(** The instant of [cutoff]: [setDate(getDate() - USAGE_RETENTION_DAYS)]
    on the current local time, which at a fixed offset from UTC is the
    current instant moved back by that many days. *)
Definition cutoffMs (e : Env) : Z :=
  nowMs e - USAGE_RETENTION_DAYS * JsDate.msPerDay.

(** The body of the loop of [cleanupOldUsage]: does [key] go to
    [keysToRemove]? *)
Definition sweepSelects (e : Env) (key : string) : bool :=
  if negb (Js.startsWith key "usage_") then false
  else
    let parts := Js.split "_" (Js.removeFirst "usage_" key) in
    if negb (length parts =? 3)%nat then false
    else JsDate.ltDate (JsDate.parse (sweepDateString parts)) (cutoffMs e).

Definition keysToRemove (e : Env) (l : gmap string JsVal) : list string :=
  List.filter (sweepSelects e) (map fst (map_to_list l)).

(** [chrome.storage.local.remove(keys)]. *)
Definition storageRemove (keys : list string) (l : gmap string JsVal)
  : gmap string JsVal :=
  foldr delete l keys.

Definition cleanupOldUsage (e : Env) (w : World) : World :=
  let ks := keysToRemove e (localStore w) in
  if (0 <? length ks)%nat then withLocal w (storageRemove ks (localStore w))
  else w.

(** ** Limit enforcement and rules *)

Fixpoint ruleHash (hash : Z) (codes : list Z) : Z :=
  match codes with
  | [] => hash
  | c :: r => ruleHash (Js.toInt32 (hash * 31 + c)) r
  end.

Definition ruleIdOfCodes (codes : list Z) : Z :=
  DYNAMIC_RULE_ID_START + Z.abs (Js.remainder (ruleHash 0 codes) 10000).

Definition ruleIdFor (domain : string) : Z :=
  ruleIdOfCodes (Js.charCodes domain).

(** [chrome.declarativeNetRequest.updateDynamicRules]: the rules whose id
    is listed are removed, then the new rules are added. *)
Definition updateDynamicRules (removeRuleIds : list Z) (addRules : list Rule)
  (t : list Rule) : list Rule :=
  (List.filter (fun r => negb (existsb (Z.eqb (ruleId r)) removeRuleIds)) t
   ++ addRules)%list.

(** The browser rejects an update that would leave two rules with one id. *)
Definition updateAccepted (removeRuleIds : list Z) (addRules : list Rule)
  (t : list Rule) : Prop :=
  List.NoDup (map ruleId (updateDynamicRules removeRuleIds addRules t)).

Definition blockRule (domain : string) : Rule :=
  mkRule (ruleIdFor domain) 1 block ("||" ++ domain) [main_frame; sub_frame].

Definition addDynamicBlockRule (domain : string) (t : list Rule) : list Rule :=
  updateDynamicRules [ruleIdFor domain] [blockRule domain] t.

Definition removeDynamicBlockRule (domain : string) (t : list Rule)
  : list Rule :=
  updateDynamicRules [ruleIdFor domain] [] t.

Definition removeAllDynamicBlockRules (t : list Rule) : list Rule :=
  if (0 <? length t)%nat then updateDynamicRules (map ruleId t) [] t else t.

(** [seconds >= limit], where the limit may be [Infinity]. *)
Definition limitReached (m : Mem) (domain : string) : bool :=
  match getLimitSeconds m domain with
  | Some limit => limit <=? usageOf (todayUsage m) domain
  | None => false
  end.

(** One turn of the loop of [checkLimits]. *)
Definition checkDomain (m : Mem) (t : list Rule) (domain : string)
  : list Rule :=
  if limitReached m domain then addDynamicBlockRule domain t else t.

Definition checkLimitsOn (m : Mem) (t : list Rule) : list Rule :=
  fold_left (checkDomain m) (getTrackedDomains m) t.

Definition checkLimits (w : World) : World :=
  withRules w (checkLimitsOn (mem w) (rules w)).

Definition setActiveDomain (e : Env) (domain : option string) (w : World)
  : World :=
  let m := flushActiveTimer (nowMs e) (mem w) in
  let tracked := getTrackedDomains m in
  let m' :=
    match domain with
    | Some d =>
        if Js.truthyStr (Some d) && Js.includes tracked d
        then mkMem (settings m) (todayUsage m) (Some d) (Some (nowMs e))
        else mkMem (settings m) (todayUsage m) None None
    | None => mkMem (settings m) (todayUsage m) None None
    end in
  checkLimits (persistUsage e (withMem w m')).

(** ** The hostname of [new URL(url)] *)

(** The part of the URL parser the worker relies on: the scheme, and for a
    URL with an authority the host between the credentials and the port.
    [hostname] is [None] where the constructor throws. Hosts are ASCII
    names: percent-escapes, IPv6 literals and international names are
    outside this model, and so is the stripping of surrounding blanks. *)
Module URL.

Definition isAlpha (c : ascii) : bool :=
  let n := Js.charCode c in
  ((65 <=? n) && (n <=? 90)) || ((97 <=? n) && (n <=? 122)).

Definition isSchemeChar (c : ascii) : bool :=
  isAlpha c || JsDate.isDigit c
  || Ascii.eqb c "+" || Ascii.eqb c "-" || Ascii.eqb c ".".

Definition lowerChar (c : ascii) : ascii :=
  let n := Js.charCode c in
  if (65 <=? n) && (n <=? 90) then ascii_of_N (Z.to_N (n + 32)) else c.

Fixpoint lower (s : string) : string :=
  match s with
  | EmptyString => EmptyString
  | String c r => String (lowerChar c) (lower r)
  end.

(** Scheme state: characters up to the first colon. *)
Fixpoint schemeGo (acc s : string) : option (string * string) :=
  match s with
  | EmptyString => None
  | String c r =>
      if Ascii.eqb c ":" then Some (acc, r)
      else if isSchemeChar c
           then schemeGo (acc ++ String (lowerChar c) EmptyString) r
           else None
  end.

Definition splitScheme (s : string) : option (string * string) :=
  match s with
  | String c _ => if isAlpha c then schemeGo EmptyString s else None
  | EmptyString => None
  end.

Fixpoint takeUntil (stop : ascii -> bool) (s : string) : string :=
  match s with
  | EmptyString => EmptyString
  | String c r => if stop c then EmptyString else String c (takeUntil stop r)
  end.

Fixpoint dropWhile (p : ascii -> bool) (s : string) : string :=
  match s with
  | EmptyString => EmptyString
  | String c r => if p c then dropWhile p r else s
  end.

Definition isSlash (c : ascii) : bool :=
  Ascii.eqb c "/" || Ascii.eqb c "\".

Definition endsAuthority (special : bool) (c : ascii) : bool :=
  Ascii.eqb c "/" || Ascii.eqb c "?" || Ascii.eqb c "#"
  || (special && Ascii.eqb c "\").

(** What follows the last [@] (the credentials end there). *)
Definition afterCredentials (a : string) : string :=
  List.last (Js.split "@" a) EmptyString.

Definition forbiddenHostChar (c : ascii) : bool :=
  let n := Js.charCode c in
  (n <=? 32) || (127 <=? n)
  || existsb (Ascii.eqb c)
       ["#"; "/"; ":"; "<"; ">"; "?"; "@"; "["; "\"; "]"; "^"; "|"; "%"]%char.

Fixpoint anyChar (p : ascii -> bool) (s : string) : bool :=
  match s with
  | EmptyString => false
  | String c r => p c || anyChar p r
  end.

Definition portOk (p : string) : bool :=
  JsDate.allDigits p && (JsDate.digitsValue 0 p <=? 65535).

(** Host and port of an authority without credentials. *)
Definition hostOfAuthority (special : bool) (a : string) : option string :=
  let hp := afterCredentials a in
  let h := takeUntil (Ascii.eqb ":") hp in
  let p := Js.dropChars (String.length h + 1) hp in
  if anyChar forbiddenHostChar h || negb (portOk p) then None
  else if special then
    if String.eqb h EmptyString then None else Some (lower h)
  else Some h.

Definition isSpecial (scheme : string) : bool :=
  existsb (String.eqb scheme) ["http"; "https"; "ftp"; "ws"; "wss"].

Definition hostname (url : string) : option string :=
  match splitScheme url with
  | None => None
  | Some (scheme, rest) =>
      if isSpecial scheme then
        hostOfAuthority true
          (takeUntil (endsAuthority true) (dropWhile isSlash rest))
      else if Js.startsWith rest "//" then
        hostOfAuthority false
          (takeUntil (endsAuthority false) (Js.dropChars 2 rest))
      else Some EmptyString
  end.

End URL.

(** [getDomain] over a URL parser given as its hostname function. *)
Definition getDomainVia (hostnameOf : string -> option string) (url : string)
  : option string :=
  match hostnameOf url with
  | Some hostname => Some (stripWww hostname)
  | None => None
  end.

Definition getDomain (url : string) : option string :=
  getDomainVia URL.hostname url.

(** ** Listeners *)

(** What [chrome.tabs.query({active: true, windowId})] found for a window
    that gained focus. *)
Inductive Focus :=
  | WindowNone                          (* WINDOW_ID_NONE *)
  | ActiveTab (url : option string)     (* the active tab and its [url] *)
  | NoActiveTab.                        (* no tab, or the query failed *)

(** The events the worker listens to, each with the answers the browser
    gives to the queries of its listener. *)
Inductive Event :=
  | TabActivated (tab : option (option string))
      (* [chrome.tabs.get]: [None] when it rejects, else the tab's [url] *)
  | TabUpdated (changeUrl : option string) (isActiveTab : bool)
  | WindowFocusChanged (focus : Focus)
  | WindowCreated (incognito : bool)
  | StorageChanged (areaName : string) (settingsChange : option (option Settings))
      (* [changes.settings], and inside it [newValue] *)
  | Alarm (name : string)
  | Installed
  | Startup.

(** [url || ""]. *)
Definition urlOrEmpty (url : option string) : string :=
  default EmptyString url.

(** The loop of the storage listener over the domains tracked before. *)
Definition removeDropped (oldDomains newDomains : list string)
  (t : list Rule) : list Rule :=
  fold_left
    (fun t domain =>
       if negb (Js.includes newDomains domain)
       then removeDynamicBlockRule domain t else t)
    oldDomains t.

Definition onStorageChanged (e : Env) (areaName : string)
  (settingsChange : option (option Settings)) (w : World) : World :=
  match settingsChange with
  | Some change =>
      if String.eqb areaName "sync" then
        let w1 := ensureInit e w in
        match change with
        | Some newSettings =>
            let oldDomains := getTrackedDomains (mem w1) in
            let m := mem w1 in
            let m2 := mkMem newSettings (todayUsage m) (activeDomain m)
                        (activeStart m) in
            let newDomains := getTrackedDomains m2 in
            let w2 := withMem w1 m2 in
            checkLimits
              (withRules w2 (removeDropped oldDomains newDomains (rules w2)))
        | None => w1
        end
      else w
  | None => w
  end.

(** The body shared by [onInstalled] and [onStartup]. *)
Definition fullInit (e : Env) (w : World) : World :=
  let w1 := ensureInit e w in
  let w2 := cleanupOldUsage e w1 in
  let w3 := withRules w2 (removeAllDynamicBlockRules (rules w2)) in
  checkLimits w3.

Definition handle (e : Env) (ev : Event) (w : World) : World :=
  match ev with
  | TabActivated tab =>
      let w1 := ensureInit e w in
      match tab with
      | Some url => setActiveDomain e (getDomain (urlOrEmpty url)) w1
      | None => w1
      end
  | TabUpdated changeUrl isActiveTab =>
      if Js.truthyStr changeUrl then
        let w1 := ensureInit e w in
        if isActiveTab
        then setActiveDomain e (getDomain (urlOrEmpty changeUrl)) w1
        else w1
      else w
  | WindowFocusChanged focus =>
      let w1 := ensureInit e w in
      match focus with
      | WindowNone => setActiveDomain e None w1
      | ActiveTab url => setActiveDomain e (getDomain (urlOrEmpty url)) w1
      | NoActiveTab => w1
      end
  | WindowCreated _ => w
  | StorageChanged areaName settingsChange =>
      onStorageChanged e areaName settingsChange w
  | Alarm name =>
      if String.eqb name "persist-timer"
      then checkLimits (persistUsage e (ensureInit e w))
      else w
  | Installed => fullInit e w
  | Startup => fullInit e w
  end.

(** ** The first revision of the retention sweep *)

(** [background.js] before hydration was added reads the date from
    [parts[0]], [parts[1]] and [parts[2]]. *)
Definition sweepDateStringOriginal (parts : list string) : string :=
  Js.templateAt parts 0 ++ "-" ++ Js.templateAt parts 1 ++ "-"
  ++ Js.templateAt parts 2.

Definition sweepSelectsOriginal (e : Env) (key : string) : bool :=
  if negb (Js.startsWith key "usage_") then false
  else
    let parts := Js.split "_" (Js.removeFirst "usage_" key) in
    if negb (length parts =? 3)%nat then false
    else JsDate.ltDate (JsDate.parse (sweepDateStringOriginal parts))
           (cutoffMs e).

(** ** Sequences of [setActiveDomain] calls *)

(** A call: the instant at which it runs and its argument. *)
Definition Call : Type := Z * option string.

Fixpoint runCalls (tz : Z) (calls : list Call) (w : World) : World :=
  match calls with
  | [] => w
  | (t, domain) :: rest =>
      runCalls tz rest (setActiveDomain (mkEnv t tz) domain w)
  end.

(** The instants are positive and do not decrease, starting from [prev]. *)
Fixpoint increasingFrom (prev : Z) (calls : list Call) : Prop :=
  match calls with
  | [] => True
  | (t, _) :: rest => prev <= t /\ increasingFrom t rest
  end.

(** *** The intervals of the specification *)

(** The domain that is active once [setActiveDomain(domain)] has run: the
    argument when it is a tracked domain, none otherwise. *)
Definition activeAfter (tracked : list string) (domain : option string)
  : option string :=
  match domain with
  | Some d => if Js.truthyStr (Some d) && Js.includes tracked d
              then Some d else None
  | None => None
  end.

(** An interval [(d, s, t)]: domain [d] was the active domain from the
    instant [s] to the instant [t]. *)
Definition Interval : Type := string * Z * Z.

(** The intervals a sequence of calls delimits, when [cur] is active since
    [start] at its beginning: one interval per call made while a domain is
    active, ending at that call; consecutive intervals share an endpoint
    and nothing else. *)
Fixpoint activeIntervals (tracked : list string) (cur : option string)
  (start : Z) (calls : list Call) : list Interval :=
  match calls with
  | [] => []
  | (t, domain) :: rest =>
      let tail := activeIntervals tracked (activeAfter tracked domain) t rest in
      match cur with
      | Some d => (d, start, t) :: tail
      | None => tail
      end
  end.

(** Total length in milliseconds of the intervals of domain [d]. *)
Fixpoint totalMs (d : string) (ivs : list Interval) : Z :=
  match ivs with
  | [] => 0
  | (d', s, t) :: rest =>
      (if String.eqb d' d then t - s else 0) + totalMs d rest
  end.

(** Total of the lengths of the intervals of domain [d], each rounded to
    the nearest second. *)
Fixpoint totalRoundedSeconds (d : string) (ivs : list Interval) : Z :=
  match ivs with
  | [] => 0
  | (d', s, t) :: rest =>
      (if String.eqb d' d then Js.roundDiv (t - s) 1000 else 0)
      + totalRoundedSeconds d rest
  end.

(** Every interval lasts a whole number of seconds. *)
Definition wholeSeconds (ivs : list Interval) : Prop :=
  Forall (fun iv : Interval => let '(_, s, t) := iv in (t - s) mod 1000 = 0) ivs.

(** ** Sample policies and worlds *)

Definition samplePolicy : Settings :=
  mkSettings (Some [("youtube.com", mkDomainSettings 30);
                    ("instagram.com", mkDomainSettings 20)]).

Definition sampleWorld : World :=
  mkWorld (mkMem samplePolicy ∅ None None) ∅ (Some samplePolicy) [].

(** ** Auxiliary notions for the rule table *)

(** The ids [checkLimits] rewrites: those of the tracked domains that
    reached their limit, in the order of the loop. *)
Fixpoint reachedIds (m : Mem) (domains : list string) : list Z :=
  match domains with
  | [] => []
  | d :: r =>
      if limitReached m d then ruleIdFor d :: reachedIds m r
      else reachedIds m r
  end.

(** A rule survives the removal of [ids]. *)
Definition keeps (ids : list Z) (r : Rule) : bool :=
  negb (existsb (Z.eqb (ruleId r)) ids).

(** The rules of a table whose id is not in [ids]. *)
Definition without (ids : list Z) (t : list Rule) : list Rule :=
  List.filter (keeps ids) t.

(** The timer of [m]: domain [cur] active since [start], or no domain. *)
Definition timerIs (m : Mem) (cur : option string) (start : Z) : Prop :=
  match cur with
  | Some c =>
      activeDomain m = Some c /\ activeStart m = Some start /\ c <> EmptyString
  | None => activeDomain m = None
  end.

(** Calls on one day, half a second or less apart. *)
Definition quickCalls : list Call :=
  [(1709640000000, Some "youtube.com");
   (1709640000400, Some "youtube.com");
   (1709640000800, Some "youtube.com");
   (1709640001200, None)].

(** Calls on one day, whole seconds apart. *)
Definition slowCalls : list Call :=
  [(1709640000000, Some "youtube.com");
   (1709640090000, Some "instagram.com");
   (1709640100000, Some "youtube.com");
   (1709640130000, Some "chrome.google.com");
   (1709640200000, None)].

(** ** Sample days *)

(** 4 March 2024, 23:50 UTC, and 5 March 2024, 00:10 UTC. *)
Definition lateEvening : Z := 1709596200000.
Definition afterMidnight : Env := mkEnv 1709597400000 0.

(** Storage as [persistUsage] left it on 4 March at 23:50, with the timer
    running on [youtube.com]. *)
Definition staleTimerWorld : World :=
  mkWorld freshMem
    (<["activeStart" := JNum lateEvening]>
       (<["activeDomain" := JStr "youtube.com"]>
          (<["usage_2024_03_04" := JUsage {[ "youtube.com" := 600 ]}]> ∅)))
    (Some samplePolicy) [].

(** 4 March 2024 at 22:00, 22:31 and 23:00 UTC. *)
Definition evening2200 : Env := mkEnv 1709589600000 0.
Definition evening2231 : Env := mkEnv 1709591460000 0.
Definition evening2300 : Env := mkEnv 1709593200000 0.

(** The evening of 4 March: [youtube.com] (limit 30 minutes) is focused
    from 22:00, the alarm ticks at 22:31, the browser loses focus at
    23:00. *)
Definition blockedYesterday : World :=
  handle evening2300 (WindowFocusChanged WindowNone)
    (handle evening2231 (Alarm "persist-timer")
       (handle evening2200
          (TabActivated (Some (Some "https://www.youtube.com/watch?v=1")))
          sampleWorld)).

(** ** The first revision of the storage listener *)

(** [background.js] before hydration was added: the listener compares the
    domains of the cached settings with those of the new value. *)
Definition onStorageChangedOriginal (areaName : string)
  (settingsChange : option (option Settings)) (w : World) : World :=
  match settingsChange with
  | Some (Some newSettings) =>
      if String.eqb areaName "sync" then
        let oldDomains := getTrackedDomains (mem w) in
        let m := mem w in
        let m2 := mkMem newSettings (todayUsage m) (activeDomain m)
                    (activeStart m) in
        let newDomains := getTrackedDomains m2 in
        checkLimits
          (withRules (withMem w m2)
             (removeDropped oldDomains newDomains (rules w)))
      else w
  | _ => w
  end.

(** [chrome.storage.sync.set({settings})] by the settings page. *)
Definition writeSettings (s : Settings) (w : World) : World :=
  mkWorld (mem w) (localStore w) (Some s) (rules w).

(** The policy once the user has deleted [instagram.com]. *)
Definition policyWithoutInstagram : Settings :=
  mkSettings (Some [("youtube.com", mkDomainSettings 30)]).

(** 5 March 2024 at 10:00, 10:21 and 10:30 UTC. *)
Definition morning1000 : Env := mkEnv 1709632800000 0.
Definition morning1021 : Env := mkEnv 1709634060000 0.
Definition morning1030 : Env := mkEnv 1709634600000 0.

(** [instagram.com] (limit 20 minutes) is focused from 10:00 and the alarm
    ticks at 10:21; then the user deletes the domain in the settings
    page, which writes the new policy to [chrome.storage.sync]. *)
Definition instagramBlocked : World :=
  handle morning1021 (Alarm "persist-timer")
    (handle morning1000
       (TabActivated (Some (Some "https://www.instagram.com/")))
       sampleWorld).

Definition instagramDeleted : World :=
  writeSettings policyWithoutInstagram instagramBlocked.

(** A store with ledgers of 1 January, 20 February and 5 March 2024. *)
Definition oldLedgersWorld : World :=
  mkWorld freshMem
    (<["usage_2024_01_01" := JUsage {[ "youtube.com" := 1800 ]}]>
       (<["usage_2024_02_20" := JUsage {[ "youtube.com" := 60 ]}]>
          (<["usage_2024_03_05" := JUsage {[ "youtube.com" := 5 ]}]>
             (<["activeDomain" := JNull]> (<["activeStart" := JNull]> ∅)))))
    (Some samplePolicy) [].

(** Globals with a usage entry left over for a domain that is no longer
    configured. *)
Definition orphanMem : Mem :=
  mkMem policyWithoutInstagram
    {[ "youtube.com" := 10; "instagram.com" := 1260 ]} None None.

(** The same calls in a worker that is stopped after every event: each
    listener hydrates the fresh globals before it calls
    [setActiveDomain]. *)
Fixpoint runCallsRestarting (tz : Z) (calls : list Call) (w : World) : World :=
  match calls with
  | [] => w
  | (t, domain) :: rest =>
      let e := mkEnv t tz in
      runCallsRestarting tz rest
        (setActiveDomain e domain (ensureInit e (restartWorker w)))
  end.

(** Storage describes the globals: on a day whose key is [key], a stopped
    worker hydrates back into the world it left. *)
Definition settled (key : string) (w : World) : Prop :=
  forall e, todayKey e = key -> ensureInit e (restartWorker w) = w.

(** The policy in [chrome.storage.sync] is the cached one. *)
Definition policySynced (w : World) : Prop :=
  syncSettings w = Some (settings (mem w))
  /\ restrictedDomains (settings (mem w)) <> None.

(** Every call runs at a nonzero instant of the day whose key is [key]. *)
Definition onDay (tz : Z) (key : string) (calls : list Call) : Prop :=
  Forall (fun c : Call => fst c <> 0 /\ todayKey (mkEnv (fst c) tz) = key) calls.

(** ** The retention sweep of the first revision, on the store *)

Definition keysToRemoveOriginal (e : Env) (l : gmap string JsVal)
  : list string :=
  List.filter (sweepSelectsOriginal e) (map fst (map_to_list l)).

Definition cleanupOldUsageOriginal (e : Env) (w : World) : World :=
  let ks := keysToRemoveOriginal e (localStore w) in
  if (0 <? length ks)%nat then withLocal w (storageRemove ks (localStore w))
  else w.

(** ** Checks by enumeration *)

(** [f] holds on the [n] integers from [z] on. *)
Fixpoint allFrom (f : Z -> bool) (n : nat) (z : Z) : bool :=
  match n with
  | O => true
  | S k => f z && allFrom f k (z + 1)
  end.

(** A month or day number prints, padded, as two digits that read back. *)
Definition fieldOk2 (n : Z) : bool :=
  let s := Js.padStart2 (Js.stringOfInt n) in
  (String.length s =? 2)%nat && JsDate.allDigits s
  && (JsDate.digitsValue 0 s =? n).

(** A year prints as four digits that read back. *)
Definition yearOk (y : Z) : bool :=
  let s := Js.stringOfInt y in
  (String.length s =? 4)%nat && JsDate.allDigits s
  && (JsDate.digitsValue 0 s =? y).

(** The calendar year of the local day of an instant. *)
Definition localYear (e : Env) : Z :=
  fst (fst (JsDate.civilFromDays (localDay e))).

(** The instant the first revision's sweep reads out of a storage key
    that has the prefix. *)
Definition keyInstant (key : string) : option Z :=
  JsDate.parse
    (sweepDateStringOriginal (Js.split "_" (Js.removeFirst "usage_" key))).

(** * The settings page and the popup *)

(** The React components keep their state in hooks; a handler is embedded
    as a function from the state it closes over (and the storage area it
    writes) to the state once its updates have been applied. Storage calls
    succeed. Text is ASCII. *)
Module Ui.


(** [formatTime(seconds)] on a whole number of seconds. *)
Definition formatTime (seconds : Z) : string :=
  if seconds <? 60 then Js.stringOfInt seconds ++ "s"
  else
    let m := seconds / 60 in
    let s := Js.remainder seconds 60 in
    if m <? 60 then Js.stringOfInt m ++ "m " ++ Js.stringOfInt s ++ "s"
    else
      let h := m / 60 in
      Js.stringOfInt h ++ "h " ++ Js.stringOfInt (Js.remainder m 60) ++ "m".

(** *** The text typed into the domain field *)

(** White space and line terminators that [trim] removes. *)
Definition isBlank (c : ascii) : bool :=
  let n := Js.charCode c in ((9 <=? n) && (n <=? 13)) || (n =? 32).

(** A line terminator, which [.] of a regular expression does not match. *)
Definition isLineTerminator (c : ascii) : bool :=
  let n := Js.charCode c in (n =? 10) || (n =? 13).

Fixpoint trimStart (s : string) : string :=
  match s with
  | EmptyString => EmptyString
  | String c r => if isBlank c then trimStart r else s
  end.

Fixpoint trimEnd (s : string) : string :=
  match s with
  | EmptyString => EmptyString
  | String c r =>
      match trimEnd r with
      | EmptyString => if isBlank c then EmptyString else String c EmptyString
      | r' => String c r'
      end
  end.

Definition trim (s : string) : string := trimEnd (trimStart s).

Definition toLowerCase (s : string) : string := URL.lower s.

(** [s.replace(/^https?:\/\//, e)] with the empty string [e]. *)
Definition stripScheme (s : string) : string :=
  if Js.startsWith s "http://" then Js.dropChars 7 s
  else if Js.startsWith s "https://" then Js.dropChars 8 s
  else s.

(** [s.replace(/\/.*$/, e)]: the match starts at the first slash after
    which no line terminator occurs and runs to the end. *)
Fixpoint cutPath (s : string) : string :=
  match s with
  | EmptyString => EmptyString
  | String c r =>
      if Ascii.eqb c "/" && negb (URL.anyChar isLineTerminator r)
      then EmptyString
      else String c (cutPath r)
  end.

(** The domain [handleAddDomain] derives from the text field. *)
Definition normalizeDomain (text : string) : string :=
  cutPath (stripWww (stripScheme (toLowerCase (trim text)))).

(** *** Objects used as maps *)

(** The property names every plain object inherits: reading one of them
    from an object without such an own property gives a truthy value. *)
Definition objectPrototypeNames : list string :=
  ["constructor"; "__defineGetter__"; "__defineSetter__"; "hasOwnProperty";
   "__lookupGetter__"; "__lookupSetter__"; "isPrototypeOf";
   "propertyIsEnumerable"; "toString"; "valueOf"; "__proto__";
   "toLocaleString"].

(** [obj[key]] is truthy, for an object whose own values are objects. *)
Definition hasTruthy (l : list (string * DomainSettings)) (key : string)
  : bool :=
  match lookupEntry key l with
  | Some _ => true
  | None => Js.includes objectPrototypeNames key
  end.

(** A canonical array index: property names of this form are enumerated
    first, in ascending numeric order. *)
Definition isArrayIndex (key : string) : bool :=
  match key with
  | EmptyString => false
  | String c r =>
      JsDate.allDigits key
      && (negb (Ascii.eqb c "0") || String.eqb r EmptyString)
      && (JsDate.digitsValue 0 key <=? 4294967294)
  end.

(** Where a new property [key] goes in the enumeration order. *)
Fixpoint objInsertNew (key : string) (v : DomainSettings)
  (l : list (string * DomainSettings)) : list (string * DomainSettings) :=
  match l with
  | [] => [(key, v)]
  | (k, w) :: r =>
      if isArrayIndex key
         && (negb (isArrayIndex k)
             || (JsDate.digitsValue 0 key <? JsDate.digitsValue 0 k))
      then (key, v) :: l
      else (k, w) :: objInsertNew key v r
  end.

Fixpoint objReplace (key : string) (v : DomainSettings)
  (l : list (string * DomainSettings)) : list (string * DomainSettings) :=
  match l with
  | [] => []
  | (k, w) :: r =>
      if String.eqb k key then (k, v) :: r else (k, w) :: objReplace key v r
  end.

(** [{...obj, [key]: v}]. *)
Definition objSet (key : string) (v : DomainSettings)
  (l : list (string * DomainSettings)) : list (string * DomainSettings) :=
  match lookupEntry key l with
  | Some _ => objReplace key v l
  | None => objInsertNew key v l
  end.

(** [delete obj[key]] on a copy. *)
Fixpoint objDelete (key : string) (l : list (string * DomainSettings))
  : list (string * DomainSettings) :=
  match l with
  | [] => []
  | (k, w) :: r =>
      if String.eqb k key then objDelete key r else (k, w) :: objDelete key r
  end.

(** *** The dashboard *)

Inductive Toast := SettingsSaved | SaveFailed | DomainExists.

(** The state hooks of [App]. *)
Record Dashboard := mkDashboard {
  dSettings : Settings;
  dUsage : gmap string Z;
  newDomain : string;
  newLimit : Z;
  toast : option Toast
}.

(** The page: the component state and the two storage areas it uses. *)
Record Page := mkPage {
  ui : Dashboard;
  pSync : option Settings;
  pLocal : gmap string JsVal
}.

Definition saveSettings (updated : Settings) (p : Page) : Page :=
  let u := ui p in
  mkPage (mkDashboard updated (dUsage u) (newDomain u) (newLimit u)
            (Some SettingsSaved))
         (Some updated) (pLocal p).

(** [handleAddDomain]. Reading [settings.restrictedDomains[domain]] of a
    settings object without the property throws: the handler stops
    there. *)
Definition handleAddDomain (p : Page) : Page :=
  let u := ui p in
  let domain := normalizeDomain (newDomain u) in
  if String.eqb domain EmptyString then p
  else
    match restrictedDomains (dSettings u) with
    | None => p
    | Some rd =>
        if hasTruthy rd domain then
          mkPage (mkDashboard (dSettings u) (dUsage u) (newDomain u)
                    (newLimit u) (Some DomainExists))
                 (pSync p) (pLocal p)
        else
          let updated :=
            mkSettings (Some (objSet domain (mkDomainSettings (newLimit u)) rd)) in
          let p1 := saveSettings updated p in
          let u1 := ui p1 in
          mkPage (mkDashboard (dSettings u1) (dUsage u1) EmptyString 30
                    (toast u1))
                 (pSync p1) (pLocal p1)
    end.

(** [handleRemoveDomain(domain)]; the copy of a missing
    [restrictedDomains] is the empty object. *)
Definition handleRemoveDomain (domain : string) (p : Page) : Page :=
  let rd := default [] (restrictedDomains (dSettings (ui p))) in
  saveSettings (mkSettings (Some (objDelete domain rd))) p.


(** *** Derived data of the dashboard and the popup *)

(** [usage[d] ?? 0]. *)
Definition usageShown (usage : gmap string Z) (d : string) : Z :=
  default 0 (usage !! d).

(** [settings.restrictedDomains[d].dailyLimitMinutes * 60] for a key [d]
    of the object. *)
Definition limitShown (rd : list (string * DomainSettings)) (d : string) : Z :=
  match lookupEntry d rd with
  | Some entry => dailyLimitMinutes entry * 60
  | None => 0
  end.

Definition totalSeconds (rd : list (string * DomainSettings))
  (usage : gmap string Z) : Z :=
  fold_left (fun sum d => sum + usageShown usage d) (map fst rd) 0.

Definition overLimitCount (rd : list (string * DomainSettings))
  (usage : gmap string Z) : nat :=
  length (List.filter (fun d => limitShown rd d <=? usageShown usage d)
            (map fst rd)).

(** [Array.prototype.sort] is stable; with the comparator
    [(a, b) => usage(b) - usage(a)] an element goes after every element
    whose usage is at least its own. *)
Fixpoint insertByUsage (usage : gmap string Z) (d : string)
  (sorted : list string) : list string :=
  match sorted with
  | [] => [d]
  | x :: r =>
      if usageShown usage x <? usageShown usage d then d :: sorted
      else x :: insertByUsage usage d r
  end.

Definition sortByUsage (usage : gmap string Z) (domains : list string)
  : list string :=
  fold_left (fun acc d => insertByUsage usage d acc) domains [].

(** [topSites]: the first three domains by usage, largest first. *)
Definition topSites (rd : list (string * DomainSettings))
  (usage : gmap string Z) : list string :=
  firstn 3 (sortByUsage usage (map fst rd)).

End Ui.

(** ** Auxiliary notions for the pages *)

(** A number of seconds or minutes prints as digits that read back. *)
Definition shownOk (n : Z) : bool :=
  let s := Js.stringOfInt n in
  JsDate.allDigits s && (JsDate.digitsValue 0 s =? n).

(** Usage does not increase along the list. *)
Fixpoint descending (usage : gmap string Z) (l : list string) : Prop :=
  match l with
  | [] => True
  | x :: r =>
      (forall y, In y r -> Ui.usageShown usage y <= Ui.usageShown usage x)
      /\ descending usage r
  end.

(** A page whose text field holds a URL of a site that is not configured
    yet. *)
Definition samplePage : Ui.Page :=
  Ui.mkPage
    (Ui.mkDashboard samplePolicy {[ "youtube.com" := 1860 ]}
       "  HTTPS://www.Reddit.com/r/all  " 45 None)
    (Some samplePolicy) ∅.

(** A host name made of lower-case letters and dots. *)
Definition hostChar (c : ascii) : bool :=
  let n := Js.charCode c in ((97 <=? n) && (n <=? 122)) || (n =? 46).

Fixpoint allChars (p : ascii -> bool) (s : string) : bool :=
  match s with
  | EmptyString => true
  | String c r => p c && allChars p r
  end.

Definition plainHost (h : string) : bool :=
  negb (String.eqb h EmptyString) && allChars hostChar h.

(** No white space in the string. *)
Definition noBlank (s : string) : bool :=
  allChars (fun c => negb (Ui.isBlank c)) s.

(** * The first draft of the worker *)

(** [src/background.js] as first written: a fixed list of tracked domains
    with one common limit, one ledger [timeSpent] stored together with the
    day [dateKey] on which it was written, block rules numbered by the
    position of the domain in the list, and a restore step that runs only
    in [onInstalled] and [onStartup]. *)
Module Draft.

Definition TRACKED_DOMAINS : list string :=
  ["youtube.com"; "instagram.com"; "reddit.com"].

Definition DAILY_LIMIT_MINUTES : Z := 30.

(** The globals of the script. *)
Record Mem := mkMem {
  timeSpent : gmap string Z;
  activeDomain : option string;
  activeStart : option Z
}.

Definition freshMem : Mem := mkMem ∅ None None.

(** The two entries of [chrome.storage.local] that the draft reads and
    writes, in the shape in which it writes them; [None] is an absent
    entry. *)
Record Store := mkStore {
  storedTimeSpent : option (gmap string Z);
  dateKey : option string
}.

Record World := mkWorld {
  mem : Mem;
  store : Store;
  rules : list Rule
}.

(** The worker is stopped and started again: the globals are lost. *)
Definition restartWorker (w : World) : World :=
  mkWorld freshMem (store w) (rules w).

Fixpoint zeros (n : nat) : string :=
  match n with
  | O => EmptyString
  | S k => String "0" (zeros k)
  end.

(** [s.padStart(n, "0")]. *)
Definition padStart (n : nat) (s : string) : string :=
  zeros (n - String.length s) ++ s.

(** The UTC day number of the instant of a handler. *)
Definition utcDay (e : Env) : Z := nowMs e / JsDate.msPerDay.

Definition utcYear (e : Env) : Z :=
  fst (fst (JsDate.civilFromDays (utcDay e))).

(** The year of [toISOString]: four digits, or a sign and six digits
    outside 0..9999. *)
Definition isoYear (y : Z) : string :=
  if (0 <=? y) && (y <=? 9999) then padStart 4 (Js.stringOfInt y)
  else (if y <? 0 then "-" else "+") ++ padStart 6 (Js.stringOfInt (Z.abs y)).

(** [new Date().toISOString().slice(0, 10)]. *)
Definition todayKey (e : Env) : string :=
  let '(yyyy, mm, dd) := JsDate.civilFromDays (utcDay e) in
  String.substring 0 10
    (isoYear yyyy ++ "-" ++ Js.padStart2 (Js.stringOfInt mm) ++ "-"
     ++ Js.padStart2 (Js.stringOfInt dd) ++ "T").

(** No [elapsed > 0] guard in the draft. *)
Definition flushActiveTimer (now : Z) (m : Mem) : Mem :=
  match activeDomain m, activeStart m with
  | Some d, Some start =>
      if Js.truthyStr (Some d) && Js.truthyNum (Some start) then
        mkMem (<[d := usageOf (timeSpent m) d + elapsedSeconds now start]>
                 (timeSpent m))
              (activeDomain m) (Some now)
      else m
  | _, _ => m
  end.

Definition persistState (e : Env) (w : World) : World :=
  let m := flushActiveTimer (nowMs e) (mem w) in
  mkWorld m (mkStore (Some (timeSpent m)) (Some (todayKey e))) (rules w).

(** [TRACKED_DOMAINS.indexOf(domain)], counted from [i]. *)
Fixpoint indexFrom (i : Z) (l : list string) (domain : string) : Z :=
  match l with
  | [] => -1
  | x :: r => if String.eqb x domain then i else indexFrom (i + 1) r domain
  end.

Definition ruleIdOf (domain : string) : Z :=
  DYNAMIC_RULE_ID_START + indexFrom 0 TRACKED_DOMAINS domain.

Definition blockRule (domain : string) : Rule :=
  mkRule (ruleIdOf domain) 1 block ("||" ++ domain) [main_frame; sub_frame].

Definition addDynamicBlockRule (domain : string) (t : list Rule) : list Rule :=
  updateDynamicRules [ruleIdOf domain] [blockRule domain] t.

(** [TRACKED_DOMAINS.map((_, i) => DYNAMIC_RULE_ID_START + i)]. *)
Fixpoint idsFrom (i : Z) (l : list string) : list Z :=
  match l with
  | [] => []
  | _ :: r => (DYNAMIC_RULE_ID_START + i) :: idsFrom (i + 1) r
  end.

Definition removeAllDynamicBlockRules (t : list Rule) : list Rule :=
  updateDynamicRules (idsFrom 0 TRACKED_DOMAINS) [] t.

Definition limitReached (m : Mem) (domain : string) : bool :=
  DAILY_LIMIT_MINUTES * 60 <=? usageOf (timeSpent m) domain.

Definition checkDomain (m : Mem) (t : list Rule) (domain : string)
  : list Rule :=
  if limitReached m domain then addDynamicBlockRule domain t else t.

Definition checkLimits (w : World) : World :=
  mkWorld (mem w) (store w)
    (fold_left (checkDomain (mem w)) TRACKED_DOMAINS (rules w)).

(** The [else] branch of [restoreState]: a new day. *)
Definition resetDay (e : Env) (w : World) : World :=
  mkWorld (mkMem ∅ (activeDomain (mem w)) (activeStart (mem w)))
    (mkStore (Some ∅) (Some (todayKey e)))
    (removeAllDynamicBlockRules (rules w)).

Definition restoreState (e : Env) (w : World) : World :=
  match dateKey (store w), storedTimeSpent (store w) with
  | Some k, Some ts =>
      if String.eqb k (todayKey e)
      then mkWorld (mkMem ts (activeDomain (mem w)) (activeStart (mem w)))
             (store w) (rules w)
      else resetDay e w
  | _, _ => resetDay e w
  end.

Definition setActiveDomain (e : Env) (domain : option string) (w : World)
  : World :=
  let m := flushActiveTimer (nowMs e) (mem w) in
  let m' :=
    match domain with
    | Some d =>
        if Js.truthyStr (Some d) && Js.includes TRACKED_DOMAINS d
        then mkMem (timeSpent m) (Some d) (Some (nowMs e))
        else mkMem (timeSpent m) None None
    | None => mkMem (timeSpent m) None None
    end in
  checkLimits (persistState e (mkWorld m' (store w) (rules w))).

(** The listeners of the draft; it has none for storage changes. *)
Definition handle (e : Env) (ev : Event) (w : World) : World :=
  match ev with
  | TabActivated tab =>
      match tab with
      | Some url => setActiveDomain e (getDomain (urlOrEmpty url)) w
      | None => w
      end
  | TabUpdated changeUrl isActiveTab =>
      if Js.truthyStr changeUrl && isActiveTab
      then setActiveDomain e (getDomain (urlOrEmpty changeUrl)) w
      else w
  | WindowFocusChanged focus =>
      match focus with
      | WindowNone => setActiveDomain e None w
      | ActiveTab url => setActiveDomain e (getDomain (urlOrEmpty url)) w
      | NoActiveTab => w
      end
  | WindowCreated _ => w
  | StorageChanged _ _ => w
  | Alarm name =>
      if String.eqb name "persist-timer"
      then checkLimits (persistState e w)
      else w
  | Installed => restoreState e w
  | Startup => restoreState e w
  end.

End Draft.

(** A table in which [youtube.com] is blocked under the draft's numbering,
    next to a rule of another origin. *)
Definition draftBlocked : Draft.World :=
  Draft.mkWorld
    (Draft.mkMem {["youtube.com" := 1800]} None None)
    (Draft.mkStore (Some {["youtube.com" := 1800]}) (Some "2024-03-04"))
    [Draft.blockRule "youtube.com";
     mkRule 7 1 block "||example.org" [main_frame]].

(* ===================================================================== *)
(** * Properties *)
(* ===================================================================== *)

(** Closes a conjunction of facts about closed terms by running the
    embedded code. *)
Ltac by_evaluation := cbv zeta; repeat split; vm_compute; reflexivity.

(** ** Checks of the primitives on concrete inputs *)

Example civilFromDays_samples :
  JsDate.civilFromDays 0 = (1970, 1, 1)
  /\ JsDate.civilFromDays (-1) = (1969, 12, 31)
  /\ JsDate.civilFromDays 19782 = (2024, 2, 29)
  /\ JsDate.civilFromDays 19783 = (2024, 3, 1)
  /\ JsDate.daysFromCivil 2024 2 29 = 19782
  /\ JsDate.daysFromCivil 2023 2 29 = JsDate.daysFromCivil 2023 3 1.
Proof. by_evaluation. Qed.

Example roundDiv_samples :
  Js.roundDiv 499 1000 = 0 /\ Js.roundDiv 500 1000 = 1
  /\ Js.roundDiv 1499 1000 = 1 /\ Js.roundDiv (-500) 1000 = 0
  /\ Js.roundDiv (-501) 1000 = -1.
Proof. by_evaluation. Qed.

Example todayKey_2024_03_05 :
  todayKey (mkEnv 1709640000000 0) = "usage_2024_03_05".
Proof. reflexivity. Qed.

Example parse_iso : JsDate.parse "2024-03-05" = Some 1709596800000.
Proof. reflexivity. Qed.

Example parse_shifted : JsDate.parse "03-05-undefined" = None.
Proof. reflexivity. Qed.

Example getDomain_https :
  getDomain "https://www.youtube.com/watch?v=1" = Some "youtube.com".
Proof. reflexivity. Qed.

Example getDomain_port :
  getDomain "http://user@Reddit.com:8080/r/all" = Some "reddit.com".
Proof. reflexivity. Qed.

Example getDomain_not_a_url : getDomain "not a url" = None.
Proof. reflexivity. Qed.

Example getDomain_empty : getDomain EmptyString = None.
Proof. reflexivity. Qed.

Example getDomain_www_once :
  getDomain "https://www.www.example.org/" = Some "www.example.org".
Proof. reflexivity. Qed.

(** ** Rule identifiers *)

Lemma toInt32_range (x : Z) : - 2 ^ 31 <= Js.toInt32 x < 2 ^ 31.
Proof.
  unfold Js.toInt32.
  pose proof (Z.mod_pos_bound (x + 2 ^ 31) (2 ^ 32) ltac:(lia)).
  lia.
Qed.

(** The hash stays a 32-bit integer whatever the code units are. *)
Lemma ruleHash_range (codes : list Z) (h : Z) :
  - 2 ^ 31 <= h < 2 ^ 31 -> - 2 ^ 31 <= ruleHash h codes < 2 ^ 31.
Proof.
  revert h. induction codes as [|c r IH]; intros h Hh; simpl.
  - exact Hh.
  - apply IH, toInt32_range.
Qed.

Lemma ruleIdOfCodes_range (codes : list Z) :
  1000 <= ruleIdOfCodes codes <= 10999.
Proof.
  unfold ruleIdOfCodes, DYNAMIC_RULE_ID_START, Js.remainder.
  pose proof (Z.rem_bound_abs (ruleHash 0 codes) 10000 ltac:(lia)) as Hb.
  pose proof (Z.abs_nonneg (Z.rem (ruleHash 0 codes) 10000)).
  change (Z.abs 10000) with 10000 in Hb. lia.
Qed.

(** C8. [ruleIdFor] is a function of the domain string alone (equal
    domains give equal ids, and nothing of the worker's state enters the
    computation); for every domain string, and for every sequence of code
    units, the id lies in the range from 1000 to 10999, so it differs from
    every static rule id below [DYNAMIC_RULE_ID_START]. *)
Theorem ruleIdFor_deterministic_in_range (domain : string) :
  (forall domain', domain' = domain -> ruleIdFor domain' = ruleIdFor domain)
  /\ 1000 <= ruleIdFor domain <= 10999
  /\ (forall codes : list Z, 1000 <= ruleIdOfCodes codes <= 10999)
  /\ (forall staticIds : list Z,
        Forall (fun i => i < DYNAMIC_RULE_ID_START) staticIds ->
        ~ In (ruleIdFor domain) staticIds).
Proof.
  split; [intros ? ->; reflexivity|].
  pose proof (ruleIdOfCodes_range (Js.charCodes domain)) as Hr.
  fold (ruleIdFor domain) in Hr.
  split; [exact Hr|]. split; [exact ruleIdOfCodes_range|].
  intros staticIds Hs Hin.
  rewrite List.Forall_forall in Hs. apply Hs in Hin.
  unfold DYNAMIC_RULE_ID_START in Hin. lia.
Qed.

Lemma ruleIdFor_deterministic_in_range_witness :
  1000 <= ruleIdFor "youtube.com" <= 10999
  /\ ~ In (ruleIdFor "youtube.com") [1; 2; 3].
Proof.
  destruct (ruleIdFor_deterministic_in_range "youtube.com")
    as (_ & Hr & _ & Hs).
  split; [exact Hr|].
  apply Hs. repeat constructor; reflexivity.
Defined.

Example ruleIdFor_samples :
  (ruleIdFor "youtube.com", ruleIdFor "instagram.com", ruleIdFor "reddit.com")
  = (4866, 5299, 8489).
Proof. vm_compute. reflexivity. Qed.

(** ** The dwell timer *)

Lemma roundDiv_zero : Js.roundDiv 0 1000 = 0.
Proof. reflexivity. Qed.

Lemma roundDiv_nonneg (x : Z) : 0 <= x -> 0 <= Js.roundDiv x 1000.
Proof. intros Hx. unfold Js.roundDiv. apply Z.div_pos; lia. Qed.

Lemma roundDiv_exact (x : Z) : x mod 1000 = 0 -> 1000 * Js.roundDiv x 1000 = x.
Proof.
  intros Hx. unfold Js.roundDiv.
  pose proof (Z.div_mod x 1000 ltac:(lia)) as Hd.
  assert (Hq : (2 * x + 1000) / (2 * 1000) = x / 1000).
  { symmetry. apply (Z.div_unique_pos _ _ _ 1000); lia. }
  rewrite Hq. lia.
Qed.

(** What [flushActiveTimer] does, case by case. *)
Lemma flushActiveTimer_inactive (now : Z) (m : Mem) :
  activeDomain m = None -> flushActiveTimer now m = m.
Proof. intros H. unfold flushActiveTimer. rewrite H. reflexivity. Qed.

Lemma flushActiveTimer_no_start (now : Z) (m : Mem) :
  activeStart m = None -> flushActiveTimer now m = m.
Proof.
  intros H. unfold flushActiveTimer. rewrite H.
  destruct (activeDomain m); reflexivity.
Qed.

Lemma flushActiveTimer_skip (now start : Z) (m : Mem) :
  activeStart m = Some start -> elapsedSeconds now start <= 0 ->
  flushActiveTimer now m = m.
Proof.
  intros Hs He. unfold flushActiveTimer. rewrite Hs.
  destruct (activeDomain m) as [d|]; [|reflexivity].
  destruct (Js.truthyStr (Some d) && Js.truthyNum (Some start)); [|reflexivity].
  destruct (Z.ltb_spec 0 (elapsedSeconds now start)); [lia|reflexivity].
Qed.

Lemma flushActiveTimer_add (now start : Z) (d : string) (m : Mem) :
  activeDomain m = Some d -> activeStart m = Some start ->
  d <> EmptyString -> start <> 0 -> 0 < elapsedSeconds now start ->
  flushActiveTimer now m =
  mkMem (settings m)
        (<[d := usageOf (todayUsage m) d + elapsedSeconds now start]>
           (todayUsage m))
        (Some d) (Some now).
Proof.
  intros Hd Hs Hne Hz He. unfold flushActiveTimer. rewrite Hd, Hs.
  assert (Ht : Js.truthyStr (Some d) && Js.truthyNum (Some start) = true).
  { simpl. apply andb_true_intro. split.
    - apply negb_true_iff, String.eqb_neq, Hne.
    - apply negb_true_iff, Z.eqb_neq, Hz. }
  rewrite Ht. destruct (Z.ltb_spec 0 (elapsedSeconds now start)); [|lia].
  reflexivity.
Qed.

Lemma flushActiveTimer_settings (now : Z) (m : Mem) :
  settings (flushActiveTimer now m) = settings m.
Proof.
  unfold flushActiveTimer.
  destruct (activeDomain m), (activeStart m); auto.
  destruct (_ && _); auto.
  destruct (0 <? _); auto.
Qed.

Lemma flushActiveTimer_domain (now : Z) (m : Mem) :
  activeDomain (flushActiveTimer now m) = activeDomain m.
Proof.
  unfold flushActiveTimer.
  destruct (activeDomain m) eqn:Hd, (activeStart m); auto.
  destruct (_ && _); auto.
  destruct (0 <? _); auto.
Qed.

(** C6. When the elapsed time [flushActiveTimer] computes is not positive,
    the call changes nothing: neither the usage ledger nor the start
    instant of the timer (nor anything else of the state). A second flush
    right after a first one, with an elapsed time that rounds to 0, is an
    instance. *)
Theorem flushActiveTimer_nonpositive_noop (now start : Z) (m : Mem) :
  activeStart m = Some start ->
  elapsedSeconds now start <= 0 ->
  flushActiveTimer now m = m
  /\ todayUsage (flushActiveTimer now m) = todayUsage m
  /\ activeStart (flushActiveTimer now m) = Some start.
Proof.
  intros Hs He.
  rewrite (flushActiveTimer_skip now start m Hs He).
  repeat split; assumption.
Qed.

Lemma flushActiveTimer_nonpositive_noop_witness :
  let m := mkMem samplePolicy {[ "youtube.com" := 42 ]}
             (Some "youtube.com") (Some 1709640000000) in
  flushActiveTimer 1709640000499 m = m
  /\ todayUsage (flushActiveTimer 1709640000499 m) = todayUsage m
  /\ activeStart (flushActiveTimer 1709640000499 m) = Some 1709640000000.
Proof.
  intros m.
  apply (flushActiveTimer_nonpositive_noop 1709640000499 1709640000000 m).
  - reflexivity.
  - vm_compute. discriminate.
Defined.

Lemma flushActiveTimer_cases (now : Z) (m : Mem) :
  flushActiveTimer now m = m \/ activeStart (flushActiveTimer now m) = Some now.
Proof.
  unfold flushActiveTimer.
  destruct (activeDomain m), (activeStart m); auto.
  destruct (_ && _); auto.
  destruct (0 <? _); auto.
Qed.

(** Flushing twice at one instant is flushing once. *)
Lemma flushActiveTimer_twice (now : Z) (m : Mem) :
  flushActiveTimer now (flushActiveTimer now m) = flushActiveTimer now m.
Proof.
  destruct (flushActiveTimer_cases now m) as [H|H].
  - rewrite !H. reflexivity.
  - apply (flushActiveTimer_skip now now _ H).
    unfold elapsedSeconds. rewrite Z.sub_diag, roundDiv_zero. lia.
Qed.

(** ** The rule table *)

Lemma keeps_cons (i : Z) (ids : list Z) (r : Rule) :
  keeps (i :: ids) r = negb (ruleId r =? i) && keeps ids r.
Proof. unfold keeps. cbn [existsb]. apply negb_orb. Qed.

Lemma keeps_false (ids : list Z) (r : Rule) :
  In (ruleId r) ids -> keeps ids r = false.
Proof.
  intros Hi. unfold keeps. apply negb_false_iff, existsb_exists.
  exists (ruleId r). split; [exact Hi|apply Z.eqb_refl].
Qed.

Lemma keeps_true (ids : list Z) (r : Rule) :
  keeps ids r = true -> ~ In (ruleId r) ids.
Proof.
  intros Hk Hi. rewrite (keeps_false ids r Hi) in Hk. discriminate.
Qed.

Lemma without_nil (t : list Rule) : without [] t = t.
Proof.
  unfold without. induction t as [|r t IH]; [reflexivity|].
  cbn [List.filter]. change (keeps [] r) with true. now rewrite IH.
Qed.

Lemma without_app (ids : list Z) (a b : list Rule) :
  without ids (a ++ b)%list = (without ids a ++ without ids b)%list.
Proof. unfold without. apply List.filter_app. Qed.

Lemma without_without (i : Z) (ids : list Z) (t : list Rule) :
  without ids (without [i] t) = without (i :: ids) t.
Proof.
  unfold without. induction t as [|r t IH]; [reflexivity|].
  cbn [List.filter]. rewrite !keeps_cons. change (keeps [] r) with true.
  rewrite andb_true_r.
  destruct (negb (ruleId r =? i)); cbn [andb List.filter].
  - destruct (keeps ids r); now rewrite IH.
  - exact IH.
Qed.

Lemma without_idem (ids : list Z) (t : list Rule) :
  without ids (without ids t) = without ids t.
Proof.
  unfold without. induction t as [|r t IH]; [reflexivity|].
  cbn [List.filter].
  destruct (keeps ids r) eqn:He; cbn [List.filter].
  - rewrite He. now rewrite IH.
  - exact IH.
Qed.

Lemma without_all (ids : list Z) (t : list Rule) :
  (forall r, In r t -> In (ruleId r) ids) -> without ids t = [].
Proof.
  unfold without. induction t as [|r t IH]; intros H; [reflexivity|].
  cbn [List.filter]. rewrite keeps_false by (apply H; now left).
  apply IH. intros r' Hr'. apply H. now right.
Qed.

Lemma In_without (ids : list Z) (t : list Rule) (r : Rule) :
  In r (without ids t) -> In r t /\ ~ In (ruleId r) ids.
Proof.
  unfold without. rewrite List.filter_In. intros [Hin Hf].
  split; [exact Hin|]. now apply keeps_true.
Qed.

Lemma addDynamicBlockRule_eq (d : string) (t : list Rule) :
  addDynamicBlockRule d t = (without [ruleIdFor d] t ++ [blockRule d])%list.
Proof. reflexivity. Qed.

Lemma removeDynamicBlockRule_eq (d : string) (t : list Rule) :
  removeDynamicBlockRule d t = without [ruleIdFor d] t.
Proof.
  unfold removeDynamicBlockRule, updateDynamicRules. apply app_nil_r.
Qed.

(** *** One reconciliation pass under fixed globals *)

Section Reconciliation.

Context (m : Mem).

(** The loop of [checkLimits] acts on a prefix of the table by removing
    the ids it rewrites and on the rest by itself. *)
Lemma checkLoop_app (domains : list string) (a b : list Rule) :
  fold_left (checkDomain m) domains (a ++ b)%list
  = (without (reachedIds m domains) a ++ fold_left (checkDomain m) domains b)%list.
Proof.
  revert a b. induction domains as [|d r IH]; intros a b; simpl.
  - now rewrite without_nil.
  - unfold checkDomain at 2 4. destruct (limitReached m d).
    + rewrite addDynamicBlockRule_eq, without_app, <- app_assoc.
      rewrite IH, without_without, <- addDynamicBlockRule_eq. reflexivity.
    + apply IH.
Qed.

(** Where the rules of the table come from after the loop. *)
Lemma checkLoop_In (domains : list string) (t : list Rule) (r : Rule) :
  In r (fold_left (checkDomain m) domains t) ->
  In r t \/ exists d, In d domains /\ limitReached m d = true /\ r = blockRule d.
Proof.
  revert t. induction domains as [|d ds IH]; intros t; simpl; [auto|].
  intros H. apply IH in H. destruct H as [H|(d' & Hd' & Hl & ->)].
  - unfold checkDomain in H. destruct (limitReached m d) eqn:Hl.
    + rewrite addDynamicBlockRule_eq in H. apply in_app_or in H.
      destruct H as [H|[<-|[]]].
      * left. apply In_without in H. tauto.
      * right. exists d. auto.
    + now left.
  - right. exists d'. auto.
Qed.

Lemma reachedIds_In (domains : list string) (d : string) :
  In d domains -> limitReached m d = true ->
  In (ruleIdFor d) (reachedIds m domains).
Proof.
  induction domains as [|d' ds IH]; simpl; [tauto|].
  intros [->|H] Hl.
  - rewrite Hl. now left.
  - destruct (limitReached m d'); [right|]; auto.
Qed.

Lemma checkLoop_from_empty (domains : list string) :
  without (reachedIds m domains) (fold_left (checkDomain m) domains []) = [].
Proof.
  apply without_all. intros r Hr.
  apply checkLoop_In in Hr. destruct Hr as [[]|(d & Hd & Hl & ->)].
  simpl. now apply reachedIds_In.
Qed.

Lemma checkLimitsOn_split (t : list Rule) :
  checkLimitsOn m t
  = (without (reachedIds m (getTrackedDomains m)) t ++ checkLimitsOn m [])%list.
Proof.
  unfold checkLimitsOn.
  rewrite <- (app_nil_r t) at 1. apply checkLoop_app.
Qed.

Lemma checkLimitsOn_idempotent (t : list Rule) :
  checkLimitsOn m (checkLimitsOn m t) = checkLimitsOn m t.
Proof.
  rewrite (checkLimitsOn_split t).
  unfold checkLimitsOn at 1. rewrite checkLoop_app, without_idem.
  f_equal.
  rewrite <- (app_nil_r (checkLimitsOn m [])) at 1.
  unfold checkLimitsOn at 1.
  change (fold_left (checkDomain m) (getTrackedDomains m) [])
    with (checkLimitsOn m []) at 1.
  unfold checkLimitsOn at 1.
  rewrite checkLoop_app.
  unfold checkLimitsOn at 1. rewrite checkLoop_from_empty. reflexivity.
Qed.

Lemma map_ruleId_without (ids : list Z) (t : list Rule) :
  map ruleId (without ids t)
  = List.filter (fun i => negb (existsb (Z.eqb i) ids)) (map ruleId t).
Proof.
  unfold without. induction t as [|r t IH]; [reflexivity|].
  cbn [List.filter map]. unfold keeps at 1.
  destruct (negb (existsb (Z.eqb (ruleId r)) ids)); cbn [map]; now rewrite IH.
Qed.

Lemma NoDup_without (ids : list Z) (t : list Rule) :
  List.NoDup (map ruleId t) -> List.NoDup (map ruleId (without ids t)).
Proof. intros H. rewrite map_ruleId_without. now apply List.NoDup_filter. Qed.

(** Removing an id and adding one rule with that id keeps ids unique, so
    the browser accepts the update of [addDynamicBlockRule]. *)
Lemma addDynamicBlockRule_NoDup (d : string) (t : list Rule) :
  List.NoDup (map ruleId t) -> List.NoDup (map ruleId (addDynamicBlockRule d t)).
Proof.
  intros H. rewrite addDynamicBlockRule_eq, map_app.
  apply List.NoDup_app.
  - now apply NoDup_without.
  - simpl. constructor; [intros []|constructor].
  - intros i Hi [<-|[]].
    apply in_map_iff in Hi. destruct Hi as (r & Hr & Hin).
    apply In_without in Hin. destruct Hin as [_ Hn].
    apply Hn. left. symmetry. exact Hr.
Qed.

Lemma addDynamicBlockRule_accepted (d : string) (t : list Rule) :
  List.NoDup (map ruleId t) ->
  updateAccepted [ruleIdFor d] [blockRule d] t.
Proof. apply addDynamicBlockRule_NoDup. Qed.

Lemma checkLoop_NoDup (domains : list string) (t : list Rule) :
  List.NoDup (map ruleId t) ->
  List.NoDup (map ruleId (fold_left (checkDomain m) domains t)).
Proof.
  revert t. induction domains as [|d ds IH]; intros t H; simpl; [exact H|].
  apply IH. unfold checkDomain.
  destruct (limitReached m d); [now apply addDynamicBlockRule_NoDup|exact H].
Qed.

End Reconciliation.

(** C7. Reconciliation is idempotent on the rule table: a second run of
    [checkLimits] with the same policy and the same ledger leaves the table
    exactly as the first run left it, and a table whose ids are unique
    still has unique ids afterwards (no duplicate rule is created). *)
Theorem checkLimits_idempotent (w : World) :
  checkLimits (checkLimits w) = checkLimits w
  /\ (List.NoDup (map ruleId (rules w)) ->
      List.NoDup (map ruleId (rules (checkLimits w)))
      /\ List.NoDup (map ruleId (rules (checkLimits (checkLimits w))))).
Proof.
  assert (Hi : checkLimits (checkLimits w) = checkLimits w).
  { unfold checkLimits, withRules. cbn [mem rules localStore syncSettings].
    now rewrite checkLimitsOn_idempotent. }
  split; [exact Hi|].
  intros Hn. rewrite Hi.
  assert (List.NoDup (map ruleId (rules (checkLimits w)))); [|tauto].
  unfold checkLimits, withRules. cbn [rules].
  now apply checkLoop_NoDup.
Qed.

(** ** Reconciliation only looks at configured domains *)

Lemma lookupEntry_None (d : string) (l : list (string * DomainSettings)) :
  ~ In d (map fst l) -> lookupEntry d l = None.
Proof.
  induction l as [|[k v] l IH]; simpl; [reflexivity|].
  intros H. destruct (String.eqb_spec k d) as [->|Hne]; [tauto|].
  apply IH. tauto.
Qed.

Lemma getLimitSeconds_untracked (m : Mem) (d : string) :
  ~ In d (getTrackedDomains m) -> getLimitSeconds m d = None.
Proof.
  unfold getTrackedDomains, getLimitSeconds. intros H.
  now rewrite lookupEntry_None.
Qed.

(** The ledger with the entry of [d] set to [v]. *)
Lemma limitReached_other_entry (m : Mem) (d d' : string) (v : Z) :
  d <> d' ->
  limitReached (mkMem (settings m) (<[d := v]> (todayUsage m))
                  (activeDomain m) (activeStart m)) d'
  = limitReached m d'.
Proof.
  intros Hne. unfold limitReached, getLimitSeconds, usageOf. cbn [settings todayUsage].
  now rewrite lookup_insert_ne.
Qed.

Lemma checkLoop_other_entry (m : Mem) (d : string) (v : Z)
  (domains : list string) (t : list Rule) :
  ~ In d domains ->
  fold_left (checkDomain (mkMem (settings m) (<[d := v]> (todayUsage m))
                            (activeDomain m) (activeStart m))) domains t
  = fold_left (checkDomain m) domains t.
Proof.
  revert t. induction domains as [|d' ds IH]; intros t H; simpl; [reflexivity|].
  simpl in H. rewrite IH by tauto. f_equal.
  unfold checkDomain. rewrite limitReached_other_entry by intuition congruence.
  reflexivity.
Qed.

(** C10. In a reconciliation pass every rule of the resulting table was
    either there before or is the block rule of a domain that is a key of
    the policy and reached its limit. A domain that is not configured has
    an infinite limit, and its ledger entry can hold any value without
    changing what the pass does. *)
Theorem checkLimits_only_configured (m : Mem) (t : list Rule) :
  (forall r, In r (checkLimitsOn m t) ->
     In r t \/
     exists d, In d (getTrackedDomains m) /\ limitReached m d = true
               /\ r = blockRule d)
  /\ (forall d, ~ In d (getTrackedDomains m) ->
        getLimitSeconds m d = None /\ limitReached m d = false)
  /\ (forall d v, ~ In d (getTrackedDomains m) ->
        checkLimitsOn (mkMem (settings m) (<[d := v]> (todayUsage m))
                         (activeDomain m) (activeStart m)) t
        = checkLimitsOn m t).
Proof.
  split; [|split].
  - intros r. apply checkLoop_In.
  - intros d Hd. unfold limitReached.
    rewrite (getLimitSeconds_untracked m d Hd). auto.
  - intros d v Hd. unfold checkLimitsOn, getTrackedDomains. cbn [settings].
    now apply checkLoop_other_entry.
Qed.

(** ** Sequences of calls: what the ledger accumulates *)

Lemma mem_checkLimits (w : World) : mem (checkLimits w) = mem w.
Proof. reflexivity. Qed.

Lemma mem_persistUsage (e : Env) (w : World) :
  mem (persistUsage e w) = flushActiveTimer (nowMs e) (mem w).
Proof. reflexivity. Qed.

(** The globals after [setActiveDomain]: the ledger is the flushed one
    and the timer is the one the call sets (the flush inside
    [persistUsage] runs at the same instant and adds nothing). *)
Lemma mem_setActiveDomain (e : Env) (domain : option string) (w : World) :
  let m := flushActiveTimer (nowMs e) (mem w) in
  let a := activeAfter (getTrackedDomains (mem w)) domain in
  mem (setActiveDomain e domain w)
  = mkMem (settings (mem w)) (todayUsage m) a
      (match a with Some _ => Some (nowMs e) | None => None end).
Proof.
  intros m a. unfold setActiveDomain.
  rewrite mem_checkLimits, mem_persistUsage. cbn [mem withMem].
  assert (Hs : settings m = settings (mem w))
    by apply flushActiveTimer_settings.
  assert (Ht : getTrackedDomains m = getTrackedDomains (mem w))
    by (unfold getTrackedDomains; now rewrite Hs).
  fold m. rewrite Ht, Hs. subst a. unfold activeAfter.
  destruct domain as [d|]; [destruct (_ && _)|].
  - apply (flushActiveTimer_skip (nowMs e) (nowMs e)); [reflexivity|].
    unfold elapsedSeconds. rewrite Z.sub_diag, roundDiv_zero. lia.
  - now apply flushActiveTimer_inactive.
  - now apply flushActiveTimer_inactive.
Qed.

Lemma usageOf_insert (u : gmap string Z) (c d : string) (v : Z) :
  usageOf (<[c := v]> u) d = if String.eqb c d then v else usageOf u d.
Proof.
  unfold usageOf. destruct (String.eqb_spec c d) as [->|Hne].
  - now rewrite lookup_insert_eq.
  - now rewrite lookup_insert_ne.
Qed.

(** One flush credits the rounded length of the interval it closes to the
    active domain, and nothing to any other domain. *)
Lemma flushActiveTimer_usage (now start : Z) (c d : string) (m : Mem) :
  timerIs m (Some c) start -> 0 < start -> start <= now ->
  usageOf (todayUsage (flushActiveTimer now m)) d
  = usageOf (todayUsage m) d
    + (if String.eqb c d then Js.roundDiv (now - start) 1000 else 0).
Proof.
  intros (Hd & Hs & Hne) Hpos Hle.
  pose proof (roundDiv_nonneg (now - start) ltac:(lia)) as Hn.
  destruct (Z.le_gt_cases (elapsedSeconds now start) 0) as [He|He].
  - rewrite (flushActiveTimer_skip now start m Hs He).
    unfold elapsedSeconds in He.
    destruct (String.eqb c d); lia.
  - rewrite (flushActiveTimer_add now start c m Hd Hs Hne) by lia.
    cbn [todayUsage]. rewrite usageOf_insert. unfold elapsedSeconds.
    destruct (String.eqb_spec c d) as [->|_]; lia.
Qed.

Lemma activeAfter_nonempty (tracked : list string) (domain : option string)
  (c : string) :
  activeAfter tracked domain = Some c -> c <> EmptyString.
Proof.
  unfold activeAfter. destruct domain as [d|]; [|discriminate].
  destruct (Js.truthyStr (Some d)) eqn:Ht; simpl; [|discriminate].
  destruct (Js.includes tracked d); [|discriminate].
  intros [= <-]. simpl in Ht. apply negb_true_iff in Ht.
  now apply String.eqb_neq.
Qed.

Lemma runCalls_usage (tz : Z) (d : string) (calls : list Call) :
  forall (w : World) (cur : option string) (start : Z),
    timerIs (mem w) cur start -> 0 < start -> increasingFrom start calls ->
    usageOf (todayUsage (mem (runCalls tz calls w))) d
    = usageOf (todayUsage (mem w)) d
      + totalRoundedSeconds d
          (activeIntervals (getTrackedDomains (mem w)) cur start calls).
Proof.
  induction calls as [|[t domain] rest IH]; intros w cur start Ht Hpos Hinc.
  - simpl. lia.
  - destruct Hinc as [Hle Hinc]. cbn [runCalls].
    set (e := mkEnv t tz).
    pose proof (mem_setActiveDomain e domain w) as Hm. cbn zeta in Hm.
    set (a := activeAfter (getTrackedDomains (mem w)) domain) in *.
    assert (Hta : timerIs (mem (setActiveDomain e domain w)) a t).
    { rewrite Hm. unfold timerIs. destruct a as [c|] eqn:Ha; cbn; [|reflexivity].
      repeat split. eapply activeAfter_nonempty. exact Ha. }
    rewrite (IH _ a t Hta ltac:(lia) Hinc).
    assert (Hs : getTrackedDomains (mem (setActiveDomain e domain w))
                 = getTrackedDomains (mem w)).
    { rewrite Hm. reflexivity. }
    rewrite Hs, Hm. cbn [todayUsage nowMs e].
    cbn [activeIntervals]. fold a.
    destruct cur as [c|].
    + rewrite (flushActiveTimer_usage t start c d (mem w) Ht Hpos Hle).
      cbn [totalRoundedSeconds]. lia.
    + rewrite (flushActiveTimer_inactive t (mem w) Ht). lia.
Qed.

Lemma activeIntervals_idle (tracked : list string) (s s' : Z)
  (calls : list Call) :
  activeIntervals tracked None s calls = activeIntervals tracked None s' calls.
Proof. destruct calls as [|[t domain] rest]; reflexivity. Qed.

Lemma totalRounded_exact (d : string) (ivs : list Interval) :
  wholeSeconds ivs -> 1000 * totalRoundedSeconds d ivs = totalMs d ivs.
Proof.
  induction ivs as [|[[d' s] t] rest IH]; intros H; [reflexivity|].
  apply List.Forall_cons_iff in H. destruct H as [Hx Hr].
  cbn [totalRoundedSeconds totalMs].
  rewrite Z.mul_add_distr_l, (IH Hr).
  destruct (String.eqb d' d); [|lia].
  now rewrite (roundDiv_exact (t - s) Hx).
Qed.

(** C1, as the code has it. For every sequence of [setActiveDomain] calls
    at positive instants that do not decrease, starting with no domain
    active, the usage accumulated for a domain is the sum, over the
    intervals during which it was the active domain, of the length of each
    interval rounded to the nearest second; when every interval lasts a
    whole number of seconds this is the exact sum of their lengths. *)
Theorem setActiveDomain_usage_rounded_intervals
  (tz : Z) (calls : list Call) (w : World) (d : string) :
  activeDomain (mem w) = None ->
  increasingFrom 1 calls ->
  let ivs := activeIntervals (getTrackedDomains (mem w)) None 0 calls in
  let before := usageOf (todayUsage (mem w)) d in
  let after := usageOf (todayUsage (mem (runCalls tz calls w))) d in
  after = before + totalRoundedSeconds d ivs
  /\ (wholeSeconds ivs -> 1000 * (after - before) = totalMs d ivs).
Proof.
  intros Hidle Hinc ivs before after.
  assert (H : after = before + totalRoundedSeconds d ivs).
  { subst after before ivs.
    rewrite (activeIntervals_idle _ 0 1).
    apply runCalls_usage; [exact Hidle|lia|exact Hinc]. }
  split; [exact H|].
  intros Hw. rewrite <- (totalRounded_exact d ivs Hw). lia.
Qed.

Lemma setActiveDomain_usage_rounded_intervals_witness :
  usageOf (todayUsage (mem (runCalls 0 slowCalls sampleWorld))) "youtube.com"
  = 120
  /\ totalMs "youtube.com"
       (activeIntervals (getTrackedDomains (mem sampleWorld)) None 0 slowCalls)
     = 120000.
Proof.
  assert (Hinc : increasingFrom 1 slowCalls) by (simpl; lia).
  destruct (setActiveDomain_usage_rounded_intervals 0 slowCalls sampleWorld
              "youtube.com" eq_refl Hinc) as [H1 H2].
  split.
  - rewrite H1. reflexivity.
  - reflexivity.
Defined.

(** C1, as stated, fails: three intervals of 0.4 s on one domain, closed by
    calls at strictly increasing instants of one day, total 1.2 s, and the
    ledger records 0 s for the domain. *)
Lemma setActiveDomain_usage_exact_counterexample :
  let w := runCalls 0 quickCalls sampleWorld in
  let ivs :=
    activeIntervals (getTrackedDomains (mem sampleWorld)) None 0 quickCalls in
  activeDomain (mem sampleWorld) = None
  /\ increasingFrom 1 quickCalls
  /\ Forall (fun c : Call => todayKey (mkEnv (fst c) 0) = "usage_2024_03_05")
       quickCalls
  /\ ivs = [("youtube.com", 1709640000000, 1709640000400);
            ("youtube.com", 1709640000400, 1709640000800);
            ("youtube.com", 1709640000800, 1709640001200)]
  /\ totalMs "youtube.com" ivs = 1200
  /\ usageOf (todayUsage (mem w)) "youtube.com" = 0
  /\ 1000 * usageOf (todayUsage (mem w)) "youtube.com"
     <> totalMs "youtube.com" ivs.
Proof.
  cbv zeta. repeat split.
  - simpl; lia.
  - simpl; lia.
  - simpl; lia.
  - simpl; lia.
  - repeat constructor.
  - vm_compute. discriminate.
Qed.

(** ** Hydration *)

Lemma todayKey_prefix (e : Env) : exists rest, todayKey e = "usage_" ++ rest.
Proof.
  unfold todayKey. destruct (JsDate.civilFromDays (localDay e)) as [[y m] d].
  eexists. reflexivity.
Qed.

Lemma todayKey_not_timer_key (e : Env) :
  todayKey e <> "activeDomain" /\ todayKey e <> "activeStart".
Proof.
  destruct (todayKey_prefix e) as [rest ->]. split; discriminate.
Qed.

(** C2, as the code has it. Hydration restores a persisted timer snapshot
    exactly as stored, whatever calendar day its start instant belongs to
    (no comparison with today is made), so a timer started on a previous
    day is kept; the next flush then credits the whole time elapsed since
    that start, rounded to seconds, to the ledger of the day of the flush. *)
Theorem ensureInit_restores_timer_any_day
  (e : Env) (w : World) (d : string) (start : Z) :
  localStore w !! "activeDomain" = Some (JStr d) -> d <> EmptyString ->
  localStore w !! "activeStart" = Some (JNum start) -> 0 < start ->
  let m := mem (ensureInit e w) in
  activeDomain m = Some d
  /\ activeStart m = Some start
  /\ (start <= nowMs e ->
      usageOf (todayUsage (flushActiveTimer (nowMs e) m)) d
      = usageOf (usageOfVal (localStore w !! todayKey e)) d
        + Js.roundDiv (nowMs e - start) 1000).
Proof.
  intros Hd Hne Hs Hpos m.
  assert (Had : activeDomain m = Some d).
  { subst m. unfold ensureInit. cbn [mem withMem activeDomain].
    rewrite Hd. unfold Js.orNullStr. simpl.
    apply String.eqb_neq in Hne. now rewrite Hne. }
  assert (Has : activeStart m = Some start).
  { subst m. unfold ensureInit. cbn [mem withMem activeStart].
    rewrite Hs. unfold Js.orNullNum. simpl.
    destruct (Z.eqb_spec start 0); [lia|reflexivity]. }
  split; [exact Had|]. split; [exact Has|].
  intros Hle.
  rewrite (flushActiveTimer_usage (nowMs e) start d d m); [|now repeat split|lia|lia].
  rewrite String.eqb_refl. reflexivity.
Qed.

Lemma ensureInit_restores_timer_any_day_witness :
  let m := mem (ensureInit afterMidnight staleTimerWorld) in
  activeDomain m = Some "youtube.com"
  /\ activeStart m = Some lateEvening
  /\ usageOf (todayUsage (flushActiveTimer (nowMs afterMidnight) m))
       "youtube.com" = 1200.
Proof.
  intros m.
  destruct (ensureInit_restores_timer_any_day afterMidnight staleTimerWorld
              "youtube.com" lateEvening)
    as (H1 & H2 & H3).
  - reflexivity.
  - discriminate.
  - reflexivity.
  - reflexivity.
  - split; [exact H1|]. split; [exact H2|].
    subst m. rewrite H3.
    + reflexivity.
    + vm_compute. discriminate.
Defined.

(** C2, as stated, fails: the snapshot was started at 23:50 on 4 March,
    hydration runs at 00:10 on 5 March, and the timer is still there. *)
Lemma ensureInit_keeps_yesterdays_timer :
  let m := mem (ensureInit afterMidnight staleTimerWorld) in
  numOfVal (localStore staleTimerWorld !! "activeStart") = Some lateEvening
  /\ dayOfInstant afterMidnight lateEvening < localDay afterMidnight
  /\ activeDomain m <> None
  /\ activeStart m <> None.
Proof.
  cbv zeta. split; [reflexivity|]. split; [vm_compute; reflexivity|].
  split; vm_compute; discriminate.
Qed.

(** ** Day rollover *)

(** With no ledger stored under today's key, the ledger in effect after
    hydration is empty. *)
Lemma ensureInit_fresh_ledger (e : Env) (w : World) :
  localStore w !! todayKey e = None -> todayUsage (mem (ensureInit e w)) = ∅.
Proof.
  intros H. unfold ensureInit. cbn [mem withMem todayUsage]. now rewrite H.
Qed.

Lemma removeAllDynamicBlockRules_empty (t : list Rule) :
  removeAllDynamicBlockRules t = [].
Proof.
  unfold removeAllDynamicBlockRules.
  destruct t as [|r t]; [reflexivity|].
  cbn [length Nat.ltb Nat.leb]. unfold updateDynamicRules.
  rewrite app_nil_r.
  change (without (map ruleId (r :: t)) (r :: t) = []).
  apply without_all.
  intros r' Hr'. now apply in_map.
Qed.

Lemma mem_cleanupOldUsage (e : Env) (w : World) :
  mem (cleanupOldUsage e w) = mem w /\ rules (cleanupOldUsage e w) = rules w.
Proof. unfold cleanupOldUsage. destruct (_ <? _)%nat; split; reflexivity. Qed.

(** A full initialization ([onInstalled], [onStartup]) empties the rule
    table before it reconciles. *)
Lemma fullInit_rules (e : Env) (w : World) :
  rules (fullInit e w) = checkLimitsOn (mem (ensureInit e w)) [].
Proof.
  unfold fullInit, checkLimits. cbn [rules withRules mem].
  rewrite removeAllDynamicBlockRules_empty.
  now rewrite (proj1 (mem_cleanupOldUsage e (ensureInit e w))).
Qed.

(** C5, at a failing input. [youtube.com] was blocked on the evening of
    4 March and left at 23:00; the next event is the alarm at 00:10 on
    5 March. The ledger in effect is the empty ledger of the new day and
    the domain is under its limit, yet the block rule of the previous day
    is still in the table after the handler. The same instant handled by
    [onStartup] does clear the table. *)
Theorem day_rollover_alarm_keeps_block_rule :
  let w' := handle afterMidnight (Alarm "persist-timer") blockedYesterday in
  rules blockedYesterday = [blockRule "youtube.com"]
  /\ todayKey evening2300 = "usage_2024_03_04"
  /\ todayKey afterMidnight = "usage_2024_03_05"
  /\ localStore blockedYesterday !! todayKey afterMidnight = None
  /\ activeDomain (mem (ensureInit afterMidnight blockedYesterday)) = None
  /\ todayUsage (mem w') = ∅
  /\ limitReached (mem w') "youtube.com" = false
  /\ rules w' = [blockRule "youtube.com"]
  /\ rules (handle afterMidnight Startup blockedYesterday) = [].
Proof.
  by_evaluation.
Qed.

(** ** Live sync of the policy *)

Lemma includes_In (l : list string) (d : string) :
  In d l -> Js.includes l d = true.
Proof.
  intros H. unfold Js.includes. apply existsb_exists.
  exists d. split; [exact H|apply String.eqb_refl].
Qed.

Lemma removeDropped_subset (old new : list string) (t : list Rule) :
  (forall d, In d old -> In d new) -> removeDropped old new t = t.
Proof.
  unfold removeDropped. revert t.
  induction old as [|d ds IH]; intros t H; [reflexivity|].
  cbn [fold_left]. rewrite (includes_In new d) by (apply H; now left).
  cbn [negb]. apply IH. intros d' Hd'. apply H. now right.
Qed.

(** When the listener runs, [chrome.storage.sync] already holds the new
    value; hydration then loads the new policy before the old domains are
    captured, and the loop over the old domains removes nothing: the rule
    table only goes through reconciliation. *)
Lemma onStorageChanged_removes_nothing
  (e : Env) (w : World) (newSettings : Settings)
  (domains : list (string * DomainSettings)) :
  syncSettings w = Some newSettings ->
  restrictedDomains newSettings = Some domains ->
  rules (handle e (StorageChanged "sync" (Some (Some newSettings))) w)
  = checkLimitsOn
      (mkMem newSettings (todayUsage (mem (ensureInit e w)))
         (activeDomain (mem (ensureInit e w)))
         (activeStart (mem (ensureInit e w))))
      (rules w).
Proof.
  intros Hs Hd. cbn [handle]. unfold onStorageChanged.
  cbn [String.eqb Ascii.eqb Bool.eqb].
  unfold checkLimits. cbn [rules withRules mem withMem].
  rewrite removeDropped_subset; [reflexivity|].
  intros d. unfold getTrackedDomains, ensureInit.
  cbn [mem withMem settings]. rewrite Hs, !Hd. auto.
Qed.

(** C3, at a failing input. [instagram.com] is blocked and the user
    deletes it from the settings: after the storage listener has run the
    domain is no longer tracked, its usage entry is still in the ledger,
    and its block rule is still in the table. The listener of the first
    revision, which does not hydrate before it compares, removes the
    rule. *)
Theorem live_sync_keeps_rule_of_deleted_domain :
  let ev := StorageChanged "sync" (Some (Some policyWithoutInstagram)) in
  let w' := handle morning1030 ev instagramDeleted in
  getTrackedDomains (mem instagramDeleted) = ["youtube.com"; "instagram.com"]
  /\ rules instagramDeleted = [blockRule "instagram.com"]
  /\ getTrackedDomains (mem w') = ["youtube.com"]
  /\ usageOf (todayUsage (mem w')) "instagram.com" = 1260
  /\ rules w' = [blockRule "instagram.com"]
  /\ rules (onStorageChangedOriginal "sync"
              (Some (Some policyWithoutInstagram)) instagramDeleted) = [].
Proof.
  by_evaluation.
Qed.

(** ** The retention sweep *)

Lemma append_empty (s : string) : EmptyString ++ s = s.
Proof. reflexivity. Qed.

Lemma append_String (c : ascii) (r s : string) :
  String c r ++ s = String c (r ++ s).
Proof. reflexivity. Qed.

Lemma append_assoc (a b c : string) : (a ++ b) ++ c = a ++ (b ++ c).
Proof.
  induction a as [|x a IH]; [reflexivity|].
  rewrite !append_String. now rewrite IH.
Qed.

Lemma splitGo_last (sep : ascii) (t : string) :
  Js.splitGo sep EmptyString t = [t] ->
  forall (x cur : string),
    exists l, Js.splitGo sep cur (x ++ String sep t) = (l ++ [t])%list.
Proof.
  intros Ht x. induction x as [|c r IH]; intros cur.
  - exists [cur]. rewrite append_empty. cbn [Js.splitGo].
    rewrite Ascii.eqb_refl, Ht. reflexivity.
  - rewrite append_String. cbn [Js.splitGo]. destruct (Ascii.eqb c sep).
    + destruct (IH EmptyString) as [l Hl]. exists (cur :: l).
      rewrite Hl. reflexivity.
    + apply IH.
Qed.

(** The date string of the sweep ends in the word [undefined] and is not
    a date: the parse of the key of every ledger is an Invalid Date. *)
Lemma parse_sweepDateString (parts : list string) :
  length parts = 3%nat -> JsDate.parse (sweepDateString parts) = None.
Proof.
  intros Hl. destruct parts as [|p0 [|p1 [|p2 [|p3 ps]]]]; try discriminate.
  unfold sweepDateString, Js.templateAt. cbn [nth].
  assert (Hs : exists l,
             Js.split "-" (p1 ++ "-" ++ p2 ++ "-" ++ "undefined")
             = (l ++ ["undefined"])%list).
  { unfold Js.split.
    replace (p1 ++ "-" ++ p2 ++ "-" ++ "undefined")
      with ((p1 ++ "-" ++ p2) ++ String "-" "undefined").
    - apply splitGo_last. reflexivity.
    - rewrite !append_assoc. reflexivity. }
  destruct Hs as [l Hs]. unfold JsDate.parse. rewrite Hs.
  destruct l as [|y [|m [|z l]]]; try reflexivity.
  - cbn [app]. cbn [String.length Nat.eqb].
    rewrite !andb_false_r. reflexivity.
  - cbn [app]. destruct l; reflexivity.
Qed.

Lemma sweepSelects_never (e : Env) (key : string) : sweepSelects e key = false.
Proof.
  unfold sweepSelects.
  destruct (negb (Js.startsWith key "usage_")); [reflexivity|].
  destruct (Nat.eqb_spec (length (Js.split "_" (Js.removeFirst "usage_" key))) 3)
    as [Hl|Hl]; [|reflexivity].
  cbn [negb]. now rewrite parse_sweepDateString.
Qed.

(** As the hydrating revision reads the date, the sweep selects no key,
    in particular none of the keys [usage_YYYY_MM_DD] the worker writes,
    and leaves storage as it is. *)
Lemma cleanupOldUsage_removes_nothing (e : Env) (w : World) :
  cleanupOldUsage e w = w.
Proof.
  unfold cleanupOldUsage, keysToRemove.
  assert (H : forall ks, List.filter (sweepSelects e) ks = []).
  { induction ks as [|k ks IH]; [reflexivity|].
    cbn [List.filter]. now rewrite sweepSelects_never. }
  rewrite H. reflexivity.
Qed.

(** C4, at a failing input. On 5 March 2024 the store holds the ledgers
    of 1 January and of 20 February, both more than 7 days old: the sweep
    selects neither and the store is unchanged. Read with the indices of
    the first revision, both keys are selected and today's is not. *)
Theorem cleanupOldUsage_keeps_expired_ledgers :
  let w' := cleanupOldUsage afterMidnight oldLedgersWorld in
  todayKey afterMidnight = "usage_2024_03_05"
  /\ keysToRemove afterMidnight (localStore oldLedgersWorld) = []
  /\ w' = oldLedgersWorld
  /\ localStore w' !! "usage_2024_01_01"
     = Some (JUsage {[ "youtube.com" := 1800 ]})
  /\ localStore w' !! "usage_2024_02_20"
     = Some (JUsage {[ "youtube.com" := 60 ]})
  /\ sweepSelectsOriginal afterMidnight "usage_2024_01_01" = true
  /\ sweepSelectsOriginal afterMidnight "usage_2024_02_20" = true
  /\ sweepSelectsOriginal afterMidnight "usage_2024_03_05" = false.
Proof.
  cbv zeta. rewrite cleanupOldUsage_removes_nothing.
  repeat split; vm_compute; reflexivity.
Qed.

(** ** The domain classifier *)

(** [getDomain] is none exactly where the URL constructor throws, and
    otherwise the hostname without one leading [www.]; this holds for any
    URL parser. *)
Lemma getDomainVia_spec (hostnameOf : string -> option string) (url : string) :
  (hostnameOf url = None -> getDomainVia hostnameOf url = None)
  /\ (forall h, hostnameOf url = Some h ->
        getDomainVia hostnameOf url = Some (stripWww h)).
Proof.
  unfold getDomainVia. split.
  - intros ->. reflexivity.
  - intros h ->. reflexivity.
Qed.

Lemma stripWww_prefixed (rest : string) : stripWww ("www." ++ rest) = rest.
Proof.
  unfold stripWww.
  assert (H : Js.startsWith ("www." ++ rest) "www." = true)
    by (destruct rest; reflexivity).
  rewrite H. clear H. unfold Js.dropChars.
  rewrite !append_String, append_empty.
  cbn [String.length Nat.sub String.substring].
  rewrite Nat.sub_0_r.
  induction rest as [|c r IH]; [reflexivity|].
  cbn [String.length String.substring]. f_equal. exact IH.
Qed.

(** C9, at failing inputs. Internal browser pages parse as URLs, so
    [getDomain] returns their host instead of none: [extensions] for
    [chrome://extensions/], the empty string for [about:blank]. *)
Theorem getDomain_internal_pages_not_none :
  URL.hostname "chrome://extensions/" = Some "extensions"
  /\ getDomain "chrome://extensions/" = Some "extensions"
  /\ getDomain "chrome://newtab/" = Some "newtab"
  /\ getDomain "chrome-extension://abcdefgh/popup.html" = Some "abcdefgh"
  /\ getDomain "about:blank" = Some EmptyString
  /\ getDomain "not a url" = None
  /\ getDomain "https://www.youtube.com/watch?v=1" = Some "youtube.com".
Proof.
  by_evaluation.
Qed.

(** ** Witnesses on the sample worlds *)

Lemma checkLimits_idempotent_witness :
  checkLimits (checkLimits instagramBlocked) = checkLimits instagramBlocked
  /\ List.NoDup (map ruleId (rules (checkLimits instagramBlocked))).
Proof.
  destruct (checkLimits_idempotent instagramBlocked) as [H1 H2].
  split; [exact H1|].
  apply H2. vm_compute. constructor; [intros []|constructor].
Defined.

Lemma checkLimits_only_configured_witness :
  getLimitSeconds orphanMem "instagram.com" = None
  /\ checkLimitsOn
       (mkMem (settings orphanMem)
          (<["instagram.com" := 86400]> (todayUsage orphanMem))
          (activeDomain orphanMem) (activeStart orphanMem)) []
     = checkLimitsOn orphanMem [].
Proof.
  assert (Hn : ~ In "instagram.com" (getTrackedDomains orphanMem)).
  { simpl. intros [H|[]]. discriminate H. }
  destruct (checkLimits_only_configured orphanMem []) as (_ & H2 & H3).
  split.
  - exact (proj1 (H2 "instagram.com" Hn)).
  - exact (H3 "instagram.com" 86400 Hn).
Defined.

(** ** Restart of the worker between two events *)

(** What [setActiveDomain] persisted is what hydration reads back on the
    same day, also in a worker that was stopped in between: the ledger and
    the timer survive the restart. *)
Lemma hydration_after_setActiveDomain
  (e e' : Env) (domain : option string) (w : World) :
  nowMs e <> 0 -> todayKey e' = todayKey e ->
  let w' := setActiveDomain e domain w in
  let m' := mem (ensureInit e' (restartWorker w')) in
  todayUsage m' = todayUsage (mem w')
  /\ activeDomain m' = activeDomain (mem w')
  /\ activeStart m' = activeStart (mem w').
Proof.
  intros Hnow Hkey w' m'.
  destruct (todayKey_not_timer_key e) as [Hk1 Hk2].
  pose proof (mem_setActiveDomain e domain w) as Hm. cbn zeta in Hm.
  fold w' in Hm.
  assert (Hl : localStore w'
               = <["activeStart" := valOfNum (activeStart (mem w'))]>
                   (<["activeDomain" := valOfStr (activeDomain (mem w'))]>
                      (<[todayKey e := JUsage (todayUsage (mem w'))]>
                         (localStore w)))).
  { reflexivity. }
  subst m'. unfold ensureInit, restartWorker.
  cbn [mem withMem localStore todayUsage activeDomain activeStart].
  rewrite Hkey, Hl.
  rewrite (lookup_insert_ne _ "activeStart" (todayKey e)) by congruence.
  rewrite (lookup_insert_ne _ "activeDomain" (todayKey e)) by congruence.
  rewrite lookup_insert_eq.
  rewrite (lookup_insert_ne _ "activeStart" "activeDomain") by discriminate.
  rewrite !lookup_insert_eq.
  split; [reflexivity|].
  rewrite Hm. cbn [activeDomain activeStart].
  destruct (activeAfter (getTrackedDomains (mem w)) domain) as [c|] eqn:Ha.
  - apply activeAfter_nonempty in Ha. split.
    + unfold Js.orNullStr. simpl. apply String.eqb_neq in Ha. now rewrite Ha.
    + unfold Js.orNullNum. simpl.
      destruct (Z.eqb_spec (nowMs e) 0); [contradiction|reflexivity].
  - split; reflexivity.
Qed.

Lemma Mem_eq (m1 m2 : Mem) :
  settings m1 = settings m2 -> todayUsage m1 = todayUsage m2 ->
  activeDomain m1 = activeDomain m2 -> activeStart m1 = activeStart m2 ->
  m1 = m2.
Proof. destruct m1, m2. simpl. congruence. Qed.

Lemma setActiveDomain_policySynced (e : Env) (domain : option string)
  (w : World) :
  policySynced w -> policySynced (setActiveDomain e domain w).
Proof.
  unfold policySynced. intros [Hs Hr].
  pose proof (mem_setActiveDomain e domain w) as Hm. cbn zeta in Hm.
  rewrite Hm. cbn [settings]. split; [exact Hs|exact Hr].
Qed.

(** After [setActiveDomain] storage describes the globals. *)
Lemma setActiveDomain_settled (e : Env) (domain : option string) (w : World) :
  nowMs e <> 0 -> policySynced w ->
  settled (todayKey e) (setActiveDomain e domain w).
Proof.
  intros Hnow Hp e' Hkey.
  destruct (hydration_after_setActiveDomain e e' domain w Hnow Hkey)
    as (Hu & Hd & Hs).
  destruct (setActiveDomain_policySynced e domain w Hp) as [Hsync Hr].
  set (w' := setActiveDomain e domain w) in *.
  assert (Hm : mem (ensureInit e' (restartWorker w')) = mem w').
  { apply Mem_eq; try assumption.
    unfold ensureInit, restartWorker. cbn [mem withMem settings syncSettings].
    rewrite Hsync. destruct (restrictedDomains (settings (mem w')));
      [reflexivity|contradiction]. }
  destruct w' as [m l s t] eqn:Hw.
  unfold ensureInit, restartWorker, withMem in *.
  cbn [mem localStore syncSettings rules] in *. now rewrite Hm.
Qed.

(** Stopping the worker between the calls of one day changes nothing:
    the run with hydration from fresh globals before every call ends in
    the same world as the run that keeps its globals. *)
Lemma runCallsRestarting_runCalls (tz : Z) (key : string) (calls : list Call) :
  forall w, onDay tz key calls -> policySynced w -> settled key w ->
            runCallsRestarting tz calls w = runCalls tz calls w.
Proof.
  induction calls as [|[t domain] rest IH]; intros w Hday Hp Hs; [reflexivity|].
  apply List.Forall_cons_iff in Hday. destruct Hday as [[Hnz Hk] Hday].
  cbn [fst] in Hnz, Hk. cbn [runCallsRestarting runCalls].
  rewrite (Hs (mkEnv t tz) Hk).
  apply IH; [exact Hday|now apply setActiveDomain_policySynced|].
  rewrite <- Hk. now apply setActiveDomain_settled.
Qed.

Lemma sampleWorld_settled (key : string) : settled key sampleWorld.
Proof.
  intros e _. unfold ensureInit, restartWorker, sampleWorld, withMem.
  cbn [mem localStore syncSettings rules settings restrictedDomains samplePolicy].
  rewrite !lookup_empty. reflexivity.
Qed.

(** The ledger of a worker that is stopped after every event accumulates
    the same rounded intervals. *)
Corollary restarting_usage_rounded_intervals
  (tz : Z) (key : string) (calls : list Call) (w : World) (d : string) :
  activeDomain (mem w) = None -> increasingFrom 1 calls ->
  onDay tz key calls -> policySynced w -> settled key w ->
  usageOf (todayUsage (mem (runCallsRestarting tz calls w))) d
  = usageOf (todayUsage (mem w)) d
    + totalRoundedSeconds d
        (activeIntervals (getTrackedDomains (mem w)) None 0 calls).
Proof.
  intros Hidle Hinc Hday Hp Hs.
  rewrite (runCallsRestarting_runCalls tz key calls w Hday Hp Hs).
  rewrite (activeIntervals_idle _ 0 1).
  apply runCalls_usage; [exact Hidle|lia|exact Hinc].
Qed.

(** ** Scenarios of the specification *)

(** A limit of 30 minutes on [youtube.com], focused from 22:00: the alarm
    tick at 22:31 finds 1860 s and the block rule is in the table. *)
Example scenario_limit_reached :
  let w := handle evening2231 (Alarm "persist-timer")
             (handle evening2200
                (TabActivated (Some (Some "https://www.youtube.com/watch?v=1")))
                sampleWorld) in
  usageOf (todayUsage (mem w)) "youtube.com" = 1860
  /\ rules w = [blockRule "youtube.com"].
Proof. by_evaluation. Qed.

(** The worker restarts with a persisted timer on [youtube.com] started at
    22:00; the flush of the tick five minutes later adds 300 s. *)
Example scenario_restart_mid_session :
  let w := handle evening2200
             (TabActivated (Some (Some "https://www.youtube.com/")))
             sampleWorld in
  let w' := handle (mkEnv (nowMs evening2200 + 300000) 0)
              (Alarm "persist-timer") (restartWorker w) in
  usageOf (todayUsage (mem w)) "youtube.com" = 0
  /\ usageOf (todayUsage (mem w')) "youtube.com" = 300.
Proof. by_evaluation. Qed.

(** Two intervals of 0.6 s each are recorded as 2 s. *)
Example rounding_up_counts_more :
  let calls := [(1709640000000, Some "youtube.com");
                (1709640000600, Some "youtube.com");
                (1709640001200, None)] in
  usageOf (todayUsage (mem (runCalls 0 calls sampleWorld))) "youtube.com" = 2
  /\ totalMs "youtube.com"
       (activeIntervals (getTrackedDomains (mem sampleWorld)) None 0 calls)
     = 1200.
Proof. by_evaluation. Qed.

(* ===================================================================== *)
(** * Further properties of the worker *)
(* ===================================================================== *)

(** ** Hydration and persistence *)

(** X1. Hydration only populates the globals: both storage areas and the
    rule table are left as they were, and hydrating again on the same day
    changes nothing more. *)
Theorem ensureInit_reads_only (e e' : Env) (w : World) :
  todayKey e' = todayKey e ->
  localStore (ensureInit e w) = localStore w
  /\ syncSettings (ensureInit e w) = syncSettings w
  /\ rules (ensureInit e w) = rules w
  /\ ensureInit e' (ensureInit e w) = ensureInit e w.
Proof.
  intros Hkey. repeat split.
  unfold ensureInit, withMem.
  cbn [mem localStore syncSettings rules settings]. rewrite Hkey.
  destruct (syncSettings w) as [s|]; [|reflexivity].
  destruct (restrictedDomains s); reflexivity.
Qed.

Lemma ensureInit_reads_only_witness :
  localStore (ensureInit afterMidnight staleTimerWorld)
  = localStore staleTimerWorld
  /\ ensureInit afterMidnight (ensureInit afterMidnight staleTimerWorld)
     = ensureInit afterMidnight staleTimerWorld.
Proof.
  destruct (ensureInit_reads_only afterMidnight afterMidnight staleTimerWorld
              eq_refl) as (H1 & _ & _ & H4).
  split; [exact H1|exact H4].
Defined.

Lemma strOfVal_valOfStr (o : option string) : strOfVal (Some (valOfStr o)) = o.
Proof. destruct o; reflexivity. Qed.

Lemma numOfVal_valOfNum (o : option Z) : numOfVal (Some (valOfNum o)) = o.
Proof. destruct o; reflexivity. Qed.

(** What [persistUsage] leaves under the three keys it writes. *)
Lemma persistUsage_lookups (e : Env) (w : World) :
  let w1 := persistUsage e w in
  localStore w1 !! todayKey e = Some (JUsage (todayUsage (mem w1)))
  /\ localStore w1 !! "activeDomain" = Some (valOfStr (activeDomain (mem w1)))
  /\ localStore w1 !! "activeStart" = Some (valOfNum (activeStart (mem w1))).
Proof.
  destruct (todayKey_not_timer_key e) as [Hk1 Hk2].
  cbv zeta. unfold persistUsage. cbn [localStore mem]. repeat split.
  - rewrite (lookup_insert_ne _ "activeStart" (todayKey e)) by congruence.
    rewrite (lookup_insert_ne _ "activeDomain" (todayKey e)) by congruence.
    now rewrite lookup_insert_eq.
  - rewrite (lookup_insert_ne _ "activeStart" "activeDomain") by discriminate.
    now rewrite lookup_insert_eq.
  - now rewrite lookup_insert_eq.
Qed.

(** X2. What [persistUsage] writes is what hydration reads back: on the
    same day, also in a worker that was stopped in between, [ensureInit]
    restores the flushed ledger, and the timer up to the [|| null] of the
    read (an empty domain or a zero start instant comes back as none). *)
Theorem persistUsage_then_ensureInit (e e' : Env) (w : World) :
  todayKey e' = todayKey e ->
  let w1 := persistUsage e w in
  let m2 := mem (ensureInit e' (restartWorker w1)) in
  todayUsage m2 = todayUsage (mem w1)
  /\ activeDomain m2 = Js.orNullStr (activeDomain (mem w1))
  /\ activeStart m2 = Js.orNullNum (activeStart (mem w1)).
Proof.
  intros Hkey w1 m2.
  destruct (persistUsage_lookups e w) as (Hu & Hd & Hs). fold w1 in Hu, Hd, Hs.
  subst m2. unfold ensureInit, restartWorker.
  cbn [mem withMem localStore todayUsage activeDomain activeStart].
  rewrite Hkey, Hu, Hd, Hs, strOfVal_valOfStr, numOfVal_valOfNum.
  repeat split.
Qed.

Lemma persistUsage_then_ensureInit_witness :
  let w := handle evening2200
             (TabActivated (Some (Some "https://www.youtube.com/")))
             sampleWorld in
  let w1 := persistUsage evening2231 w in
  let m2 := mem (ensureInit evening2300 (restartWorker w1)) in
  todayUsage m2 = todayUsage (mem w1)
  /\ activeDomain m2 = Some "youtube.com"
  /\ activeStart m2 = Some (nowMs evening2231).
Proof.
  intros w w1 m2.
  destruct (persistUsage_then_ensureInit evening2231 evening2300 w eq_refl)
    as (H1 & H2 & H3).
  split; [exact H1|]. split.
  - subst m2 w1. rewrite H2. reflexivity.
  - subst m2 w1. rewrite H3. reflexivity.
Defined.

(** X3. Stopping the worker after every event is not observable on the
    calls of one day: when storage describes the globals at the start and
    the cached policy is the stored one, the run that hydrates fresh
    globals before every [setActiveDomain] ends in the same world (ledger,
    timer, storage and rules) as the run that keeps its globals. *)
Theorem restart_between_calls_unobservable
  (tz : Z) (key : string) (calls : list Call) (w : World) :
  onDay tz key calls -> policySynced w -> settled key w ->
  runCallsRestarting tz calls w = runCalls tz calls w.
Proof. apply runCallsRestarting_runCalls. Qed.

Lemma restart_between_calls_unobservable_witness :
  runCallsRestarting 0 slowCalls sampleWorld = runCalls 0 slowCalls sampleWorld.
Proof.
  apply (restart_between_calls_unobservable 0 "usage_2024_03_05").
  - repeat constructor; try discriminate; vm_compute; reflexivity.
  - split; [reflexivity|discriminate].
  - apply sampleWorld_settled.
Defined.

(** ** The ledger never goes down *)

Lemma flushActiveTimer_usage_le (now : Z) (m : Mem) (d : string) :
  usageOf (todayUsage m) d <= usageOf (todayUsage (flushActiveTimer now m)) d.
Proof.
  unfold flushActiveTimer.
  destruct (activeDomain m) as [c|]; [|lia].
  destruct (activeStart m) as [s|]; [|lia].
  destruct (_ && _); [|lia].
  destruct (Z.ltb_spec 0 (elapsedSeconds now s)); [|lia].
  cbn [todayUsage]. rewrite usageOf_insert.
  destruct (String.eqb_spec c d) as [->|_]; lia.
Qed.

Lemma flushActiveTimer_usage_other (now : Z) (m : Mem) (d : string) :
  activeDomain m <> Some d ->
  usageOf (todayUsage (flushActiveTimer now m)) d = usageOf (todayUsage m) d.
Proof.
  intros Hne. unfold flushActiveTimer.
  destruct (activeDomain m) as [c|]; [|reflexivity].
  destruct (activeStart m) as [s|]; [|reflexivity].
  destruct (_ && _); [|reflexivity].
  destruct (0 <? _); [|reflexivity].
  cbn [todayUsage]. rewrite usageOf_insert.
  destruct (String.eqb_spec c d) as [->|_]; [congruence|reflexivity].
Qed.

(** X4. Whatever the clock reads (also a reading before the start
    instant), a flush never lowers the usage of any domain and changes
    only the entry of the active domain; the same holds for the ledger
    after [persistUsage] and after [setActiveDomain]. *)
Theorem usage_never_decreases
  (e : Env) (domain : option string) (w : World) (d : string) :
  usageOf (todayUsage (mem w)) d
    <= usageOf (todayUsage (flushActiveTimer (nowMs e) (mem w))) d
  /\ usageOf (todayUsage (mem w)) d
       <= usageOf (todayUsage (mem (persistUsage e w))) d
  /\ usageOf (todayUsage (mem w)) d
       <= usageOf (todayUsage (mem (setActiveDomain e domain w))) d
  /\ (activeDomain (mem w) <> Some d ->
      usageOf (todayUsage (mem (setActiveDomain e domain w))) d
      = usageOf (todayUsage (mem w)) d).
Proof.
  pose proof (flushActiveTimer_usage_le (nowMs e) (mem w) d) as Hle.
  pose proof (mem_setActiveDomain e domain w) as Hm. cbn zeta in Hm.
  split; [exact Hle|]. split; [exact Hle|].
  rewrite Hm. cbn [todayUsage]. split; [exact Hle|].
  apply flushActiveTimer_usage_other.
Qed.

Lemma usage_never_decreases_witness :
  let w := withMem sampleWorld
             (mkMem samplePolicy {[ "youtube.com" := 42 ]}
                (Some "youtube.com") (Some 1709640000000)) in
  usageOf (todayUsage (mem (setActiveDomain (mkEnv 1709630000000 0) None w)))
    "instagram.com"
  = usageOf (todayUsage (mem w)) "instagram.com".
Proof.
  intros w.
  destruct (usage_never_decreases (mkEnv 1709630000000 0) None w
              "instagram.com") as (_ & _ & _ & H).
  apply H. discriminate.
Defined.

(** ** The timer after [setActiveDomain] *)

Lemma includes_true_In (l : list string) (d : string) :
  Js.includes l d = true -> In d l.
Proof.
  unfold Js.includes. intros H. apply existsb_exists in H.
  destruct H as (x & Hx & He). apply String.eqb_eq in He. now subst.
Qed.

Lemma activeAfter_Some (tracked : list string) (domain : option string)
  (d : string) :
  activeAfter tracked domain = Some d <->
  domain = Some d /\ d <> EmptyString /\ In d tracked.
Proof.
  unfold activeAfter. split.
  - destruct domain as [x|]; [|discriminate].
    destruct (Js.truthyStr (Some x)) eqn:Ht; [|discriminate].
    destruct (Js.includes tracked x) eqn:Hi; [|discriminate].
    intros [= <-]. simpl in Ht. apply negb_true_iff, String.eqb_neq in Ht.
    repeat split; [exact Ht|now apply includes_true_In].
  - intros (-> & Hne & Hin).
    assert (Ht : Js.truthyStr (Some d) = true).
    { simpl. now apply negb_true_iff, String.eqb_neq. }
    rewrite Ht, (includes_In tracked d Hin). reflexivity.
Qed.

(** X5. After [setActiveDomain(domain)] the policy is unchanged and the
    timer is in one of two states: running on [domain] since the instant
    of the call, which happens exactly when [domain] is a non-empty string
    that is a key of the policy; or fully cleared (no domain and no start
    instant). The active domain is therefore always a tracked domain. *)
Theorem setActiveDomain_timer (e : Env) (domain : option string) (w : World) :
  let m' := mem (setActiveDomain e domain w) in
  settings m' = settings (mem w)
  /\ (forall d, activeDomain m' = Some d <->
        domain = Some d /\ d <> EmptyString /\ In d (getTrackedDomains (mem w)))
  /\ (forall d, activeDomain m' = Some d -> activeStart m' = Some (nowMs e))
  /\ (activeDomain m' = None -> activeStart m' = None).
Proof.
  intros m'. subst m'.
  pose proof (mem_setActiveDomain e domain w) as Hm. cbn zeta in Hm.
  rewrite Hm. cbn [settings activeDomain activeStart].
  split; [reflexivity|]. split; [intros d; apply activeAfter_Some|].
  split.
  - intros d ->. reflexivity.
  - intros ->. reflexivity.
Qed.

Lemma setActiveDomain_timer_witness :
  activeDomain
    (mem (setActiveDomain morning1000 (Some "instagram.com") sampleWorld))
  = Some "instagram.com"
  /\ activeStart
       (mem (setActiveDomain morning1000 (Some "instagram.com") sampleWorld))
     = Some (nowMs morning1000).
Proof.
  destruct (setActiveDomain_timer morning1000 (Some "instagram.com")
              sampleWorld) as (_ & H2 & H3 & _).
  assert (H : activeDomain
                (mem (setActiveDomain morning1000 (Some "instagram.com")
                        sampleWorld)) = Some "instagram.com").
  { apply H2. split; [reflexivity|]. split; [discriminate|].
    simpl. right. left. reflexivity. }
  split; [exact H|exact (H3 _ H)].
Defined.

(** ** One rule per id *)

Lemma blockRule_inj (d1 d2 : string) : blockRule d1 = blockRule d2 -> d1 = d2.
Proof. unfold blockRule. intros H. now injection H. Qed.

Lemma In_without_iff (ids : list Z) (t : list Rule) (r : Rule) :
  In r (without ids t) <-> In r t /\ ~ In (ruleId r) ids.
Proof.
  split; [apply In_without|].
  intros [Hin Hn]. unfold without. apply List.filter_In. split; [exact Hin|].
  unfold keeps. apply negb_true_iff.
  destruct (existsb (Z.eqb (ruleId r)) ids) eqn:He; [|reflexivity].
  apply existsb_exists in He. destruct He as (i & Hi & Heq).
  apply Z.eqb_eq in Heq. rewrite Heq in Hn. contradiction.
Qed.

Lemma In_addDynamicBlockRule (d : string) (t : list Rule) (r : Rule) :
  In r (addDynamicBlockRule d t) <->
  r = blockRule d \/ (In r t /\ ruleId r <> ruleIdFor d).
Proof.
  rewrite addDynamicBlockRule_eq, in_app_iff, In_without_iff. simpl.
  intuition congruence.
Qed.

Lemma In_removeDynamicBlockRule (d : string) (t : list Rule) (r : Rule) :
  In r (removeDynamicBlockRule d t) <-> In r t /\ ruleId r <> ruleIdFor d.
Proof.
  rewrite removeDynamicBlockRule_eq, In_without_iff. simpl. intuition congruence.
Qed.

Lemma count_id_without (i : Z) (t : list Rule) :
  List.filter (fun r => ruleId r =? i) (without [i] t) = [].
Proof.
  unfold without. induction t as [|r t IH]; [reflexivity|].
  cbn [List.filter]. rewrite keeps_cons. change (keeps [] r) with true.
  rewrite andb_true_r.
  destruct (ruleId r =? i) eqn:Hi; cbn [negb List.filter]; [exact IH|].
  now rewrite Hi.
Qed.

(** X6. After [addDynamicBlockRule(domain)], whatever the table held
    before (duplicates included), exactly one rule carries the id of the
    domain and it is the block rule of the domain on main and sub frames;
    rules with any other id are neither added nor removed. *)
Theorem addDynamicBlockRule_single (d : string) (t : list Rule) :
  List.filter (fun r => ruleId r =? ruleIdFor d) (addDynamicBlockRule d t)
  = [blockRule d]
  /\ urlFilter (blockRule d) = "||" ++ d
  /\ resourceTypes (blockRule d) = [main_frame; sub_frame]
  /\ (forall r, ruleId r <> ruleIdFor d ->
        (In r (addDynamicBlockRule d t) <-> In r t)).
Proof.
  split; [|split; [reflexivity|split; [reflexivity|]]].
  - rewrite addDynamicBlockRule_eq, List.filter_app, count_id_without.
    cbn [List.filter app blockRule ruleId]. now rewrite Z.eqb_refl.
  - intros r Hne. rewrite In_addDynamicBlockRule. split.
    + intros [->|[H _]]; [|exact H]. now contradiction Hne.
    + intros H. right. split; assumption.
Qed.

Lemma addDynamicBlockRule_single_witness :
  let t := [blockRule "youtube.com"; blockRule "instagram.com";
            blockRule "youtube.com"] in
  List.filter (fun r => ruleId r =? ruleIdFor "youtube.com")
    (addDynamicBlockRule "youtube.com" t)
  = [blockRule "youtube.com"]
  /\ In (blockRule "instagram.com") (addDynamicBlockRule "youtube.com" t).
Proof.
  intros t.
  destruct (addDynamicBlockRule_single "youtube.com" t) as (H1 & _ & _ & H4).
  split; [exact H1|].
  apply H4; [vm_compute; discriminate|right; left; reflexivity].
Defined.

Lemma without_fresh (ids : list Z) (t : list Rule) :
  (forall r, In r t -> ~ In (ruleId r) ids) -> without ids t = t.
Proof.
  unfold without. induction t as [|r t IH]; intros H; [reflexivity|].
  cbn [List.filter].
  assert (Hk : keeps ids r = true).
  { unfold keeps. apply negb_true_iff.
    destruct (existsb (Z.eqb (ruleId r)) ids) eqn:He; [|reflexivity].
    apply existsb_exists in He. destruct He as (i & Hi & Heq).
    apply Z.eqb_eq in Heq. exfalso. apply (H r); [now left|]. now rewrite Heq. }
  rewrite Hk. f_equal. apply IH. intros r' Hr'. apply H. now right.
Qed.

(** X7. Removing the rule of a domain undoes adding it: remove after add
    is remove alone, and on a table that held no rule with the id of the
    domain it gives the table back, in the same order. After the removal
    no rule carries the id. *)
Theorem removeDynamicBlockRule_after_add (d : string) (t : list Rule) :
  removeDynamicBlockRule d (addDynamicBlockRule d t)
  = removeDynamicBlockRule d t
  /\ ((forall r, In r t -> ruleId r <> ruleIdFor d) ->
      removeDynamicBlockRule d (addDynamicBlockRule d t) = t)
  /\ (forall r, In r (removeDynamicBlockRule d t) -> ruleId r <> ruleIdFor d).
Proof.
  assert (H1 : removeDynamicBlockRule d (addDynamicBlockRule d t)
               = removeDynamicBlockRule d t).
  { rewrite !removeDynamicBlockRule_eq, addDynamicBlockRule_eq, without_app.
    rewrite without_idem.
    assert (Hb : without [ruleIdFor d] [blockRule d] = []).
    { apply without_all. intros r [<-|[]]. now left. }
    rewrite Hb. apply app_nil_r. }
  split; [exact H1|]. split.
  - intros Hf. rewrite H1, removeDynamicBlockRule_eq.
    apply without_fresh. intros r Hr [Hi|[]]. apply (Hf r Hr). now symmetry.
  - intros r Hr. now apply In_removeDynamicBlockRule in Hr.
Qed.

Lemma removeDynamicBlockRule_after_add_witness :
  removeDynamicBlockRule "youtube.com"
    (addDynamicBlockRule "youtube.com" [blockRule "instagram.com"])
  = [blockRule "instagram.com"].
Proof.
  apply (proj1 (proj2 (removeDynamicBlockRule_after_add "youtube.com"
                         [blockRule "instagram.com"]))).
  intros r [<-|[]]. vm_compute. discriminate.
Defined.

(** X8. Rule ids are not unique per domain. When two different domains
    hash to the same id, blocking the second replaces the block rule of the
    first, and removing the rule of one of them (a domain deleted from the
    settings) removes the block of the other. [tiktok.com] and
    [pinterest.com] are such a pair. *)
Theorem ruleIdFor_collision (d1 d2 : string) (t : list Rule) :
  ruleIdFor d1 = ruleIdFor d2 -> d1 <> d2 ->
  ~ In (blockRule d1) (addDynamicBlockRule d2 (addDynamicBlockRule d1 t))
  /\ ~ In (blockRule d1) (removeDynamicBlockRule d2 (addDynamicBlockRule d1 t)).
Proof.
  intros Hid Hne. split.
  - intros H. apply In_addDynamicBlockRule in H.
    destruct H as [H|[_ H]].
    + apply blockRule_inj in H. contradiction.
    + apply H. exact Hid.
  - intros H. apply In_removeDynamicBlockRule in H.
    destruct H as [_ H]. apply H. exact Hid.
Qed.

Lemma ruleIdFor_collision_witness :
  ruleIdFor "tiktok.com" = 10395 /\ ruleIdFor "pinterest.com" = 10395
  /\ ~ In (blockRule "tiktok.com")
       (addDynamicBlockRule "pinterest.com"
          (addDynamicBlockRule "tiktok.com" []))
  /\ ~ In (blockRule "tiktok.com")
       (removeDynamicBlockRule "pinterest.com"
          (addDynamicBlockRule "tiktok.com" [])).
Proof.
  split; [vm_compute; reflexivity|]. split; [vm_compute; reflexivity|].
  apply (ruleIdFor_collision "tiktok.com" "pinterest.com" []).
  - vm_compute. reflexivity.
  - discriminate.
Defined.

(** ** What a reconciliation pass keeps and what it adds *)

Lemma reachedIds_elim (m : Mem) (domains : list string) (i : Z) :
  In i (reachedIds m domains) ->
  exists d, In d domains /\ limitReached m d = true /\ ruleIdFor d = i.
Proof.
  induction domains as [|d ds IH]; simpl; [tauto|].
  destruct (limitReached m d) eqn:Hl.
  - intros [<-|H].
    + exists d. auto.
    + destruct (IH H) as (d' & Hd' & Hl' & Hi). exists d'. auto.
  - intros H. destruct (IH H) as (d' & Hd' & Hl' & Hi). exists d'. auto.
Qed.

Lemma reachedIds_nil (m : Mem) (domains : list string) :
  (forall d, In d domains -> limitReached m d = false) ->
  reachedIds m domains = [].
Proof.
  induction domains as [|d ds IH]; intros H; [reflexivity|].
  cbn [reachedIds]. rewrite (H d) by now left.
  apply IH. intros d' Hd'. apply H. now right.
Qed.

(** X9. [checkLimits] never unblocks: a rule of the table stays in it
    unless its id is the id of a tracked domain that is at or over its
    limit (whose rule is then rewritten), so a domain whose usage is below
    its limit keeps the rule it has; when no tracked domain has reached
    its limit the table is returned as it is. *)
Theorem checkLimits_never_unblocks (m : Mem) (t : list Rule) :
  (forall r, In r t ->
     (forall d, In d (getTrackedDomains m) -> limitReached m d = true ->
                ruleIdFor d <> ruleId r) ->
     In r (checkLimitsOn m t))
  /\ ((forall d, In d (getTrackedDomains m) -> limitReached m d = false) ->
      checkLimitsOn m t = t).
Proof.
  split.
  - intros r Hr Hfree. rewrite checkLimitsOn_split. apply in_or_app. left.
    apply In_without_iff. split; [exact Hr|].
    intros Hi. apply reachedIds_elim in Hi.
    destruct Hi as (d & Hd & Hl & Heq). exact (Hfree d Hd Hl Heq).
  - intros Hnone. rewrite checkLimitsOn_split.
    unfold checkLimitsOn at 1.
    assert (He : fold_left (checkDomain m) (getTrackedDomains m) [] = []).
    { revert Hnone. generalize (getTrackedDomains m) as ds.
      induction ds as [|d ds IH]; intros Hnone; [reflexivity|].
      cbn [fold_left]. unfold checkDomain at 2.
      rewrite (Hnone d) by now left.
      apply IH. intros d' Hd'. apply Hnone. now right. }
    rewrite He, app_nil_r, (reachedIds_nil m _ Hnone). apply without_nil.
Qed.

Lemma checkLimits_never_unblocks_witness :
  checkLimitsOn (mkMem samplePolicy ∅ None None) [blockRule "youtube.com"]
  = [blockRule "youtube.com"].
Proof.
  apply (proj2 (checkLimits_never_unblocks (mkMem samplePolicy ∅ None None)
                  [blockRule "youtube.com"])).
  intros d [<-|[<-|[]]]; reflexivity.
Defined.

Lemma checkLoop_keeps_rule (m : Mem) (d : string) (domains : list string) :
  forall t,
    (forall d', In d' domains -> limitReached m d' = true ->
                ruleIdFor d' = ruleIdFor d -> d' = d) ->
    In (blockRule d) t ->
    In (blockRule d) (fold_left (checkDomain m) domains t).
Proof.
  induction domains as [|d' ds IH]; intros t Hinj Hin; [exact Hin|].
  cbn [fold_left]. apply IH.
  - intros x Hx. apply Hinj. now right.
  - unfold checkDomain. destruct (limitReached m d') eqn:Hl; [|exact Hin].
    apply In_addDynamicBlockRule.
    destruct (Z.eq_dec (ruleIdFor d') (ruleIdFor d)) as [He|Hne].
    + left. rewrite (Hinj d' (or_introl eq_refl) Hl He). reflexivity.
    + right. split; [exact Hin|]. cbn [blockRule ruleId]. congruence.
Qed.

Lemma checkLoop_adds_rule (m : Mem) (d : string) (domains : list string) :
  forall t,
    In d domains -> limitReached m d = true ->
    (forall d', In d' domains -> limitReached m d' = true ->
                ruleIdFor d' = ruleIdFor d -> d' = d) ->
    In (blockRule d) (fold_left (checkDomain m) domains t).
Proof.
  induction domains as [|d' ds IH]; intros t Hin Hl Hinj; [destruct Hin|].
  cbn [fold_left]. destruct Hin as [->|Hin].
  - apply checkLoop_keeps_rule.
    + intros x Hx. apply Hinj. now right.
    + unfold checkDomain. rewrite Hl. apply In_addDynamicBlockRule. now left.
  - apply IH; [exact Hin|exact Hl|].
    intros x Hx. apply Hinj. now right.
Qed.

(** X10. After a reconciliation pass every tracked domain whose usage is
    at or over its limit has its block rule in the table, provided no other
    tracked domain at its limit has the same rule id. *)
Theorem checkLimits_blocks_reached (m : Mem) (t : list Rule) (d : string) :
  In d (getTrackedDomains m) -> limitReached m d = true ->
  (forall d', In d' (getTrackedDomains m) -> limitReached m d' = true ->
              ruleIdFor d' = ruleIdFor d -> d' = d) ->
  In (blockRule d) (checkLimitsOn m t).
Proof. intros Hin Hl Hinj. now apply checkLoop_adds_rule. Qed.

Lemma checkLimits_blocks_reached_witness :
  In (blockRule "instagram.com")
    (checkLimitsOn
       (mkMem samplePolicy {[ "instagram.com" := 1200 ]} None None) []).
Proof.
  apply checkLimits_blocks_reached.
  - simpl. right. left. reflexivity.
  - vm_compute. reflexivity.
  - intros d' [<-|[<-|[]]] Hl He; [|reflexivity].
    vm_compute in Hl. discriminate Hl.
Defined.

(** X11. A full initialization ([onInstalled], [onStartup]) rebuilds the
    rule table from nothing: [removeAllDynamicBlockRules] empties any
    table, and every rule in the table after the handler is the block rule
    of a domain that is tracked in the hydrated policy and at or over its
    limit in the hydrated ledger. *)
Theorem fullInit_rebuilds_table (e : Env) (w : World) (ev : Event) :
  ev = Installed \/ ev = Startup ->
  removeAllDynamicBlockRules (rules w) = []
  /\ (forall r, In r (rules (handle e ev w)) ->
        exists d, In d (getTrackedDomains (mem (ensureInit e w)))
                  /\ limitReached (mem (ensureInit e w)) d = true
                  /\ r = blockRule d).
Proof.
  intros Hev. split; [apply removeAllDynamicBlockRules_empty|].
  intros r Hr.
  assert (Hf : rules (handle e ev w) = rules (fullInit e w))
    by (destruct Hev as [-> | ->]; reflexivity).
  rewrite Hf, fullInit_rules in Hr.
  apply checkLoop_In in Hr. destruct Hr as [[]|Hr]. exact Hr.
Qed.

Lemma fullInit_rebuilds_table_witness :
  removeAllDynamicBlockRules (rules blockedYesterday) = [].
Proof.
  exact (proj1 (fullInit_rebuilds_table afterMidnight blockedYesterday Startup
                  (or_intror eq_refl))).
Defined.

(** ** Listeners *)

Lemma flushActiveTimer_tracked (now : Z) (m : Mem) :
  getTrackedDomains (flushActiveTimer now m) = getTrackedDomains m.
Proof.
  unfold getTrackedDomains. now rewrite flushActiveTimer_settings.
Qed.

Lemma flushActiveTimer_limit (now : Z) (m : Mem) (d : string) :
  getLimitSeconds (flushActiveTimer now m) d = getLimitSeconds m d.
Proof.
  unfold getLimitSeconds. now rewrite flushActiveTimer_settings.
Qed.

(** X12. The alarm tick enforces the limit. When, after hydration, the
    timer runs on a tracked domain and the stored usage plus the elapsed
    time (rounded to seconds) reaches the limit of the domain, the block
    rule of the domain is in the table after the [persist-timer] alarm,
    provided no other tracked domain has the same rule id. *)
Theorem alarm_tick_blocks_at_limit
  (e : Env) (w : World) (d : string) (start limit : Z) :
  let m0 := mem (ensureInit e w) in
  activeDomain m0 = Some d -> activeStart m0 = Some start ->
  d <> EmptyString -> 0 < start -> start <= nowMs e ->
  In d (getTrackedDomains m0) ->
  getLimitSeconds m0 d = Some limit ->
  limit <= usageOf (todayUsage m0) d + elapsedSeconds (nowMs e) start ->
  (forall d', In d' (getTrackedDomains m0) ->
              ruleIdFor d' = ruleIdFor d -> d' = d) ->
  In (blockRule d) (rules (handle e (Alarm "persist-timer") w)).
Proof.
  intros m0 Hd Hs Hne Hpos Hle Hin Hlim Hreach Hinj.
  change (handle e (Alarm "persist-timer") w)
    with (checkLimits (persistUsage e (ensureInit e w))).
  unfold checkLimits. cbn [rules withRules]. rewrite mem_persistUsage.
  fold m0. unfold checkLimitsOn. rewrite flushActiveTimer_tracked.
  apply checkLoop_adds_rule; [exact Hin| |].
  - unfold limitReached. rewrite flushActiveTimer_limit, Hlim.
    rewrite (flushActiveTimer_usage (nowMs e) start d d m0);
      [|now repeat split|exact Hpos|exact Hle].
    rewrite String.eqb_refl. unfold elapsedSeconds in Hreach.
    apply Z.leb_le. exact Hreach.
  - intros d' Hd' _ He. now apply Hinj.
Qed.

Lemma alarm_tick_blocks_at_limit_witness :
  In (blockRule "youtube.com")
    (rules (handle evening2231 (Alarm "persist-timer")
              (handle evening2200
                 (TabActivated (Some (Some "https://www.youtube.com/")))
                 sampleWorld))).
Proof.
  apply (alarm_tick_blocks_at_limit evening2231 _ "youtube.com"
           (nowMs evening2200) 1800).
  - reflexivity.
  - reflexivity.
  - discriminate.
  - reflexivity.
  - vm_compute. discriminate.
  - simpl. left. reflexivity.
  - reflexivity.
  - vm_compute. discriminate.
  - intros d' [<-|[<-|[]]] He; [reflexivity|].
    vm_compute in He. discriminate He.
Defined.

(** X13. Focus resolution. After [tabs.onActivated] for a tab whose lookup
    succeeds, the timer runs on a domain exactly when [getDomain] of the
    tab's URL is that domain, it is not the empty string and it is a key of
    the hydrated policy; every other URL (one that does not parse, a host
    that is not tracked, an empty host) leaves no domain active. Losing
    focus to no window leaves no domain active, and a navigation in a tab
    that is not the active one leaves the hydrated timer as it is. *)
Theorem focus_resolution (e : Env) (w : World) (url : option string) :
  let m0 := mem (ensureInit e w) in
  (forall d,
     activeDomain (mem (handle e (TabActivated (Some url)) w)) = Some d <->
     getDomain (urlOrEmpty url) = Some d /\ d <> EmptyString
     /\ In d (getTrackedDomains m0))
  /\ activeDomain (mem (handle e (WindowFocusChanged WindowNone) w)) = None
  /\ activeStart (mem (handle e (WindowFocusChanged WindowNone) w)) = None
  /\ (forall u, Js.truthyStr (Some u) = true ->
        mem (handle e (TabUpdated (Some u) false) w) = m0).
Proof.
  intros m0. split; [|split; [|split]].
  - intros d. cbn [handle].
    pose proof (mem_setActiveDomain e (getDomain (urlOrEmpty url))
                  (ensureInit e w)) as Hm. cbn zeta in Hm.
    rewrite Hm. cbn [activeDomain]. apply activeAfter_Some.
  - cbn [handle].
    pose proof (mem_setActiveDomain e None (ensureInit e w)) as Hm.
    cbn zeta in Hm. rewrite Hm. reflexivity.
  - cbn [handle].
    pose proof (mem_setActiveDomain e None (ensureInit e w)) as Hm.
    cbn zeta in Hm. rewrite Hm. reflexivity.
  - intros u Hu. cbn [handle]. rewrite Hu. reflexivity.
Qed.

Lemma focus_resolution_witness :
  activeDomain
    (mem (handle morning1000
            (TabActivated (Some (Some "https://www.instagram.com/reels")))
            sampleWorld))
  = Some "instagram.com"
  /\ mem (handle morning1000 (TabUpdated (Some "https://example.org/") false)
            sampleWorld)
     = mem (ensureInit morning1000 sampleWorld).
Proof.
  destruct (focus_resolution morning1000 sampleWorld
              (Some "https://www.instagram.com/reels")) as (H1 & _ & _ & H4).
  split.
  - apply H1. split; [reflexivity|]. split; [discriminate|].
    simpl. right. left. reflexivity.
  - apply H4. reflexivity.
Defined.

(* ===================================================================== *)
(** * Calendar days and storage keys *)
(* ===================================================================== *)

Lemma allFrom_spec (f : Z -> bool) (n : nat) :
  forall z, allFrom f n z = true ->
            forall x, z <= x < z + Z.of_nat n -> f x = true.
Proof.
  induction n as [|k IH]; intros z H x Hx; [lia|].
  cbn [allFrom] in H. apply andb_true_iff in H. destruct H as [Hz Hr].
  destruct (Z.eq_dec x z) as [->|Hne]; [exact Hz|].
  apply (IH (z + 1) Hr). lia.
Qed.

Lemma fieldOk2_all : allFrom fieldOk2 31 1 = true.
Proof. vm_compute. reflexivity. Qed.

Lemma yearOk_all : allFrom yearOk (Z.to_nat 9000) 1000 = true.
Proof. vm_compute. reflexivity. Qed.

(** The date of a day number has its month and day in range and converts
    back to the day number. *)
Lemma civil_roundtrip (z0 : Z) :
  let '(y, m, d) := JsDate.civilFromDays z0 in
  1 <= m <= 12 /\ 1 <= d <= 31 /\ JsDate.daysFromCivil y m d = z0.
Proof.
  unfold JsDate.civilFromDays, JsDate.daysFromCivil. cbv zeta.
  remember (z0 + 719468) as z eqn:Hz.
  remember (z / 146097) as era eqn:Hera.
  remember (z - era * 146097) as doe eqn:Hdoe.
  remember ((doe - doe / 1460 + doe / 36524 - doe / 146096) / 365)
    as yoe eqn:Hyoe.
  remember (doe - (365 * yoe + yoe / 4 - yoe / 100)) as doy eqn:Hdoy.
  remember ((5 * doy + 2) / 153) as mp eqn:Hmp.
  assert (Hb : 0 <= doe < 146097).
  { subst doe era. pose proof (Z.mod_pos_bound z 146097 ltac:(lia)) as H.
    rewrite Z.mod_eq in H by lia. lia. }
  assert (Hy : 0 <= yoe <= 399 /\ 0 <= doy <= 365).
  { subst doy yoe. clear -Hb. Z.div_mod_to_equations. lia. }
  assert (Hm : 0 <= mp <= 11).
  { subst mp. clear -Hy. Z.div_mod_to_equations. lia. }
  assert (Hd : 1 <= doy - (153 * mp + 2) / 5 + 1 <= 31).
  { subst mp. clear -Hy. Z.div_mod_to_equations. lia. }
  destruct (Z.ltb_spec mp 10) as [H10|H10].
  - destruct (Z.leb_spec (mp + 3) 2) as [H2|H2]; [lia|].
    destruct (Z.ltb_spec 2 (mp + 3)) as [H3|H3]; [|lia].
    replace (mp + 3 - 3) with mp by lia.
    split; [lia|]. split; [exact Hd|].
    replace ((yoe + era * 400) / 400) with era
      by (clear -Hy; Z.div_mod_to_equations; lia).
    replace (yoe + era * 400 - era * 400) with yoe by lia.
    lia.
  - destruct (Z.leb_spec (mp - 9) 2) as [H2|H2]; [|lia].
    destruct (Z.ltb_spec 2 (mp - 9)) as [H3|H3]; [lia|].
    replace (mp - 9 + 9) with mp by lia.
    split; [lia|]. split; [exact Hd|].
    replace ((yoe + era * 400 + 1 - 1) / 400) with era
      by (clear -Hy; Z.div_mod_to_equations; lia).
    replace (yoe + era * 400 + 1 - 1 - era * 400) with yoe by lia.
    lia.
Qed.

(** ** Strings made of fields *)

Lemma append_nil_r (s : string) : s ++ EmptyString = s.
Proof.
  induction s as [|c s IH]; [reflexivity|].
  rewrite append_String. now rewrite IH.
Qed.

Lemma prefix_append (p r : string) : String.prefix p (p ++ r) = true.
Proof.
  induction p as [|c p IH].
  - rewrite append_empty. destruct r; reflexivity.
  - rewrite append_String. cbn [String.prefix].
    destruct (ascii_dec c c) as [_|Hn]; [exact IH|contradiction].
Qed.

Lemma substring_full (s : string) : String.substring 0 (String.length s) s = s.
Proof.
  induction s as [|c s IH]; [reflexivity|].
  cbn [String.length String.substring]. now rewrite IH.
Qed.

Lemma length_append (p r : string) :
  String.length (p ++ r) = (String.length p + String.length r)%nat.
Proof.
  induction p as [|c p IH]; [reflexivity|].
  rewrite append_String. cbn [String.length]. now rewrite IH.
Qed.

Lemma dropChars_append (p r : string) :
  Js.dropChars (String.length p) (p ++ r) = r.
Proof.
  unfold Js.dropChars. rewrite length_append.
  replace (String.length p + String.length r - String.length p)%nat
    with (String.length r) by lia.
  induction p as [|c p IH].
  - rewrite append_empty. apply substring_full.
  - rewrite append_String. cbn [String.length String.substring]. exact IH.
Qed.

Lemma removeFirst_prefix (p r : string) : Js.removeFirst p (p ++ r) = r.
Proof.
  pose proof (prefix_append p r) as Hp. pose proof (dropChars_append p r) as Hd.
  destruct (p ++ r) as [|c s]; cbn [Js.removeFirst]; rewrite Hp; exact Hd.
Qed.

Lemma digit_not_sep (sep c : ascii) :
  JsDate.isDigit sep = false -> JsDate.isDigit c = true -> Ascii.eqb c sep = false.
Proof.
  intros Hs Hc. destruct (Ascii.eqb_spec c sep) as [->|_]; [congruence|reflexivity].
Qed.

Lemma splitGo_field (sep : ascii) (a rest : string) :
  JsDate.isDigit sep = false -> JsDate.allDigits a = true ->
  forall cur,
    Js.splitGo sep cur (a ++ String sep rest)
    = (cur ++ a) :: Js.splitGo sep EmptyString rest.
Proof.
  intros Hs. induction a as [|c a IH]; intros Ha cur.
  - rewrite append_empty, append_nil_r. cbn [Js.splitGo].
    now rewrite Ascii.eqb_refl.
  - cbn [JsDate.allDigits] in Ha. apply andb_true_iff in Ha.
    destruct Ha as [Hc Ha].
    rewrite append_String. cbn [Js.splitGo].
    rewrite (digit_not_sep sep c Hs Hc), (IH Ha).
    rewrite append_assoc, append_String, append_empty. reflexivity.
Qed.

Lemma splitGo_end (sep : ascii) (a : string) :
  JsDate.isDigit sep = false -> JsDate.allDigits a = true ->
  forall cur, Js.splitGo sep cur a = [cur ++ a].
Proof.
  intros Hs. induction a as [|c a IH]; intros Ha cur.
  - now rewrite append_nil_r.
  - cbn [JsDate.allDigits] in Ha. apply andb_true_iff in Ha.
    destruct Ha as [Hc Ha]. cbn [Js.splitGo].
    rewrite (digit_not_sep sep c Hs Hc), (IH Ha).
    rewrite append_assoc, append_String, append_empty. reflexivity.
Qed.

(** Three fields of digits joined by a separator that is not a digit split
    back into the three fields. *)
Lemma split_three (sep : ascii) (a b c : string) :
  JsDate.isDigit sep = false ->
  JsDate.allDigits a = true -> JsDate.allDigits b = true ->
  JsDate.allDigits c = true ->
  Js.split sep (a ++ String sep (b ++ String sep c)) = [a; b; c].
Proof.
  intros Hs Ha Hb Hc. unfold Js.split.
  rewrite (splitGo_field sep a _ Hs Ha), (splitGo_field sep b _ Hs Hb).
  rewrite (splitGo_end sep c Hs Hc). now rewrite !append_empty.
Qed.

(** ** The key of a day *)

Lemma month_day_fields (n : Z) :
  1 <= n <= 31 ->
  let s := Js.padStart2 (Js.stringOfInt n) in
  String.length s = 2%nat /\ JsDate.allDigits s = true
  /\ JsDate.digitsValue 0 s = n.
Proof.
  intros Hn s.
  pose proof (allFrom_spec fieldOk2 31 1 fieldOk2_all n ltac:(lia)) as H.
  unfold fieldOk2 in H. fold s in H.
  apply andb_true_iff in H. destruct H as [H H3].
  apply andb_true_iff in H. destruct H as [H1 H2].
  apply Nat.eqb_eq in H1. apply Z.eqb_eq in H3. auto.
Qed.

Lemma year_field (y : Z) :
  1000 <= y <= 9999 ->
  let s := Js.stringOfInt y in
  String.length s = 4%nat /\ JsDate.allDigits s = true
  /\ JsDate.digitsValue 0 s = y.
Proof.
  intros Hy s.
  pose proof (allFrom_spec yearOk (Z.to_nat 9000) 1000 yearOk_all y
                ltac:(lia)) as H.
  unfold yearOk in H. fold s in H.
  apply andb_true_iff in H. destruct H as [H H3].
  apply andb_true_iff in H. destruct H as [H1 H2].
  apply Nat.eqb_eq in H1. apply Z.eqb_eq in H3. auto.
Qed.

Lemma todayKey_fields (e : Env) :
  exists y m d,
    JsDate.civilFromDays (localDay e) = (y, m, d)
    /\ 1 <= m <= 12 /\ 1 <= d <= 31
    /\ JsDate.daysFromCivil y m d = localDay e
    /\ todayKey e
       = "usage_" ++ Js.stringOfInt y ++ "_"
         ++ Js.padStart2 (Js.stringOfInt m) ++ "_"
         ++ Js.padStart2 (Js.stringOfInt d).
Proof.
  pose proof (civil_roundtrip (localDay e)) as H. unfold todayKey.
  destruct (JsDate.civilFromDays (localDay e)) as [[y m] d].
  exists y, m, d. tauto.
Qed.

(** The instant read back from the key of a day whose year has four
    digits is the UTC midnight of that day. *)
Lemma keyInstant_todayKey (e : Env) :
  1000 <= localYear e <= 9999 ->
  Js.split "_" (Js.removeFirst "usage_" (todayKey e))
  = [Js.stringOfInt (localYear e);
     Js.padStart2 (Js.stringOfInt (snd (fst (JsDate.civilFromDays (localDay e)))));
     Js.padStart2 (Js.stringOfInt (snd (JsDate.civilFromDays (localDay e))))]
  /\ keyInstant (todayKey e) = Some (localDay e * JsDate.msPerDay).
Proof.
  intros Hy. unfold keyInstant, localYear in *.
  destruct (todayKey_fields e) as (y & m & d & Hc & Hm & Hd & Hr & Hk).
  rewrite Hc in *. cbn [fst snd] in *.
  destruct (year_field y Hy) as (Ly & Dy & Vy).
  destruct (month_day_fields m ltac:(lia)) as (Lm & Dm & Vm).
  destruct (month_day_fields d Hd) as (Ld & Dd & Vd).
  cbv zeta in Ly, Dy, Vy, Lm, Dm, Vm, Ld, Dd, Vd.
  set (ys := Js.stringOfInt y) in *.
  set (ms := Js.padStart2 (Js.stringOfInt m)) in *.
  set (ds := Js.padStart2 (Js.stringOfInt d)) in *.
  assert (Hs : Js.split "_" (Js.removeFirst "usage_" (todayKey e))
               = [ys; ms; ds]).
  { rewrite Hk, removeFirst_prefix.
    change ("_" ++ ms ++ "_" ++ ds) with (String "_" (ms ++ String "_" ds)).
    now apply split_three. }
  split; [exact Hs|].
  rewrite Hs. unfold sweepDateStringOriginal, Js.templateAt. cbn [nth].
  change (ys ++ "-" ++ ms ++ "-" ++ ds)
    with (ys ++ String "-" (ms ++ String "-" ds)).
  unfold JsDate.parse. rewrite split_three by (reflexivity || assumption).
  rewrite Ly, Lm, Ld, Dy, Dm, Dd, Vy, Vm, Vd. cbn [Nat.eqb andb].
  destruct (Z.leb_spec 1 m); [|lia]. destruct (Z.leb_spec m 12); [|lia].
  destruct (Z.leb_spec 1 d); [|lia]. destruct (Z.leb_spec d 31); [|lia].
  cbn [andb]. now rewrite Hr.
Qed.

(** X14. One ledger key per local calendar day. For instants whose local
    year has four digits, two instants get the same key from [todayKey]
    exactly when they fall on the same local day; the key has 16
    characters, starts with [usage_] and is neither of the two timer
    keys, so the three writes of [persistUsage] never overwrite one
    another. *)
Theorem todayKey_one_per_day (e1 e2 : Env) :
  1000 <= localYear e1 <= 9999 -> 1000 <= localYear e2 <= 9999 ->
  (todayKey e1 = todayKey e2 <-> localDay e1 = localDay e2)
  /\ String.length (todayKey e1) = 16%nat
  /\ Js.startsWith (todayKey e1) "usage_" = true
  /\ todayKey e1 <> "activeDomain" /\ todayKey e1 <> "activeStart".
Proof.
  intros H1 H2.
  destruct (keyInstant_todayKey e1 H1) as [_ K1].
  destruct (keyInstant_todayKey e2 H2) as [_ K2].
  split; [split|].
  - intros Hk. rewrite Hk, K2 in K1. injection K1 as K1.
    unfold JsDate.msPerDay in K1. lia.
  - intros Hd. unfold todayKey. now rewrite Hd.
  - destruct (todayKey_fields e1) as (y & m & d & Hc & Hm & Hd & _ & Hk).
    unfold localYear in H1. rewrite Hc in H1. cbn [fst] in H1.
    destruct (year_field y H1) as (Ly & _).
    destruct (month_day_fields m ltac:(lia)) as (Lm & _).
    destruct (month_day_fields d Hd) as (Ld & _).
    cbv zeta in Ly, Lm, Ld.
    split.
    + rewrite Hk, !length_append, Ly, Lm, Ld. reflexivity.
    + split; [|apply todayKey_not_timer_key].
      unfold Js.startsWith. rewrite Hk. apply prefix_append.
Qed.

Lemma todayKey_one_per_day_witness :
  todayKey evening2200 = todayKey evening2300
  /\ String.length (todayKey evening2200) = 16%nat.
Proof.
  assert (H1 : 1000 <= localYear evening2200 <= 9999)
    by (vm_compute; split; discriminate).
  assert (H2 : 1000 <= localYear evening2300 <= 9999)
    by (vm_compute; split; discriminate).
  destruct (todayKey_one_per_day evening2200 evening2300 H1 H2)
    as (Hk & Hl & _).
  split; [|exact Hl]. apply Hk. reflexivity.
Defined.

(** ** The retention sweep of the first revision *)




Lemma lookup_storageRemove_In (ks : list string) (l : gmap string JsVal)
  (k : string) :
  In k ks -> storageRemove ks l !! k = None.
Proof.
  unfold storageRemove. induction ks as [|k' ks IH]; intros H; [destruct H|].
  cbn [foldr]. destruct (String.eqb_spec k' k) as [->|Hne].
  - apply lookup_delete_eq.
  - rewrite lookup_delete_ne by exact Hne. apply IH.
    destruct H as [H|H]; [contradiction|exact H].
Qed.

Lemma lookup_storageRemove_notIn (ks : list string) (l : gmap string JsVal)
  (k : string) :
  ~ In k ks -> storageRemove ks l !! k = l !! k.
Proof.
  unfold storageRemove. induction ks as [|k' ks IH]; intros H; [reflexivity|].
  cbn [foldr]. rewrite lookup_delete_ne by (intros ->; apply H; now left).
  apply IH. intros Hin. apply H. now right.
Qed.

Lemma In_keys (l : gmap string JsVal) (k : string) :
  In k (map fst (map_to_list l)) <-> is_Some (l !! k).
Proof.
  rewrite in_map_iff. split.
  - intros ([k' v] & Hk & Hin). cbn in Hk. subst k'.
    apply list_elem_of_In, elem_of_map_to_list in Hin. now exists v.
  - intros [v Hv]. exists (k, v). split; [reflexivity|].
    apply list_elem_of_In, elem_of_map_to_list. exact Hv.
Qed.

(** X16. On the store, the sweep of the first revision deletes exactly the
    keys its loop selects: afterwards a selected key is absent and every
    other key holds what it held; a key that does not start with [usage_]
    (the timer snapshot, for one) is never selected; the globals, the
    synced settings and the rule table are not touched. *)
Theorem cleanupOldUsageOriginal_exact (e : Env) (w : World) :
  (forall k, localStore (cleanupOldUsageOriginal e w) !! k
             = if sweepSelectsOriginal e k then None else localStore w !! k)
  /\ (forall k, Js.startsWith k "usage_" = false ->
                sweepSelectsOriginal e k = false)
  /\ mem (cleanupOldUsageOriginal e w) = mem w
  /\ syncSettings (cleanupOldUsageOriginal e w) = syncSettings w
  /\ rules (cleanupOldUsageOriginal e w) = rules w.
Proof.
  assert (Hl : localStore (cleanupOldUsageOriginal e w)
               = storageRemove (keysToRemoveOriginal e (localStore w))
                   (localStore w)).
  { unfold cleanupOldUsageOriginal.
    destruct (keysToRemoveOriginal e (localStore w)); reflexivity. }
  split; [|split; [|unfold cleanupOldUsageOriginal;
                    destruct (_ <? _)%nat; repeat split]].
  - intros k. rewrite Hl.
    destruct (sweepSelectsOriginal e k) eqn:Hs.
    + destruct (localStore w !! k) as [v|] eqn:Hv.
      * apply lookup_storageRemove_In. unfold keysToRemoveOriginal.
        apply List.filter_In. split; [|exact Hs].
        apply In_keys. now exists v.
      * rewrite lookup_storageRemove_notIn; [exact Hv|].
        unfold keysToRemoveOriginal. rewrite List.filter_In, In_keys, Hv.
        intros [[v Hv'] _]. discriminate.
    + apply lookup_storageRemove_notIn.
      unfold keysToRemoveOriginal. rewrite List.filter_In. intros [_ H].
      congruence.
  - intros k Hk. unfold sweepSelectsOriginal. now rewrite Hk.
Qed.

Lemma cleanupOldUsageOriginal_exact_witness :
  sweepSelectsOriginal afterMidnight "activeDomain" = false.
Proof.
  apply (proj1 (proj2 (cleanupOldUsageOriginal_exact afterMidnight
                         oldLedgersWorld))).
  reflexivity.
Defined.

(* ===================================================================== *)
(** * The settings page and the popup *)
(* ===================================================================== *)

(** ** [formatTime] *)

Lemma shownOk_all : allFrom shownOk (Z.to_nat 3600) 0 = true.
Proof. vm_compute. reflexivity. Qed.

Lemma shown_digits (n : Z) :
  0 <= n < 3600 ->
  JsDate.allDigits (Js.stringOfInt n) = true
  /\ JsDate.digitsValue 0 (Js.stringOfInt n) = n.
Proof.
  intros Hn.
  pose proof (allFrom_spec shownOk (Z.to_nat 3600) 0 shownOk_all n
                ltac:(lia)) as H.
  unfold shownOk in H. cbv zeta in H.
  apply andb_true_iff in H. destruct H as [H1 H2].
  apply Z.eqb_eq in H2. auto.
Qed.

Lemma stringOfInt_inj (a b : Z) :
  0 <= a < 3600 -> 0 <= b < 3600 ->
  Js.stringOfInt a = Js.stringOfInt b -> a = b.
Proof.
  intros Ha Hb H.
  rewrite <- (proj2 (shown_digits a Ha)), <- (proj2 (shown_digits b Hb)).
  now rewrite H.
Qed.

(** A run of digits followed by a character that is not a digit is read
    off a string in one way only. *)
Lemma digits_prefix_unique (a1 : string) :
  forall (a2 r1 r2 : string) (c1 c2 : ascii),
    JsDate.allDigits a1 = true -> JsDate.allDigits a2 = true ->
    JsDate.isDigit c1 = false -> JsDate.isDigit c2 = false ->
    a1 ++ String c1 r1 = a2 ++ String c2 r2 ->
    a1 = a2 /\ c1 = c2 /\ r1 = r2.
Proof.
  induction a1 as [|x a1 IH]; intros a2 r1 r2 c1 c2 H1 H2 N1 N2 H.
  - destruct a2 as [|y a2].
    + rewrite !append_empty in H. injection H as -> ->. auto.
    + rewrite append_empty, append_String in H. injection H as -> _.
      cbn [JsDate.allDigits] in H2. apply andb_true_iff in H2.
      destruct H2 as [H2 _]. congruence.
  - cbn [JsDate.allDigits] in H1. apply andb_true_iff in H1.
    destruct H1 as [Hx H1].
    destruct a2 as [|y a2].
    + rewrite append_empty, append_String in H. injection H as -> _.
      congruence.
    + cbn [JsDate.allDigits] in H2. apply andb_true_iff in H2.
      destruct H2 as [_ H2].
      rewrite !append_String in H. injection H as -> H.
      destruct (IH a2 r1 r2 c1 c2 H1 H2 N1 N2 H) as (-> & -> & ->). auto.
Qed.

Lemma formatTime_seconds (a : Z) :
  a < 60 -> Ui.formatTime a = Js.stringOfInt a ++ String "s" EmptyString.
Proof.
  intros H. unfold Ui.formatTime.
  destruct (Z.ltb_spec a 60); [reflexivity|lia].
Qed.

Lemma formatTime_minutes (a : Z) :
  60 <= a < 3600 ->
  Ui.formatTime a
  = Js.stringOfInt (a / 60)
    ++ String "m" (String " " (Js.stringOfInt (a mod 60)
                                 ++ String "s" EmptyString))
  /\ 1 <= a / 60 < 60 /\ 0 <= a mod 60 < 60.
Proof.
  intros H. unfold Ui.formatTime, Js.remainder.
  destruct (Z.ltb_spec a 60); [lia|].
  assert (Hq : 1 <= a / 60 < 60) by (Z.div_mod_to_equations; lia).
  destruct (Z.ltb_spec (a / 60) 60); [|lia].
  rewrite Z.rem_mod_nonneg by lia.
  split; [reflexivity|]. split; [exact Hq|].
  apply Z.mod_pos_bound. lia.
Qed.

(** X17. [formatTime] shows a duration below one hour exactly: two
    different numbers of seconds in that range never print the same. From
    one hour on it shows hours and minutes only, so durations with the same
    number of whole minutes print the same; and the minutes and seconds it
    prints for a duration below one hour add up to the duration. *)
Theorem formatTime_precision (a b : Z) :
  (0 <= a < 3600 -> 0 <= b < 3600 ->
   Ui.formatTime a = Ui.formatTime b -> a = b)
  /\ (3600 <= a -> 3600 <= b -> a / 60 = b / 60 ->
      Ui.formatTime a = Ui.formatTime b)
  /\ (60 <= a < 3600 ->
      Ui.formatTime a
      = Js.stringOfInt (a / 60) ++ "m " ++ Js.stringOfInt (a mod 60) ++ "s"
      /\ 60 * (a / 60) + a mod 60 = a).
Proof.
  split; [|split].
  - intros Ha Hb H.
    destruct (Z.lt_ge_cases a 60) as [La|La];
      destruct (Z.lt_ge_cases b 60) as [Lb|Lb].
    + rewrite (formatTime_seconds a La), (formatTime_seconds b Lb) in H.
      destruct (shown_digits a Ha) as [Da _], (shown_digits b Hb) as [Db _].
      apply digits_prefix_unique in H; try assumption; try reflexivity.
      destruct H as (H & _). now apply stringOfInt_inj.
    + exfalso. rewrite (formatTime_seconds a La) in H.
      destruct (formatTime_minutes b ltac:(lia)) as (Fb & Qb & Rb).
      rewrite Fb in H.
      destruct (shown_digits a Ha) as [Da _].
      destruct (shown_digits (b / 60) ltac:(lia)) as [Db _].
      apply digits_prefix_unique in H; try assumption; try reflexivity.
      destruct H as (_ & H & _). discriminate H.
    + exfalso. rewrite (formatTime_seconds b Lb) in H.
      destruct (formatTime_minutes a ltac:(lia)) as (Fa & Qa & Ra).
      rewrite Fa in H.
      destruct (shown_digits b Hb) as [Db _].
      destruct (shown_digits (a / 60) ltac:(lia)) as [Da _].
      apply digits_prefix_unique in H; try assumption; try reflexivity.
      destruct H as (_ & H & _). discriminate H.
    + destruct (formatTime_minutes a ltac:(lia)) as (Fa & Qa & Ra).
      destruct (formatTime_minutes b ltac:(lia)) as (Fb & Qb & Rb).
      rewrite Fa, Fb in H.
      destruct (shown_digits (a / 60) ltac:(lia)) as [Da _].
      destruct (shown_digits (b / 60) ltac:(lia)) as [Db _].
      apply digits_prefix_unique in H; try assumption; try reflexivity.
      destruct H as (Hm & _ & Hr).
      apply stringOfInt_inj in Hm; [|lia|lia].
      injection Hr as Hr.
      destruct (shown_digits (a mod 60) ltac:(lia)) as [Sa _].
      destruct (shown_digits (b mod 60) ltac:(lia)) as [Sb _].
      apply digits_prefix_unique in Hr; try assumption; try reflexivity.
      destruct Hr as (Hs & _).
      apply stringOfInt_inj in Hs; [|lia|lia].
      pose proof (Z.div_mod a 60 ltac:(lia)).
      pose proof (Z.div_mod b 60 ltac:(lia)). lia.
  - intros Ha Hb Hq. unfold Ui.formatTime.
    destruct (Z.ltb_spec a 60); [lia|]. destruct (Z.ltb_spec b 60); [lia|].
    assert (60 <= a / 60) by (Z.div_mod_to_equations; lia).
    assert (60 <= b / 60) by (Z.div_mod_to_equations; lia).
    destruct (Z.ltb_spec (a / 60) 60); [lia|].
    destruct (Z.ltb_spec (b / 60) 60); [lia|].
    now rewrite Hq.
  - intros Ha. destruct (formatTime_minutes a Ha) as (Fa & _).
    split; [exact Fa|].
    pose proof (Z.div_mod a 60 ltac:(lia)). lia.
Qed.

Lemma formatTime_precision_witness :
  Ui.formatTime 3725 = Ui.formatTime 3779
  /\ Ui.formatTime 125 = "2m 5s".
Proof.
  destruct (formatTime_precision 3725 3779) as (_ & H2 & _).
  split.
  - apply H2; [lia|lia|reflexivity].
  - reflexivity.
Defined.

Example formatTime_samples :
  Ui.formatTime 0 = "0s" /\ Ui.formatTime 59 = "59s"
  /\ Ui.formatTime 60 = "1m 0s" /\ Ui.formatTime 3599 = "59m 59s"
  /\ Ui.formatTime 3600 = "1h 0m" /\ Ui.formatTime 86399 = "23h 59m".
Proof. by_evaluation. Qed.

(** ** Adding and removing a domain *)

Lemma lookupEntry_objInsertNew (d k : string) (v : DomainSettings)
  (l : list (string * DomainSettings)) :
  lookupEntry d l = None ->
  lookupEntry k (Ui.objInsertNew d v l)
  = if String.eqb d k then Some v else lookupEntry k l.
Proof.
  induction l as [|[x w] l IH]; intros Hd.
  - cbn [Ui.objInsertNew lookupEntry]. reflexivity.
  - cbn [lookupEntry] in Hd. destruct (String.eqb_spec x d) as [->|Hxd];
      [discriminate|].
    cbn [Ui.objInsertNew].
    destruct (Ui.isArrayIndex d && _); cbn [lookupEntry].
    + reflexivity.
    + rewrite (IH Hd). destruct (String.eqb_spec x k) as [->|Hxk]; [|reflexivity].
      destruct (String.eqb_spec d k) as [->|_]; [contradiction|reflexivity].
Qed.

Lemma lookupEntry_objDelete (d k : string)
  (l : list (string * DomainSettings)) :
  lookupEntry k (Ui.objDelete d l)
  = if String.eqb d k then None else lookupEntry k l.
Proof.
  induction l as [|[x w] l IH]; [cbn; now destruct (String.eqb d k)|].
  cbn [Ui.objDelete lookupEntry].
  destruct (String.eqb_spec x d) as [->|Hxd].
  - rewrite IH. destruct (String.eqb_spec d k); reflexivity.
  - cbn [lookupEntry]. rewrite IH.
    destruct (String.eqb_spec x k) as [->|Hxk]; [|reflexivity].
    destruct (String.eqb_spec d k) as [->|_]; [contradiction|reflexivity].
Qed.

Lemma objDelete_absent (d : string) (l : list (string * DomainSettings)) :
  lookupEntry d l = None -> Ui.objDelete d l = l.
Proof.
  induction l as [|[x w] l IH]; intros H; [reflexivity|].
  cbn [lookupEntry] in H. cbn [Ui.objDelete].
  destruct (String.eqb x d); [discriminate|]. now rewrite IH.
Qed.

Lemma objDelete_cons (d k : string) (w : DomainSettings)
  (r : list (string * DomainSettings)) :
  Ui.objDelete d ((k, w) :: r)
  = if String.eqb k d then Ui.objDelete d r else (k, w) :: Ui.objDelete d r.
Proof. reflexivity. Qed.

Lemma objDelete_objInsertNew (d : string) (v : DomainSettings)
  (l : list (string * DomainSettings)) :
  lookupEntry d l = None -> Ui.objDelete d (Ui.objInsertNew d v l) = l.
Proof.
  induction l as [|[x w] l IH]; intros H.
  - cbn. now rewrite String.eqb_refl.
  - pose proof H as H'. cbn [lookupEntry] in H.
    destruct (String.eqb x d) eqn:Hxd; [discriminate|].
    cbn [Ui.objInsertNew].
    destruct (Ui.isArrayIndex d && _); rewrite objDelete_cons.
    + rewrite String.eqb_refl. now apply objDelete_absent.
    + rewrite Hxd. now rewrite (IH H).
Qed.

Lemma hasTruthy_false (l : list (string * DomainSettings)) (d : string) :
  Ui.hasTruthy l d = false ->
  lookupEntry d l = None /\ Js.includes Ui.objectPrototypeNames d = false.
Proof.
  unfold Ui.hasTruthy. destruct (lookupEntry d l); [discriminate|auto].
Qed.

(** X18. [handleAddDomain] never overwrites. When the normalized text is
    empty or already names a property of [restrictedDomains] (a configured
    domain, or a name every object inherits such as [constructor]), the
    settings in the page and in storage stay as they are. Otherwise the
    domain is added with the limit of the form, every other domain keeps
    its entry, the new settings are written to the synced area, and the
    form is reset to an empty text and 30 minutes. *)
Theorem handleAddDomain_adds_fresh_only
  (p : Ui.Page) (rd : list (string * DomainSettings)) :
  restrictedDomains (Ui.dSettings (Ui.ui p)) = Some rd ->
  let d := Ui.normalizeDomain (Ui.newDomain (Ui.ui p)) in
  let p' := Ui.handleAddDomain p in
  (d = EmptyString \/ Ui.hasTruthy rd d = true ->
   Ui.dSettings (Ui.ui p') = Ui.dSettings (Ui.ui p)
   /\ Ui.pSync p' = Ui.pSync p)
  /\ (d <> EmptyString -> Ui.hasTruthy rd d = false ->
      exists rd',
        Ui.dSettings (Ui.ui p') = mkSettings (Some rd')
        /\ Ui.pSync p' = Some (mkSettings (Some rd'))
        /\ lookupEntry d rd' = Some (mkDomainSettings (Ui.newLimit (Ui.ui p)))
        /\ (forall k, k <> d -> lookupEntry k rd' = lookupEntry k rd)
        /\ Js.includes Ui.objectPrototypeNames d = false
        /\ Ui.newDomain (Ui.ui p') = EmptyString
        /\ Ui.newLimit (Ui.ui p') = 30).
Proof.
  intros Hrd d p'. subst p'. unfold Ui.handleAddDomain. fold d. rewrite Hrd.
  split.
  - intros [He|Ht].
    + rewrite He. cbn [String.eqb]. auto.
    + destruct (String.eqb d EmptyString); [auto|]. rewrite Ht. auto.
  - intros Hne Hf. apply String.eqb_neq in Hne. rewrite Hne, Hf.
    destruct (hasTruthy_false rd d Hf) as [Hl Hp].
    exists (Ui.objInsertNew d (mkDomainSettings (Ui.newLimit (Ui.ui p))) rd).
    unfold Ui.objSet. rewrite Hl.
    cbn [Ui.saveSettings Ui.ui Ui.dSettings Ui.pSync Ui.newDomain Ui.newLimit].
    repeat split; try assumption.
    + rewrite (lookupEntry_objInsertNew d d _ rd Hl).
      now rewrite String.eqb_refl.
    + intros k Hk. rewrite (lookupEntry_objInsertNew d k _ rd Hl).
      destruct (String.eqb_spec d k); [congruence|reflexivity].
Qed.

Lemma handleAddDomain_adds_fresh_only_witness :
  Ui.normalizeDomain (Ui.newDomain (Ui.ui samplePage)) = "reddit.com"
  /\ exists rd',
       Ui.pSync (Ui.handleAddDomain samplePage) = Some (mkSettings (Some rd'))
       /\ lookupEntry "reddit.com" rd' = Some (mkDomainSettings 45).
Proof.
  split; [reflexivity|].
  destruct (handleAddDomain_adds_fresh_only samplePage
              [("youtube.com", mkDomainSettings 30);
               ("instagram.com", mkDomainSettings 20)] eq_refl) as [_ H].
  destruct H as (rd' & _ & H2 & H3 & _).
  - discriminate.
  - reflexivity.
  - exists rd'. split; [exact H2|exact H3].
Defined.

Lemma handleRemoveDomain_settings (domain : string) (p : Ui.Page) :
  Ui.dSettings (Ui.ui (Ui.handleRemoveDomain domain p))
  = mkSettings
      (Some (Ui.objDelete domain
               (default [] (restrictedDomains (Ui.dSettings (Ui.ui p)))))).
Proof. reflexivity. Qed.

Lemma handleAddDomain_fresh_settings
  (p : Ui.Page) (rd : list (string * DomainSettings)) :
  restrictedDomains (Ui.dSettings (Ui.ui p)) = Some rd ->
  Ui.normalizeDomain (Ui.newDomain (Ui.ui p)) <> EmptyString ->
  Ui.hasTruthy rd (Ui.normalizeDomain (Ui.newDomain (Ui.ui p))) = false ->
  Ui.dSettings (Ui.ui (Ui.handleAddDomain p))
  = mkSettings
      (Some (Ui.objInsertNew (Ui.normalizeDomain (Ui.newDomain (Ui.ui p)))
               (mkDomainSettings (Ui.newLimit (Ui.ui p))) rd)).
Proof.
  intros Hrd Hne Hf. destruct (hasTruthy_false rd _ Hf) as [Hl _].
  unfold Ui.handleAddDomain. rewrite Hrd.
  apply String.eqb_neq in Hne. rewrite Hne, Hf.
  unfold Ui.objSet. rewrite Hl. reflexivity.
Qed.

(** X19. [handleRemoveDomain(domain)] removes the entry of the domain,
    keeps the entry of every other domain and writes the result to the
    synced area; removing a domain right after [handleAddDomain] added it
    gives back the settings there were before. *)
Theorem handleRemoveDomain_removes
  (p : Ui.Page) (rd : list (string * DomainSettings)) (domain : string) :
  restrictedDomains (Ui.dSettings (Ui.ui p)) = Some rd ->
  let p' := Ui.handleRemoveDomain domain p in
  (exists rd',
     Ui.dSettings (Ui.ui p') = mkSettings (Some rd')
     /\ Ui.pSync p' = Some (mkSettings (Some rd'))
     /\ lookupEntry domain rd' = None
     /\ (forall k, k <> domain -> lookupEntry k rd' = lookupEntry k rd))
  /\ (let d := Ui.normalizeDomain (Ui.newDomain (Ui.ui p)) in
      d <> EmptyString -> Ui.hasTruthy rd d = false ->
      Ui.dSettings (Ui.ui (Ui.handleRemoveDomain d (Ui.handleAddDomain p)))
      = mkSettings (Some rd)).
Proof.
  intros Hrd p'. split.
  - exists (Ui.objDelete domain rd). subst p'. unfold Ui.handleRemoveDomain.
    rewrite Hrd. cbn [default Ui.saveSettings Ui.ui Ui.dSettings Ui.pSync].
    repeat split.
    + rewrite lookupEntry_objDelete. now rewrite String.eqb_refl.
    + intros k Hk. rewrite lookupEntry_objDelete.
      destruct (String.eqb_spec domain k); [congruence|reflexivity].
  - intros d Hne Hf. subst d. destruct (hasTruthy_false rd _ Hf) as [Hl _].
    rewrite handleRemoveDomain_settings.
    rewrite (handleAddDomain_fresh_settings p rd Hrd Hne Hf).
    cbn [restrictedDomains default]. unfold id.
    now rewrite (objDelete_objInsertNew _ _ rd Hl).
Qed.

Lemma handleRemoveDomain_removes_witness :
  Ui.dSettings
    (Ui.ui (Ui.handleRemoveDomain "reddit.com" (Ui.handleAddDomain samplePage)))
  = samplePolicy.
Proof.
  destruct (handleRemoveDomain_removes samplePage
              [("youtube.com", mkDomainSettings 30);
               ("instagram.com", mkDomainSettings 20)] "reddit.com" eq_refl)
    as [_ H].
  apply H.
  - discriminate.
  - reflexivity.
Defined.



(** ** Figures shown by the dashboard and the popup *)

Lemma lookupEntry_key (d : string) (l : list (string * DomainSettings)) :
  In d (map fst l) -> exists entry, lookupEntry d l = Some entry.
Proof.
  induction l as [|[k v] l IH]; [intros []|].
  cbn [map fst In lookupEntry]. intros [->|H].
  - rewrite String.eqb_refl. eauto.
  - destruct (String.eqb k d); eauto.
Qed.

(** X21. The "Over Limit" figure of the dashboard and of the popup counts
    exactly the tracked domains that the worker's [checkLimits] blocks on
    the same settings and ledger (those with usage at or over the limit),
    and never exceeds the number of tracked domains. *)
Theorem overLimitCount_matches_worker
  (rd : list (string * DomainSettings)) (usage : gmap string Z)
  (a : option string) (s : option Z) :
  let m := mkMem (mkSettings (Some rd)) usage a s in
  Ui.overLimitCount rd usage
  = length (List.filter (limitReached m) (getTrackedDomains m))
  /\ (Ui.overLimitCount rd usage <= length rd)%nat.
Proof.
  intros m. unfold Ui.overLimitCount. split.
  - f_equal. apply List.filter_ext_in. intros d Hd.
    destruct (lookupEntry_key d rd Hd) as [entry He].
    unfold Ui.limitShown, limitReached, getLimitSeconds, Ui.usageShown, usageOf.
    cbn [settings restrictedDomains todayUsage m default]. unfold id.
    now rewrite He.
  - etransitivity; [apply List.filter_length_le|]. now rewrite length_map.
Qed.

Lemma insertByUsage_In (usage : gmap string Z) (d x : string)
  (l : list string) :
  In x (Ui.insertByUsage usage d l) <-> x = d \/ In x l.
Proof.
  induction l as [|y l IH]; cbn [Ui.insertByUsage].
  - cbn. intuition.
  - destruct (_ <? _); cbn [In]; [intuition|]. rewrite IH. intuition.
Qed.

Lemma insertByUsage_length (usage : gmap string Z) (d : string)
  (l : list string) :
  length (Ui.insertByUsage usage d l) = S (length l).
Proof.
  induction l as [|y l IH]; cbn [Ui.insertByUsage]; [reflexivity|].
  destruct (_ <? _); cbn [length]; [reflexivity|]. now rewrite IH.
Qed.

Lemma insertByUsage_descending (usage : gmap string Z) (d : string)
  (l : list string) :
  descending usage l -> descending usage (Ui.insertByUsage usage d l).
Proof.
  induction l as [|y l IH]; intros H; cbn [Ui.insertByUsage].
  - cbn. split; [intros ? []|exact I].
  - destruct H as [Hy Hl].
    destruct (Z.ltb_spec (Ui.usageShown usage y) (Ui.usageShown usage d))
      as [Hlt|Hge]; cbn [descending].
    + split; [|split; assumption].
      intros z [<-|Hz]; [lia|]. specialize (Hy z Hz). lia.
    + split; [|now apply IH].
      intros z Hz. apply insertByUsage_In in Hz.
      destruct Hz as [->|Hz]; [lia|now apply Hy].
Qed.

Lemma sortLoop_spec (usage : gmap string Z) (domains : list string) :
  forall acc,
    descending usage acc ->
    let r := fold_left (fun acc d => Ui.insertByUsage usage d acc) domains acc in
    descending usage r
    /\ (forall x, In x r <-> In x domains \/ In x acc)
    /\ length r = (length domains + length acc)%nat.
Proof.
  induction domains as [|d ds IH]; intros acc Hacc; cbn [fold_left].
  - cbn. split; [exact Hacc|]. split; [intuition|reflexivity].
  - destruct (IH (Ui.insertByUsage usage d acc)
                (insertByUsage_descending usage d acc Hacc)) as (H1 & H2 & H3).
    cbv zeta in *. split; [exact H1|]. split.
    + intros x. rewrite H2, insertByUsage_In. cbn [In]. intuition.
    + rewrite H3, insertByUsage_length. cbn [length]. lia.
Qed.

Lemma descending_split (usage : gmap string Z) (n : nat) (l : list string) :
  descending usage l ->
  forall x y, In x (firstn n l) -> In y (skipn n l) ->
              Ui.usageShown usage y <= Ui.usageShown usage x.
Proof.
  revert l. induction n as [|n IH]; intros l Hl x y Hx Hy; [destruct Hx|].
  destruct l as [|z l]; [destruct Hx|].
  destruct Hl as [Hz Hl]. cbn [firstn skipn In] in Hx, Hy.
  destruct Hx as [<-|Hx].
  - apply Hz. rewrite <- (firstn_skipn n l). apply in_or_app. now right.
  - exact (IH l Hl x y Hx Hy).
Qed.

Lemma firstn_In (n : nat) (l : list string) (x : string) :
  In x (firstn n l) -> In x l.
Proof.
  intros H. rewrite <- (firstn_skipn n l). apply in_or_app. now left.
Qed.

(** X22. The popup's top sites are really the top: the list has at most
    three entries (all tracked domains when there are fewer), every entry
    is a tracked domain, the entries are in order of decreasing usage, and
    no tracked domain left out has more usage than one that is shown. *)
Theorem topSites_are_top
  (rd : list (string * DomainSettings)) (usage : gmap string Z) :
  let top := Ui.topSites rd usage in
  length top = Nat.min 3 (length rd)
  /\ (forall d, In d top -> In d (map fst rd))
  /\ descending usage top
  /\ (forall d d', In d top -> In d' (map fst rd) -> ~ In d' top ->
        Ui.usageShown usage d' <= Ui.usageShown usage d).
Proof.
  intros top. subst top. unfold Ui.topSites, Ui.sortByUsage.
  destruct (sortLoop_spec usage (map fst rd) [] I) as (Hd & Hin & Hlen).
  cbv zeta in Hd, Hin, Hlen.
  set (sorted := fold_left (fun acc d => Ui.insertByUsage usage d acc)
                   (map fst rd) []) in *.
  split; [|split; [|split]].
  - rewrite length_firstn, Hlen, length_map. cbn [length]. lia.
  - intros d Hd'. apply firstn_In in Hd'. apply Hin in Hd'.
    destruct Hd' as [H|[]]. exact H.
  - clear Hin Hlen. revert Hd. generalize sorted as l. generalize 3%nat as n.
    induction n as [|n IH]; intros l Hl; [exact I|].
    destruct l as [|z l]; [exact I|]. destruct Hl as [Hz Hl].
    cbn [firstn descending]. split; [|now apply IH].
    intros y Hy. apply Hz. now apply firstn_In in Hy.
  - intros d d' Hd' Hk Hn.
    apply (descending_split usage 3 sorted Hd d d' Hd').
    assert (Hs : In d' sorted) by (apply Hin; now left).
    rewrite <- (firstn_skipn 3 sorted) in Hs. apply in_app_or in Hs.
    destruct Hs as [Hs|Hs]; [contradiction|exact Hs].
Qed.

Lemma topSites_are_top_witness :
  let rd := [("a.com", mkDomainSettings 10); ("b.com", mkDomainSettings 10);
             ("c.com", mkDomainSettings 10); ("d.com", mkDomainSettings 10)] in
  let usage : gmap string Z := {[ "b.com" := 50; "d.com" := 70; "c.com" := 50 ]} in
  Ui.topSites rd usage = ["d.com"; "b.com"; "c.com"]
  /\ Ui.usageShown usage "a.com" <= Ui.usageShown usage "c.com".
Proof.
  intros rd usage. split; [vm_compute; reflexivity|].
  destruct (topSites_are_top rd usage) as (_ & _ & _ & H).
  apply H.
  - vm_compute. right. right. left. reflexivity.
  - simpl. left. reflexivity.
  - vm_compute. intros [H1|[H1|[H1|[]]]]; discriminate H1.
Defined.

(** ** Live sync adds blocks *)

(** X23. A change of the policy is enforced at once: when the storage
    listener runs on the new settings, a domain of the new policy whose
    usage in today's stored ledger is at or over its new limit has its
    block rule in the table after the listener, provided no other domain
    of the new policy has the same rule id. *)
Theorem live_sync_blocks_at_once
  (e : Env) (w : World) (newSettings : Settings)
  (domains : list (string * DomainSettings)) (d : string)
  (entry : DomainSettings) :
  syncSettings w = Some newSettings ->
  restrictedDomains newSettings = Some domains ->
  lookupEntry d domains = Some entry ->
  In d (map fst domains) ->
  dailyLimitMinutes entry * 60
    <= usageOf (usageOfVal (localStore w !! todayKey e)) d ->
  (forall d', In d' (map fst domains) -> ruleIdFor d' = ruleIdFor d -> d' = d) ->
  In (blockRule d)
    (rules (handle e (StorageChanged "sync" (Some (Some newSettings))) w)).
Proof.
  intros Hs Hr He Hin Hle Hinj.
  rewrite (onStorageChanged_removes_nothing e w newSettings domains Hs Hr).
  unfold checkLimitsOn, getTrackedDomains. cbn [settings]. rewrite Hr.
  cbn [default]. unfold id.
  apply checkLoop_adds_rule; [exact Hin| |].
  - unfold limitReached, getLimitSeconds. cbn [settings todayUsage].
    rewrite Hr. cbn [default]. unfold id. rewrite He.
    apply Z.leb_le. exact Hle.
  - intros d' Hd' _ Hid. now apply Hinj.
Qed.

Lemma live_sync_blocks_at_once_witness :
  let strict := mkSettings (Some [("youtube.com", mkDomainSettings 30);
                                  ("instagram.com", mkDomainSettings 5)]) in
  let w := writeSettings strict
             (handle (mkEnv 1709633400000 0) (WindowFocusChanged WindowNone)
                (handle morning1000
                   (TabActivated (Some (Some "https://www.instagram.com/")))
                   sampleWorld)) in
  rules w = []
  /\ In (blockRule "instagram.com")
       (rules (handle morning1030 (StorageChanged "sync" (Some (Some strict))) w)).
Proof.
  intros strict w. split; [vm_compute; reflexivity|].
  apply (live_sync_blocks_at_once morning1030 w strict
           [("youtube.com", mkDomainSettings 30);
            ("instagram.com", mkDomainSettings 5)]
           "instagram.com" (mkDomainSettings 5)).
  - reflexivity.
  - reflexivity.
  - reflexivity.
  - simpl. right. left. reflexivity.
  - vm_compute. discriminate.
  - intros d' [<-|[<-|[]]] Hid; [|reflexivity].
    vm_compute in Hid. discriminate Hid.
Defined.

(** ** The domain typed in the settings page and the domain of a tab *)

Lemma hostChar_facts (c : ascii) :
  hostChar c = true ->
  Ui.isBlank c = false /\ Ascii.eqb c "/" = false
  /\ URL.endsAuthority true c = false /\ Ascii.eqb c "@" = false
  /\ Ascii.eqb c ":" = false /\ URL.forbiddenHostChar c = false
  /\ URL.lowerChar c = c /\ URL.isSlash c = false.
Proof.
  destruct c as [b0 b1 b2 b3 b4 b5 b6 b7].
  destruct b0, b1, b2, b3, b4, b5, b6, b7; intros H;
    try discriminate H; vm_compute; repeat split.
Qed.

Lemma blank_facts (c : ascii) :
  Ui.isBlank c = false ->
  Ui.isBlank (URL.lowerChar c) = false
  /\ Ui.isLineTerminator (URL.lowerChar c) = false.
Proof.
  destruct c as [b0 b1 b2 b3 b4 b5 b6 b7].
  destruct b0, b1, b2, b3, b4, b5, b6, b7; intros H;
    try discriminate H; vm_compute; repeat split.
Qed.

Lemma allChars_append (p : ascii -> bool) (a b : string) :
  allChars p (a ++ b) = allChars p a && allChars p b.
Proof.
  induction a as [|c a IH]; [reflexivity|].
  rewrite append_String. cbn [allChars]. now rewrite IH, andb_assoc.
Qed.

Lemma lower_append (a b : string) :
  URL.lower (a ++ b) = URL.lower a ++ URL.lower b.
Proof.
  induction a as [|c a IH]; [reflexivity|].
  rewrite append_String. cbn [URL.lower]. now rewrite IH, append_String.
Qed.

Lemma lower_host (h : string) : allChars hostChar h = true -> URL.lower h = h.
Proof.
  induction h as [|c h IH]; [reflexivity|].
  cbn [allChars]. intros H. apply andb_true_iff in H. destruct H as [Hc Hh].
  cbn [URL.lower]. rewrite (IH Hh).
  now rewrite (proj1 (proj2 (proj2 (proj2 (proj2 (proj2 (proj2
                 (hostChar_facts c Hc)))))))).
Qed.

Lemma lower_noLineTerminator (p : string) :
  noBlank p = true -> URL.anyChar Ui.isLineTerminator (URL.lower p) = false.
Proof.
  unfold noBlank. induction p as [|c p IH]; [reflexivity|].
  cbn [allChars]. intros H. apply andb_true_iff in H. destruct H as [Hc Hp].
  apply negb_true_iff in Hc. cbn [URL.lower URL.anyChar].
  rewrite (proj2 (blank_facts c Hc)). exact (IH Hp).
Qed.

Lemma trimStart_noBlank (s : string) : noBlank s = true -> Ui.trimStart s = s.
Proof.
  destruct s as [|c s]; [reflexivity|]. unfold noBlank. cbn [allChars].
  intros H. apply andb_true_iff in H. destruct H as [Hc _].
  apply negb_true_iff in Hc. cbn [Ui.trimStart]. now rewrite Hc.
Qed.

Lemma trimEnd_noBlank (s : string) : noBlank s = true -> Ui.trimEnd s = s.
Proof.
  unfold noBlank. induction s as [|c s IH]; [reflexivity|].
  cbn [allChars]. intros H. apply andb_true_iff in H. destruct H as [Hc Hs].
  apply negb_true_iff in Hc. cbn [Ui.trimEnd]. rewrite (IH Hs), Hc.
  destruct s; reflexivity.
Qed.

Lemma trim_noBlank (s : string) : noBlank s = true -> Ui.trim s = s.
Proof.
  intros H. unfold Ui.trim. rewrite (trimStart_noBlank s H).
  now apply trimEnd_noBlank.
Qed.

Lemma host_noBlank (h : string) : allChars hostChar h = true -> noBlank h = true.
Proof.
  unfold noBlank. induction h as [|c h IH]; [reflexivity|].
  cbn [allChars]. intros H. apply andb_true_iff in H. destruct H as [Hc Hh].
  rewrite (IH Hh), (proj1 (hostChar_facts c Hc)). reflexivity.
Qed.

Lemma prefix_split (a h : string) :
  String.prefix a h = true -> exists r, h = a ++ r.
Proof.
  revert h. induction a as [|x a IH]; intros h H.
  - exists h. reflexivity.
  - destruct h as [|y h]; [discriminate|]. cbn [String.prefix] in H.
    destruct (ascii_dec x y) as [->|]; [|discriminate].
    destruct (IH h H) as [r ->]. exists r. reflexivity.
Qed.

(** A character that does not occur in [a] cannot complete [a]. *)
Lemma prefix_append_other (a : string) :
  forall (h r : string) (c : ascii),
    URL.anyChar (Ascii.eqb c) a = false ->
    String.prefix a (h ++ String c r) = String.prefix a h.
Proof.
  induction a as [|x a IH]; intros h r c Hc.
  - destruct h; reflexivity.
  - cbn [URL.anyChar] in Hc. apply orb_false_iff in Hc. destruct Hc as [Hx Ha].
    destruct h as [|y h].
    + rewrite append_empty. cbn [String.prefix].
      destruct (ascii_dec x c) as [->|]; [|reflexivity].
      now rewrite Ascii.eqb_refl in Hx.
    + rewrite append_String. cbn [String.prefix].
      destruct (ascii_dec x y); [|reflexivity]. now apply IH.
Qed.

Lemma stripWww_append_path (h q : string) :
  stripWww (h ++ String "/" q) = stripWww h ++ String "/" q.
Proof.
  unfold stripWww, Js.startsWith.
  rewrite (prefix_append_other "www." h q "/") by reflexivity.
  destruct (String.prefix "www." h) eqn:Hp; [|reflexivity].
  destruct (prefix_split _ _ Hp) as [r ->].
  rewrite append_assoc.
  change 4%nat with (String.length "www.").
  now rewrite !dropChars_append.
Qed.

Lemma stripWww_host (h : string) :
  allChars hostChar h = true -> allChars hostChar (stripWww h) = true.
Proof.
  intros H. unfold stripWww, Js.startsWith.
  destruct (String.prefix "www." h) eqn:Hp; [|exact H].
  destruct (prefix_split _ _ Hp) as [r ->].
  change 4%nat with (String.length "www."). rewrite dropChars_append.
  rewrite allChars_append in H. apply andb_true_iff in H. tauto.
Qed.

Lemma cutPath_at_slash (g q : string) :
  allChars hostChar g = true ->
  URL.anyChar Ui.isLineTerminator q = false ->
  Ui.cutPath (g ++ String "/" q) = g.
Proof.
  intros Hg Hq. induction g as [|c g IH].
  - rewrite append_empty. cbn [Ui.cutPath]. now rewrite Hq.
  - cbn [allChars] in Hg. apply andb_true_iff in Hg. destruct Hg as [Hc Hg].
    rewrite append_String. cbn [Ui.cutPath].
    rewrite (proj1 (proj2 (hostChar_facts c Hc))). cbn [andb].
    now rewrite (IH Hg).
Qed.

Lemma cutPath_host (g : string) :
  allChars hostChar g = true -> Ui.cutPath g = g.
Proof.
  induction g as [|c g IH]; [reflexivity|].
  cbn [allChars]. intros H. apply andb_true_iff in H. destruct H as [Hc Hg].
  cbn [Ui.cutPath]. rewrite (proj1 (proj2 (hostChar_facts c Hc))).
  cbn [andb]. now rewrite (IH Hg).
Qed.

Lemma stripScheme_host (h : string) :
  allChars hostChar h = true -> Ui.stripScheme h = h.
Proof.
  intros H. unfold Ui.stripScheme, Js.startsWith.
  destruct (String.prefix "http://" h) eqn:H1.
  { destruct (prefix_split _ _ H1) as [r ->].
    rewrite allChars_append in H. apply andb_true_iff in H.
    destruct H as [H _]. discriminate H. }
  destruct (String.prefix "https://" h) eqn:H2; [|reflexivity].
  destruct (prefix_split _ _ H2) as [r ->].
  rewrite allChars_append in H. apply andb_true_iff in H.
  destruct H as [H _]. discriminate H.
Qed.

(** What the settings page makes of a bare host and of an address. *)
Lemma normalizeDomain_host (h : string) :
  allChars hostChar h = true -> Ui.normalizeDomain h = stripWww h.
Proof.
  intros H. unfold Ui.normalizeDomain, Ui.toLowerCase.
  rewrite (trim_noBlank h (host_noBlank h H)), (lower_host h H).
  rewrite (stripScheme_host h H). apply cutPath_host. now apply stripWww_host.
Qed.

Lemma normalizeDomain_address (scheme h p : string) :
  scheme = "http://" \/ scheme = "https://" ->
  allChars hostChar h = true -> noBlank p = true ->
  Ui.normalizeDomain (scheme ++ h ++ String "/" p) = stripWww h.
Proof.
  intros Hs Hh Hp. unfold Ui.normalizeDomain, Ui.toLowerCase.
  assert (Hn : noBlank (scheme ++ h ++ String "/" p) = true).
  { unfold noBlank. rewrite !allChars_append. cbn [allChars].
    fold (noBlank h). fold (noBlank p).
    rewrite (host_noBlank h Hh), Hp.
    destruct Hs as [-> | ->]; reflexivity. }
  rewrite (trim_noBlank _ Hn), !lower_append, (lower_host h Hh).
  assert (Hstrip : Ui.stripScheme (URL.lower scheme ++ h ++ URL.lower (String "/" p))
                   = h ++ String "/" (URL.lower p)).
  { unfold Ui.stripScheme, Js.startsWith.
    destruct Hs as [-> | ->].
    - change (URL.lower "http://") with "http://".
      rewrite (prefix_append "http://").
      change 7%nat with (String.length "http://").
      now rewrite dropChars_append.
    - change (URL.lower "https://") with "https://".
      assert (Hf : String.prefix "http://"
                     ("https://" ++ h ++ URL.lower (String "/" p)) = false)
        by reflexivity.
      rewrite Hf, (prefix_append "https://").
      change 8%nat with (String.length "https://").
      now rewrite dropChars_append. }
  rewrite Hstrip, stripWww_append_path.
  apply cutPath_at_slash; [now apply stripWww_host|].
  now apply lower_noLineTerminator.
Qed.

Lemma takeUntil_stop (stop : ascii -> bool) (h r : string) (x : ascii) :
  allChars (fun c => negb (stop c)) h = true -> stop x = true ->
  URL.takeUntil stop (h ++ String x r) = h.
Proof.
  intros Hh Hx. induction h as [|c h IH].
  - rewrite append_empty. cbn [URL.takeUntil]. now rewrite Hx.
  - cbn [allChars] in Hh. apply andb_true_iff in Hh. destruct Hh as [Hc Hh].
    apply negb_true_iff in Hc.
    rewrite append_String. cbn [URL.takeUntil]. now rewrite Hc, (IH Hh).
Qed.

Lemma takeUntil_all (stop : ascii -> bool) (h : string) :
  allChars (fun c => negb (stop c)) h = true -> URL.takeUntil stop h = h.
Proof.
  induction h as [|c h IH]; [reflexivity|].
  cbn [allChars]. intros Hh. apply andb_true_iff in Hh. destruct Hh as [Hc Hh].
  apply negb_true_iff in Hc. cbn [URL.takeUntil]. now rewrite Hc, (IH Hh).
Qed.

Lemma allChars_impl (p q : ascii -> bool) (s : string) :
  (forall c, p c = true -> q c = true) ->
  allChars p s = true -> allChars q s = true.
Proof.
  intros Hpq. induction s as [|c s IH]; [reflexivity|].
  cbn [allChars]. intros H. apply andb_true_iff in H. destruct H as [Hc Hs].
  now rewrite (Hpq c Hc), (IH Hs).
Qed.

Lemma splitGo_nosep (sep : ascii) (a : string) :
  allChars (fun c => negb (Ascii.eqb c sep)) a = true ->
  forall cur, Js.splitGo sep cur a = [cur ++ a].
Proof.
  induction a as [|c a IH]; intros Ha cur.
  - now rewrite append_nil_r.
  - cbn [allChars] in Ha. apply andb_true_iff in Ha. destruct Ha as [Hc Ha].
    apply negb_true_iff in Hc. cbn [Js.splitGo]. rewrite Hc, (IH Ha).
    rewrite append_assoc, append_String, append_empty. reflexivity.
Qed.

Lemma dropChars_beyond (s : string) (n : nat) :
  (String.length s <= n)%nat -> Js.dropChars n s = EmptyString.
Proof.
  unfold Js.dropChars. intros H.
  replace (String.length s - n)%nat with 0%nat by lia. clear H.
  revert n. induction s as [|c s IH]; intros n; destruct n; try reflexivity.
  cbn [String.substring]. apply IH.
Qed.

Lemma anyChar_forbidden_host (h : string) :
  allChars hostChar h = true -> URL.anyChar URL.forbiddenHostChar h = false.
Proof.
  induction h as [|c h IH]; [reflexivity|].
  cbn [allChars]. intros H. apply andb_true_iff in H. destruct H as [Hc Hh].
  cbn [URL.anyChar]. rewrite (IH Hh).
  now rewrite (proj1 (proj2 (proj2 (proj2 (proj2 (proj2
                 (hostChar_facts c Hc))))))).
Qed.

Lemma hostOfAuthority_host (h : string) :
  plainHost h = true -> URL.hostOfAuthority true h = Some h.
Proof.
  unfold plainHost. intros H. apply andb_true_iff in H. destruct H as [Hne Hh].
  apply negb_true_iff in Hne. unfold URL.hostOfAuthority, URL.afterCredentials.
  assert (Hat : Js.split "@" h = [h]).
  { unfold Js.split. rewrite splitGo_nosep; [now rewrite append_empty|].
    apply (allChars_impl hostChar); [|exact Hh].
    intros c Hc. apply negb_true_iff. apply (hostChar_facts c Hc). }
  rewrite Hat. cbn [List.last].
  assert (Hcol : URL.takeUntil (Ascii.eqb ":") h = h).
  { apply takeUntil_all. apply (allChars_impl hostChar); [|exact Hh].
    intros c Hc. apply negb_true_iff.
    pose proof (hostChar_facts c Hc) as F.
    destruct (Ascii.eqb_spec ":" c) as [<-|Hn]; [|reflexivity].
    discriminate Hc. }
  rewrite Hcol, (dropChars_beyond h) by lia.
  rewrite (anyChar_forbidden_host h Hh). cbn [orb negb URL.portOk].
  change (negb (URL.portOk EmptyString)) with false. cbn [orb].
  rewrite Hne. now rewrite (lower_host h Hh).
Qed.

Lemma hostname_address (h p : string) :
  plainHost h = true ->
  URL.hostname ("https://" ++ h ++ String "/" p) = Some h
  /\ URL.hostname ("http://" ++ h ++ String "/" p) = Some h.
Proof.
  intros H. pose proof H as H'. unfold plainHost in H'.
  apply andb_true_iff in H'. destruct H' as [Hne Hh].
  assert (Hd : URL.dropWhile URL.isSlash (String "/" (String "/" (h ++ String "/" p)))
               = h ++ String "/" p).
  { cbn [URL.dropWhile]. change (URL.isSlash "/") with true. cbn iota.
    destruct h as [|c h]; [discriminate|].
    cbn [allChars] in Hh. apply andb_true_iff in Hh. destruct Hh as [Hc _].
    rewrite append_String. cbn [URL.dropWhile].
    now rewrite (proj2 (proj2 (proj2 (proj2 (proj2 (proj2 (proj2
                   (hostChar_facts c Hc)))))))). }
  assert (Ht : URL.takeUntil (URL.endsAuthority true) (h ++ String "/" p) = h).
  { apply takeUntil_stop; [|reflexivity].
    apply (allChars_impl hostChar); [|exact Hh].
    intros c Hc. apply negb_true_iff. apply (hostChar_facts c Hc). }
  split.
  - change (URL.hostname ("https://" ++ h ++ String "/" p))
      with (URL.hostOfAuthority true
              (URL.takeUntil (URL.endsAuthority true)
                 (URL.dropWhile URL.isSlash
                    (String "/" (String "/" (h ++ String "/" p)))))).
    rewrite Hd, Ht. now apply hostOfAuthority_host.
  - change (URL.hostname ("http://" ++ h ++ String "/" p))
      with (URL.hostOfAuthority true
              (URL.takeUntil (URL.endsAuthority true)
                 (URL.dropWhile URL.isSlash
                    (String "/" (String "/" (h ++ String "/" p)))))).
    rewrite Hd, Ht. now apply hostOfAuthority_host.
Qed.

(** X24. The settings page and the worker name a site the same way. For a
    host made of lower-case letters and dots and a path without white
    space, the domain [handleAddDomain] derives from the address
    [https://host/path] (or [http://]), or from the bare host, is the host
    without one leading [www.], and that is the domain [getDomain] gives
    the worker for a tab at that address: a site added from its address is
    the site that is tracked. *)
Theorem normalizeDomain_agrees_with_getDomain (h p : string) :
  plainHost h = true -> noBlank p = true ->
  Ui.normalizeDomain ("https://" ++ h ++ "/" ++ p) = stripWww h
  /\ Ui.normalizeDomain ("http://" ++ h ++ "/" ++ p) = stripWww h
  /\ Ui.normalizeDomain h = stripWww h
  /\ getDomain ("https://" ++ h ++ "/" ++ p) = Some (stripWww h)
  /\ getDomain ("http://" ++ h ++ "/" ++ p) = Some (stripWww h).
Proof.
  intros Hh Hp. pose proof Hh as Hh'. unfold plainHost in Hh'.
  apply andb_true_iff in Hh'. destruct Hh' as [_ Ha].
  destruct (hostname_address h p Hh) as [U1 U2].
  change ("/" ++ p) with (String "/" p).
  split; [apply normalizeDomain_address; auto|].
  split; [apply normalizeDomain_address; auto|].
  split; [now apply normalizeDomain_host|].
  unfold getDomain, getDomainVia. rewrite U1, U2. auto.
Qed.

Lemma normalizeDomain_agrees_with_getDomain_witness :
  Ui.normalizeDomain "https://www.youtube.com/watch?v=1" = "youtube.com"
  /\ getDomain "https://www.youtube.com/watch?v=1" = Some "youtube.com".
Proof.
  destruct (normalizeDomain_agrees_with_getDomain "www.youtube.com"
              "watch?v=1" eq_refl eq_refl) as (H1 & _ & _ & H4 & _).
  split; [exact H1|exact H4].
Defined.

(** ** A worker without a stored policy *)

Lemma rules_setActiveDomain (e : Env) (domain : option string) (w : World) :
  rules (setActiveDomain e domain w)
  = checkLimitsOn (mem (setActiveDomain e domain w)) (rules w).
Proof. reflexivity. Qed.

Lemma checkLimitsOn_untracked (m : Mem) (t : list Rule) :
  getTrackedDomains m = [] -> checkLimitsOn m t = t.
Proof. intros H. unfold checkLimitsOn. now rewrite H. Qed.

Lemma tracked_setActiveDomain (e : Env) (domain : option string) (w : World) :
  getTrackedDomains (mem (setActiveDomain e domain w))
  = getTrackedDomains (mem w).
Proof.
  pose proof (mem_setActiveDomain e domain w) as Hm. cbn zeta in Hm.
  now rewrite Hm.
Qed.

(** X25. Missing policy. When the synced area holds no settings (or
    settings without [restrictedDomains]), a worker that has just started
    tracks nothing after hydration: no tab, focus or alarm event changes
    the rule table, and a tab or focus event never starts the timer. *)
Theorem no_policy_nothing_tracked (e : Env) (w : World) :
  (forall s, syncSettings w = Some s -> restrictedDomains s = None) ->
  let w0 := restartWorker w in
  getTrackedDomains (mem (ensureInit e w0)) = []
  /\ (forall tab, rules (handle e (TabActivated tab) w0) = rules w)
  /\ (forall u a, rules (handle e (TabUpdated u a) w0) = rules w)
  /\ (forall f, rules (handle e (WindowFocusChanged f) w0) = rules w)
  /\ (forall name, rules (handle e (Alarm name) w0) = rules w)
  /\ (forall url,
        activeDomain (mem (handle e (TabActivated (Some url)) w0)) = None).
Proof.
  intros Hnone w0.
  assert (Ht : getTrackedDomains (mem (ensureInit e w0)) = []).
  { subst w0. unfold ensureInit, restartWorker, getTrackedDomains.
    cbn [mem withMem settings syncSettings].
    destruct (syncSettings w) as [s|] eqn:Hs; [|reflexivity].
    rewrite (Hnone s eq_refl). reflexivity. }
  assert (Hset : forall domain,
             rules (setActiveDomain e domain (ensureInit e w0)) = rules w).
  { intros domain. rewrite rules_setActiveDomain.
    apply checkLimitsOn_untracked. now rewrite tracked_setActiveDomain. }
  split; [exact Ht|]. split; [|split; [|split; [|split]]].
  - intros [url|]; cbn [handle]; [apply Hset|reflexivity].
  - intros u a. cbn [handle]. destruct (Js.truthyStr u); [|reflexivity].
    destruct a; [apply Hset|reflexivity].
  - intros [|url|]; cbn [handle]; try apply Hset. reflexivity.
  - intros name. cbn [handle]. destruct (String.eqb name "persist-timer");
      [|reflexivity].
    unfold checkLimits. cbn [rules withRules]. rewrite mem_persistUsage.
    apply checkLimitsOn_untracked.
    now rewrite flushActiveTimer_tracked.
  - intros url. cbn [handle].
    pose proof (mem_setActiveDomain e (getDomain (urlOrEmpty url))
                  (ensureInit e w0)) as Hm. cbn zeta in Hm.
    rewrite Hm, Ht. cbn [activeDomain]. unfold activeAfter.
    destruct (getDomain (urlOrEmpty url)) as [d|]; [|reflexivity].
    cbn [Js.includes existsb]. now rewrite andb_false_r.
Qed.

Lemma no_policy_nothing_tracked_witness :
  let w := mkWorld freshMem ∅ None [blockRule "youtube.com"] in
  rules (handle morning1000
           (TabActivated (Some (Some "https://www.youtube.com/")))
           (restartWorker w))
  = [blockRule "youtube.com"].
Proof.
  intros w.
  destruct (no_policy_nothing_tracked morning1000 w) as (_ & H & _).
  - intros s Hs. discriminate Hs.
  - apply H.
Defined.

(** ** The first revision of the storage listener, in general *)

Lemma In_removeDropped (old new : list string) (t : list Rule) (r : Rule) :
  In r (removeDropped old new t) <->
  In r t /\
  (forall d, In d old -> Js.includes new d = false -> ruleId r <> ruleIdFor d).
Proof.
  unfold removeDropped. revert t.
  induction old as [|x old IH]; intros t; cbn [fold_left].
  - split; [intros H; split; [exact H|intros d []]|tauto].
  - rewrite IH. destruct (Js.includes new x) eqn:Hx; cbn [negb].
    + split; intros [Hin Hall]; (split; [exact Hin|]).
      * intros d [<-|Hd] Hi; [congruence|now apply Hall].
      * intros d Hd. apply Hall. now right.
    + rewrite In_removeDynamicBlockRule.
      split.
      * intros [[Hin Hne] Hall]. split; [exact Hin|].
        intros d [<-|Hd] Hi; [exact Hne|now apply Hall].
      * intros [Hin Hall]. repeat split.
        -- exact Hin.
        -- apply Hall; [now left|exact Hx].
        -- intros d Hd. apply Hall. now right.
Qed.

Lemma includes_false_notIn (l : list string) (d : string) :
  ~ In d l -> Js.includes l d = false.
Proof.
  intros Hn. destruct (Js.includes l d) eqn:Hi; [|reflexivity].
  apply includes_true_In in Hi. contradiction.
Qed.

(** X26. The storage listener of the first revision (no hydration before
    the comparison) lifts the block of a deleted domain: when a domain of
    the cached policy is absent from the new settings, its block rule is
    not in the table after the listener, and a rule that then carries its
    id is the block rule of a domain of the new policy that has reached its
    limit (an id collision). *)
Theorem onStorageChangedOriginal_unblocks_dropped
  (w : World) (s : Settings) (d : string) :
  let m2 := mkMem s (todayUsage (mem w)) (activeDomain (mem w))
              (activeStart (mem w)) in
  let w' := onStorageChangedOriginal "sync" (Some (Some s)) w in
  In d (getTrackedDomains (mem w)) ->
  ~ In d (getTrackedDomains m2) ->
  mem w' = m2
  /\ ~ In (blockRule d) (rules w')
  /\ (forall r, In r (rules w') -> ruleId r = ruleIdFor d ->
        exists d', In d' (getTrackedDomains m2)
                   /\ limitReached m2 d' = true /\ r = blockRule d').
Proof.
  intros m2 w' Hold Hnew.
  assert (Hr : forall r, In r (rules w') -> ruleId r = ruleIdFor d ->
             exists d', In d' (getTrackedDomains m2)
                        /\ limitReached m2 d' = true /\ r = blockRule d').
  { intros r Hin Hid. subst w'. unfold onStorageChangedOriginal in Hin.
    cbn [String.eqb Ascii.eqb Bool.eqb] in Hin.
    unfold checkLimits, checkLimitsOn in Hin. cbn in Hin.
    apply checkLoop_In in Hin. destruct Hin as [Hin|Hin]; [|exact Hin].
    apply In_removeDropped in Hin. destruct Hin as [_ Hall].
    exfalso. apply (Hall d Hold); [|exact Hid].
    now apply includes_false_notIn. }
  split; [reflexivity|]. split; [|exact Hr].
  intros Hin. destruct (Hr _ Hin eq_refl) as (d' & Hd' & _ & Heq).
  apply blockRule_inj in Heq. subst d'. contradiction.
Qed.

Lemma onStorageChangedOriginal_unblocks_dropped_witness :
  In (blockRule "instagram.com") (rules instagramBlocked)
  /\ ~ In (blockRule "instagram.com")
         (rules (onStorageChangedOriginal "sync"
                   (Some (Some policyWithoutInstagram)) instagramBlocked)).
Proof.
  split.
  - vm_compute. now left.
  - apply (onStorageChangedOriginal_unblocks_dropped instagramBlocked
             policyWithoutInstagram "instagram.com").
    + vm_compute. right. now left.
    + vm_compute. intros [H|[]]. discriminate H.
Defined.

(* ===================================================================== *)
(** * The first draft of the worker *)
(* ===================================================================== *)

Lemma substring_prefix (p r : string) :
  String.substring 0 (String.length p) (p ++ r) = p.
Proof.
  induction p as [|c p IH]; cbn [String.length].
  - rewrite append_empty. destruct r; reflexivity.
  - rewrite append_String. cbn [String.substring]. now rewrite IH.
Qed.

(** The key of the draft is the ISO date of the UTC day, ten characters
    that [new Date] reads back as the UTC midnight of that day. *)
Lemma draft_todayKey_iso (e : Env) :
  1000 <= Draft.utcYear e <= 9999 ->
  String.length (Draft.todayKey e) = 10%nat
  /\ JsDate.parse (Draft.todayKey e)
     = Some (Draft.utcDay e * JsDate.msPerDay).
Proof.
  intros Hy. unfold Draft.utcYear, Draft.todayKey in *.
  pose proof (civil_roundtrip (Draft.utcDay e)) as H.
  destruct (JsDate.civilFromDays (Draft.utcDay e)) as [[y m] d].
  cbn [fst] in Hy. destruct H as (Hm & Hd & Hr).
  destruct (year_field y Hy) as (Ly & Dy & Vy).
  destruct (month_day_fields m ltac:(lia)) as (Lm & Dm & Vm).
  destruct (month_day_fields d Hd) as (Ld & Dd & Vd).
  cbv zeta in Ly, Dy, Vy, Lm, Dm, Vm, Ld, Dd, Vd.
  assert (Hiso : Draft.isoYear y = Js.stringOfInt y).
  { unfold Draft.isoYear, Draft.padStart.
    destruct (Z.leb_spec 0 y); [|lia]. destruct (Z.leb_spec y 9999); [|lia].
    cbn [andb]. rewrite Ly. reflexivity. }
  rewrite Hiso.
  set (ys := Js.stringOfInt y) in *.
  set (ms := Js.padStart2 (Js.stringOfInt m)) in *.
  set (ds := Js.padStart2 (Js.stringOfInt d)) in *.
  assert (Hlen : String.length (ys ++ "-" ++ ms ++ "-" ++ ds) = 10%nat).
  { rewrite !length_append, Ly, Lm, Ld. reflexivity. }
  assert (Hkey : String.substring 0 10 (ys ++ "-" ++ ms ++ "-" ++ ds ++ "T")
                 = ys ++ "-" ++ ms ++ "-" ++ ds).
  { rewrite <- Hlen at 1.
    replace (ys ++ "-" ++ ms ++ "-" ++ ds ++ "T")
      with ((ys ++ "-" ++ ms ++ "-" ++ ds) ++ "T")
      by (now rewrite !append_assoc).
    apply substring_prefix. }
  rewrite Hkey. split; [exact Hlen|].
  change (ys ++ "-" ++ ms ++ "-" ++ ds)
    with (ys ++ String "-" (ms ++ String "-" ds)).
  unfold JsDate.parse. rewrite split_three by (reflexivity || assumption).
  rewrite Ly, Lm, Ld, Dy, Dm, Dd, Vy, Vm, Vd. cbn [Nat.eqb andb].
  destruct (Z.leb_spec 1 m); [|lia]. destruct (Z.leb_spec m 12); [|lia].
  destruct (Z.leb_spec 1 d); [|lia]. destruct (Z.leb_spec d 31); [|lia].
  cbn [andb]. now rewrite Hr.
Qed.

Lemma draft_key_day (e1 e2 : Env) :
  1000 <= Draft.utcYear e1 <= 9999 -> 1000 <= Draft.utcYear e2 <= 9999 ->
  (Draft.todayKey e1 = Draft.todayKey e2 <-> Draft.utcDay e1 = Draft.utcDay e2).
Proof.
  intros H1 H2.
  destruct (draft_todayKey_iso e1 H1) as [_ K1].
  destruct (draft_todayKey_iso e2 H2) as [_ K2].
  split.
  - intros Hk. rewrite Hk, K2 in K1. injection K1 as K1.
    unfold JsDate.msPerDay in K1. lia.
  - intros Hd. unfold Draft.todayKey. now rewrite Hd.
Qed.

(** X27. The day key of the draft ([toISOString().slice(0, 10)]) names the
    UTC calendar day: for instants whose UTC year has four digits, two
    instants get the same key exactly when they fall on the same UTC day,
    whatever the local time zone; the key has ten characters and [new
    Date(key)] is the UTC midnight of that day. *)
Theorem draft_todayKey_utc_day (e1 e2 : Env) :
  1000 <= Draft.utcYear e1 <= 9999 -> 1000 <= Draft.utcYear e2 <= 9999 ->
  (Draft.todayKey e1 = Draft.todayKey e2 <-> nowMs e1 / 86400000 = nowMs e2 / 86400000)
  /\ String.length (Draft.todayKey e1) = 10%nat
  /\ JsDate.parse (Draft.todayKey e1) = Some (nowMs e1 / 86400000 * 86400000).
Proof.
  intros H1 H2. destruct (draft_todayKey_iso e1 H1) as [L K].
  split; [exact (draft_key_day e1 e2 H1 H2)|]. split; [exact L|exact K].
Qed.

Lemma draft_todayKey_utc_day_witness :
  Draft.todayKey (mkEnv 1709589600000 (-480))
  = Draft.todayKey (mkEnv 1709593200000 60)
  /\ JsDate.parse (Draft.todayKey (mkEnv 1709589600000 (-480)))
     = Some 1709510400000.
Proof.
  assert (H1 : 1000 <= Draft.utcYear (mkEnv 1709589600000 (-480)) <= 9999)
    by (vm_compute; split; discriminate).
  assert (H2 : 1000 <= Draft.utcYear (mkEnv 1709593200000 60) <= 9999)
    by (vm_compute; split; discriminate).
  destruct (draft_todayKey_utc_day _ _ H1 H2) as (Hk & _ & Hp).
  split; [apply Hk; reflexivity|exact Hp].
Defined.

Lemma draft_removeAll_eq (t : list Rule) :
  Draft.removeAllDynamicBlockRules t = without [1000; 1001; 1002] t.
Proof.
  unfold Draft.removeAllDynamicBlockRules, updateDynamicRules.
  rewrite app_nil_r. reflexivity.
Qed.

Lemma draft_tracked_ids (i : Z) :
  In i [1000; 1001; 1002] <->
  exists d, In d Draft.TRACKED_DOMAINS /\ Draft.ruleIdOf d = i.
Proof.
  split.
  - intros [<-|[<-|[<-|[]]]].
    + exists "youtube.com". split; [now left|reflexivity].
    + exists "instagram.com". split; [right; now left|reflexivity].
    + exists "reddit.com". split; [right; right; now left|reflexivity].
  - intros (d & [<-|[<-|[<-|[]]]] & <-); vm_compute; tauto.
Qed.

(** X28. Day rollover in the draft. After [persistState] on one UTC day
    and a restart of the worker, [restoreState] on the same day restores
    the ledger and leaves store and rule table alone; on another day it
    empties the ledger, stores the empty ledger under the new day and
    removes from the table exactly the rules numbered after the tracked
    domains. *)
Theorem draft_restoreState_day_rollover (e e' : Env) (w : Draft.World) :
  1000 <= Draft.utcYear e <= 9999 -> 1000 <= Draft.utcYear e' <= 9999 ->
  let w1 := Draft.persistState e w in
  let w2 := Draft.restoreState e' (Draft.restartWorker w1) in
  (Draft.utcDay e' = Draft.utcDay e ->
     Draft.timeSpent (Draft.mem w2) = Draft.timeSpent (Draft.mem w1)
     /\ Draft.store w2 = Draft.store w1
     /\ Draft.rules w2 = Draft.rules w)
  /\ (Draft.utcDay e' <> Draft.utcDay e ->
        Draft.timeSpent (Draft.mem w2) = ∅
        /\ Draft.store w2
           = Draft.mkStore (Some ∅) (Some (Draft.todayKey e'))
        /\ (forall r, In r (Draft.rules w2) <->
              In r (Draft.rules w)
              /\ forall d, In d Draft.TRACKED_DOMAINS ->
                           ruleId r <> Draft.ruleIdOf d)).
Proof.
  intros Hy Hy' w1 w2. pose proof (draft_key_day e e' Hy Hy') as Hk.
  subst w2 w1. unfold Draft.restoreState, Draft.restartWorker, Draft.persistState.
  cbn [Draft.store Draft.dateKey Draft.storedTimeSpent Draft.mem Draft.rules
       Draft.timeSpent Draft.activeDomain Draft.activeStart].
  split.
  - intros Hd. assert (He : Draft.todayKey e = Draft.todayKey e')
      by (apply Hk; congruence).
    rewrite He, String.eqb_refl. cbn. auto.
  - intros Hd.
    destruct (String.eqb_spec (Draft.todayKey e) (Draft.todayKey e')) as [He|_].
    + apply Hk in He. congruence.
    + unfold Draft.resetDay. cbn [Draft.mem Draft.timeSpent Draft.store Draft.rules].
      split; [reflexivity|]. split; [reflexivity|].
      intros r. rewrite draft_removeAll_eq, In_without_iff.
      split; intros [Hin H]; (split; [exact Hin|]).
      * intros d Hin' Heq. apply H. apply draft_tracked_ids. eauto.
      * intros Hi. apply draft_tracked_ids in Hi.
        destruct Hi as (d & Hd' & Heq). now apply (H d Hd').
Qed.

Lemma draft_restoreState_day_rollover_witness :
  let w2 := Draft.restoreState afterMidnight
              (Draft.restartWorker (Draft.persistState evening2300 draftBlocked)) in
  Draft.timeSpent (Draft.mem w2) = ∅
  /\ ~ In (Draft.blockRule "youtube.com") (Draft.rules w2)
  /\ In (mkRule 7 1 block "||example.org" [main_frame]) (Draft.rules w2).
Proof.
  assert (H1 : 1000 <= Draft.utcYear evening2300 <= 9999)
    by (vm_compute; split; discriminate).
  assert (H2 : 1000 <= Draft.utcYear afterMidnight <= 9999)
    by (vm_compute; split; discriminate).
  assert (Hd : Draft.utcDay afterMidnight <> Draft.utcDay evening2300)
    by (vm_compute; discriminate).
  pose proof (draft_restoreState_day_rollover evening2300 afterMidnight
                draftBlocked H1 H2) as H.
  cbv zeta in H. destruct H as [_ Hnew].
  destruct (Hnew Hd) as (Ht & _ & Hr).
  cbv zeta. split; [exact Ht|]. split.
  - intros Hin. destruct (proj1 (Hr _) Hin) as [_ Hall].
    apply (Hall "youtube.com"); [left; reflexivity|reflexivity].
  - apply (proj2 (Hr _)). split; [right; left; reflexivity|].
    intros d [<-|[<-|[<-|[]]]]; vm_compute; discriminate.
Defined.

Lemma draft_addDynamicBlockRule_In (d : string) (t : list Rule) (r : Rule) :
  In r (Draft.addDynamicBlockRule d t) <->
  r = Draft.blockRule d \/ (In r t /\ ruleId r <> Draft.ruleIdOf d).
Proof.
  change (Draft.addDynamicBlockRule d t)
    with (without [Draft.ruleIdOf d] t ++ [Draft.blockRule d])%list.
  rewrite in_app_iff, In_without_iff. simpl. intuition congruence.
Qed.

Lemma draft_checkLoop_In (m : Draft.Mem) (domains : list string) :
  forall (t : list Rule) (r : Rule),
    In r (fold_left (Draft.checkDomain m) domains t) ->
    In r t \/ exists d, In d domains /\ Draft.limitReached m d = true
                        /\ r = Draft.blockRule d.
Proof.
  induction domains as [|d ds IH]; intros t r H; cbn [fold_left] in H; [auto|].
  apply IH in H. destruct H as [H|(d' & Hd' & Hl & ->)].
  - unfold Draft.checkDomain in H. destruct (Draft.limitReached m d) eqn:Hl.
    + apply draft_addDynamicBlockRule_In in H. destruct H as [->|[H _]].
      * right. exists d. split; [now left|auto].
      * now left.
    + now left.
  - right. exists d'. split; [now right|auto].
Qed.

Lemma draft_checkLoop_keeps (m : Draft.Mem) (domains : list string) :
  forall (t : list Rule) (r : Rule),
    In r t ->
    (forall d, In d domains -> Draft.limitReached m d = true ->
               ruleId r = Draft.ruleIdOf d -> r = Draft.blockRule d) ->
    In r (fold_left (Draft.checkDomain m) domains t).
Proof.
  induction domains as [|d ds IH]; intros t r Hin Hall; [exact Hin|].
  cbn [fold_left]. apply IH.
  - unfold Draft.checkDomain. destruct (Draft.limitReached m d) eqn:Hl.
    + apply draft_addDynamicBlockRule_In.
      destruct (Z.eq_dec (ruleId r) (Draft.ruleIdOf d)) as [He|Hne].
      * left. apply Hall; [now left|exact Hl|exact He].
      * right. auto.
    + exact Hin.
  - intros d' Hd'. apply Hall. now right.
Qed.

Lemma draft_ruleIdOf_inj (d1 d2 : string) :
  In d1 Draft.TRACKED_DOMAINS -> In d2 Draft.TRACKED_DOMAINS ->
  Draft.ruleIdOf d1 = Draft.ruleIdOf d2 -> d1 = d2.
Proof.
  intros [<-|[<-|[<-|[]]]] [<-|[<-|[<-|[]]]] H;
    try reflexivity; vm_compute in H; discriminate H.
Qed.

Lemma draft_checkLoop_adds (m : Draft.Mem) (d : string)
  (domains : list string) :
  forall t,
    In d domains -> Draft.limitReached m d = true ->
    (forall d', In d' domains -> Draft.ruleIdOf d' = Draft.ruleIdOf d -> d' = d) ->
    In (Draft.blockRule d) (fold_left (Draft.checkDomain m) domains t).
Proof.
  induction domains as [|d' ds IH]; intros t Hin Hl Hinj; [destruct Hin|].
  cbn [fold_left].
  assert (Hd' : forall t', In (Draft.blockRule d) t' ->
            In (Draft.blockRule d) (fold_left (Draft.checkDomain m) ds t')).
  { intros t' Ht'. apply draft_checkLoop_keeps; [exact Ht'|].
    intros x Hx _ He. cbn [ruleId Draft.blockRule] in He.
    rewrite (Hinj x); [reflexivity|now right|now symmetry]. }
  destruct Hin as [->|Hin].
  - apply Hd'. unfold Draft.checkDomain. rewrite Hl.
    apply draft_addDynamicBlockRule_In. now left.
  - apply IH; [exact Hin|exact Hl|]. intros x Hx. apply Hinj. now right.
Qed.

(** X29. Reconciliation in the draft. The rule ids of the tracked domains
    are 1000, 1001 and 1002, one per domain, so no two tracked domains
    share a rule; after [checkLimits] every tracked domain with 1800
    seconds or more is blocked by its own rule, every rule of the table is
    a rule from before or the block rule of such a domain, a rule from
    before stays unless such a domain takes its id, and globals and store
    are untouched. *)
Theorem draft_checkLimits_blocks (w : Draft.World) :
  let w' := Draft.checkLimits w in
  (forall d1 d2, In d1 Draft.TRACKED_DOMAINS -> In d2 Draft.TRACKED_DOMAINS ->
                 Draft.ruleIdOf d1 = Draft.ruleIdOf d2 -> d1 = d2)
  /\ (forall d, In d Draft.TRACKED_DOMAINS ->
                1800 <= usageOf (Draft.timeSpent (Draft.mem w)) d ->
                In (Draft.blockRule d) (Draft.rules w'))
  /\ (forall r, In r (Draft.rules w') ->
        In r (Draft.rules w)
        \/ exists d, In d Draft.TRACKED_DOMAINS
                     /\ 1800 <= usageOf (Draft.timeSpent (Draft.mem w)) d
                     /\ r = Draft.blockRule d)
  /\ (forall r, In r (Draft.rules w) ->
        (forall d, In d Draft.TRACKED_DOMAINS ->
                   1800 <= usageOf (Draft.timeSpent (Draft.mem w)) d ->
                   ruleId r <> Draft.ruleIdOf d) ->
        In r (Draft.rules w'))
  /\ Draft.mem w' = Draft.mem w /\ Draft.store w' = Draft.store w.
Proof.
  intros w'. subst w'. unfold Draft.checkLimits. cbn [Draft.rules Draft.mem Draft.store].
  assert (Hl : forall d, Draft.limitReached (Draft.mem w) d = true
                         <-> 1800 <= usageOf (Draft.timeSpent (Draft.mem w)) d).
  { intros d. unfold Draft.limitReached, Draft.DAILY_LIMIT_MINUTES.
    rewrite Z.leb_le. lia. }
  split; [exact draft_ruleIdOf_inj|]. split; [|split; [|split; [|auto]]].
  - intros d Hd Hu. apply draft_checkLoop_adds; [exact Hd|now apply Hl|].
    intros d' Hd' He. now apply draft_ruleIdOf_inj.
  - intros r Hr. apply draft_checkLoop_In in Hr.
    destruct Hr as [Hr|(d & Hd & Hlr & ->)]; [now left|].
    right. exists d. split; [exact Hd|]. split; [now apply Hl|reflexivity].
  - intros r Hr Hall. apply draft_checkLoop_keeps; [exact Hr|].
    intros d Hd Hlr He. exfalso. apply (Hall d Hd); [now apply Hl|exact He].
Qed.

Lemma draft_flush_fresh (now : Z) (domain : option string) :
  let m := Draft.flushActiveTimer now
             (match domain with
              | Some d =>
                  if Js.truthyStr (Some d) && Js.includes Draft.TRACKED_DOMAINS d
                  then Draft.mkMem ∅ (Some d) (Some now)
                  else Draft.mkMem ∅ None None
              | None => Draft.mkMem ∅ None None
              end) in
  forall x, usageOf (Draft.timeSpent m) x = 0.
Proof.
  intros m x. subst m. destruct domain as [d|]; [|reflexivity].
  destruct (Js.truthyStr (Some d) && Js.includes Draft.TRACKED_DOMAINS d);
    [|reflexivity].
  unfold Draft.flushActiveTimer.
  cbn [Draft.activeDomain Draft.activeStart Draft.timeSpent].
  destruct (Js.truthyStr (Some d) && Js.truthyNum (Some now)); [|reflexivity].
  cbn [Draft.timeSpent]. unfold usageOf, elapsedSeconds, Js.roundDiv.
  replace (now - now) with 0 by lia.
  destruct (decide (d = x)) as [->|Hne].
  - rewrite lookup_insert_eq. reflexivity.
  - rewrite lookup_insert_ne by exact Hne. reflexivity.
Qed.

Lemma draft_checkLimits_zero (m : Draft.Mem) (s : Draft.Store)
  (t : list Rule) :
  (forall x, usageOf (Draft.timeSpent m) x = 0) ->
  Draft.rules (Draft.checkLimits (Draft.mkWorld m s t)) = t.
Proof.
  intros H0. unfold Draft.checkLimits, Draft.TRACKED_DOMAINS.
  cbn [Draft.rules Draft.mem fold_left].
  unfold Draft.checkDomain, Draft.limitReached. now rewrite !H0.
Qed.

(** X30. The draft restores its ledger only in [onInstalled] and
    [onStartup]. After the worker has been stopped and started again,
    [setActiveDomain] (the body of every tab and focus listener) and the
    alarm tick store a ledger in which every counter is 0, whatever was
    stored before, and leave the rule table as it was; a later
    [restoreState] on that day reads those zero counters back. *)
Theorem draft_restart_forgets_ledger (e e' : Env) (w : Draft.World) :
  let w0 := Draft.restartWorker w in
  (forall domain,
      let w' := Draft.setActiveDomain e domain w0 in
      (exists ts, Draft.storedTimeSpent (Draft.store w') = Some ts
                  /\ Draft.dateKey (Draft.store w') = Some (Draft.todayKey e)
                  /\ forall x, usageOf ts x = 0)
      /\ Draft.rules w' = Draft.rules w
      /\ (Draft.todayKey e' = Draft.todayKey e ->
          forall x,
            usageOf (Draft.timeSpent
                       (Draft.mem (Draft.restoreState e'
                                     (Draft.restartWorker w')))) x = 0))
  /\ (let w' := Draft.handle e (Alarm "persist-timer") w0 in
      Draft.storedTimeSpent (Draft.store w') = Some ∅
      /\ Draft.rules w' = Draft.rules w).
Proof.
  intros w0. split.
  - intros domain w'.
    pose proof (draft_flush_fresh (nowMs e) domain) as H0. cbv zeta in H0.
    subst w' w0. unfold Draft.setActiveDomain, Draft.restartWorker.
    cbn [Draft.mem Draft.store Draft.rules].
    change (Draft.flushActiveTimer (nowMs e) Draft.freshMem)
      with Draft.freshMem.
    cbn [Draft.timeSpent Draft.freshMem].
    set (m' := match domain with
               | Some d =>
                   if Js.truthyStr (Some d)
                      && Js.includes Draft.TRACKED_DOMAINS d
                   then Draft.mkMem ∅ (Some d) (Some (nowMs e))
                   else Draft.mkMem ∅ None None
               | None => Draft.mkMem ∅ None None
               end) in *.
    unfold Draft.persistState. cbn [Draft.mem Draft.rules Draft.store].
    split; [|split].
    + eexists. cbn. split; [reflexivity|]. split; [reflexivity|exact H0].
    + now apply draft_checkLimits_zero.
    + intros Hk x. unfold Draft.restoreState, Draft.checkLimits.
      cbn [Draft.store Draft.dateKey Draft.storedTimeSpent Draft.mem
           Draft.restartWorker Draft.rules].
      rewrite <- Hk, String.eqb_refl. cbn [Draft.mem Draft.timeSpent].
      apply H0.
  - cbv zeta. subst w0. split; [reflexivity|].
    unfold Draft.handle. cbn [String.eqb Ascii.eqb Bool.eqb].
    unfold Draft.persistState, Draft.restartWorker.
    cbn [Draft.mem Draft.rules Draft.store].
    change (Draft.flushActiveTimer (nowMs e) Draft.freshMem)
      with Draft.freshMem.
    now apply draft_checkLimits_zero.
Qed.
